(** * Realtek RTL83xx/RTL93xx PHY driver: hardware access and patching engine

    Shallow embedding of [drivers/net/phy/rtl83xx-phy.c] and the properties
    its specification states about it.

    The driver talks to three kinds of collaborators that are not part of
    the file: the switch register space ([sw_r32]/[sw_w32]), the per-family
    MDIO transports ([rtl838x_write_phy] and friends) and the firmware
    loader.  They are parameters of the development; every access the driver
    makes is recorded, in program order, in the trace a computation
    returns.

    Beyond the properties of the specification (C1 to C10) the development
    covers the rest of the access layer and the PHY operations built on
    it: SerDes mode and reset, energy-efficient Ethernet, media selection,
    autonegotiation and status of the RTL8226, the SerDes configuration
    and the probe functions. *)

From Stdlib Require Import ZArith List Lia Bool.
From Stdlib Require Import Strings.Byte.
From stdpp Require Import base option list gmap.

Local Open Scope Z_scope.

(** ** Machine integers *)

Module Mach.

(** Conversion to [u32] / [u16] (C's modular conversion). *)
Definition u32 (z : Z) : Z := z mod 2 ^ 32.
Definition u16 (z : Z) : Z := z mod 2 ^ 16.

(** [BIT(nr)] is [1UL << nr] on a 32-bit kernel.  C defines it for
    [0 <= nr < 32] only; outside that range the model keeps the bits of the
    mathematical shift that fit in 32 bits. *)
Definition BIT (nr : Z) : Z := u32 (Z.shiftl 1 nr).

(** [~x] on a [u32]. *)
Definition not32 (x : Z) : Z := u32 (Z.lnot x).

(** Conversion of a [u32] to [int] (two's complement, as gcc does it). *)
Definition s32 (z : Z) : Z := if u32 z <? 2 ^ 31 then u32 z else u32 z - 2 ^ 32.

(** [EIO] from the kernel's errno table. *)
Definition EIO : Z := 5.

End Mach.
Import Mach.

(** ** Observable accesses *)

(** The SoC families of [soc_info.family].  [UNKNOWN_FAMILY_ID] stands for
    any other value of the field: the [switch] statements have no default
    case. *)
Inductive soc_family :=
| RTL8380_FAMILY_ID
| RTL8390_FAMILY_ID
| RTL9300_FAMILY_ID
| RTL9310_FAMILY_ID
| UNKNOWN_FAMILY_ID.

(** The per-family MDIO back ends ([rtl838x_*], [rtl839x_*], [rtl930x_*],
    [rtl931x_*]); they live in the Ethernet driver. *)
Inductive transport := T838x | T839x | T930x | T931x.

Inductive event :=
| EvR32 (reg v : Z)                         (* sw_r32(reg) returned v *)
| EvW32 (v reg : Z)                         (* sw_w32(v, reg) *)
| EvMdelay (ms : Z)                         (* mdelay(ms) *)
| EvMsleep (ms : Z)                         (* msleep(ms) *)
| EvLock                                    (* mutex_lock(&poll_lock) *)
| EvUnlock                                  (* mutex_unlock(&poll_lock) *)
| EvReadPhy (t : transport) (port page reg : Z)
| EvWritePhy (t : transport) (port page reg v : Z)
| EvReadMmd (t : transport) (port devnum regnum : Z)
| EvWriteMmd (t : transport) (port devnum regnum v : Z).

(** The writes to switch registers among the accesses. *)
Definition is_w32 (e : event) : bool :=
  match e with EvW32 _ _ => true | _ => false end.

(** Back end used by an MDIO access. *)
Definition transport_of (e : event) : option transport :=
  match e with
  | EvReadPhy t _ _ _ | EvWritePhy t _ _ _ _
  | EvReadMmd t _ _ _ | EvWriteMmd t _ _ _ _ => Some t
  | _ => None
  end.

(** ** Computations over the hardware

    A driver function is a function from the state of the hardware to its
    result, the state it leaves and the accesses it made, oldest first. *)

Definition M (hw A : Type) : Type := hw -> A * hw * list event.

#[global] Instance M_ret {hw} : MRet (M hw) := fun A a h => (a, h, []).

#[global] Instance M_bind {hw} : MBind (M hw) := fun A B f m h =>
  let '(a, h1, t1) := m h in
  let '(b, h2, t2) := f a h1 in
  (b, h2, t1 ++ t2).

Definition retval {hw A} (r : A * hw * list event) : A := r.1.1.
Definition final {hw A} (r : A * hw * list event) : hw := r.1.2.
Definition trace {hw A} (r : A * hw * list event) : list event := r.2.

(** An access that only leaves a mark in the trace. *)
Definition emit {hw} (e : event) : M hw unit := fun h => (tt, h, [e]).

Definition mdelay {hw} (ms : Z) : M hw unit := emit (EvMdelay ms).
Definition msleep {hw} (ms : Z) : M hw unit := emit (EvMsleep ms).
Definition mutex_lock {hw} : M hw unit := emit EvLock.
Definition mutex_unlock {hw} : M hw unit := emit EvUnlock.

(** ** Firmware buffers

    [fw->data] is a byte array; the realtek target is a big-endian MIPS, so
    a [uint32_t] field of the header is read most significant byte first. *)

Module Fw.

Definition byte_val (b : byte) : Z := Z.of_N (Byte.to_N b).

Definition byte_of (z : Z) : byte :=
  default x00 (Byte.of_N (Z.to_N (z mod 256))).

(** Byte [i] of the buffer.  The driver never looks outside the buffer
    for a header field once it has checked [fw->size]; an index that is
    out of range reads as zero here. *)
Definition byte_at (data : list byte) (i : nat) : Z :=
  byte_val (default x00 (data !! i)).

Definition load32 (data : list byte) (off : nat) : Z :=
  byte_at data off * 2 ^ 24 + byte_at data (off + 1) * 2 ^ 16
  + byte_at data (off + 2) * 2 ^ 8 + byte_at data (off + 3).

Definition load16 (data : list byte) (off : nat) : Z :=
  byte_at data off * 2 ^ 8 + byte_at data (off + 1).

(** In-place store of a [uint32_t]; a position outside the buffer is left
    alone (stdpp's list insert). *)
Definition store32 (off : nat) (v : Z) (data : list byte) : list byte :=
  <[off := byte_of (v / 2 ^ 24)]>
  (<[(off + 1)%nat := byte_of (v / 2 ^ 16)]>
  (<[(off + 2)%nat := byte_of (v / 2 ^ 8)]>
  (<[(off + 3)%nat := byte_of v]> data))).

(** A [u32 *] into the buffer: element [i] of the array that starts at byte
    [base].  [None] when the element is not inside the buffer (the C code
    would read foreign memory). *)
Definition word_at (data : list byte) (base i : nat) : option Z :=
  if (base + 4 * i + 4 <=? length data)%nat
  then Some (load32 data (base + 4 * i))
  else None.

(** [struct fw_header] is declared in [rtl83xx-phy.h]: its size, the place
    of the three [uint32_t] fields the driver reads, and the way to read
    [parts[k].start]. *)
Record fw_layout := {
  hdr_size : nat;                 (* sizeof(struct fw_header) *)
  off_magic : nat;                (* offsetof(struct fw_header, magic) *)
  off_checksum : nat;             (* offsetof(struct fw_header, checksum) *)
  off_phy : nat;                  (* offsetof(struct fw_header, phy) *)
  part_start : list byte -> nat -> nat   (* h->parts[k].start *)
}.

(** The kernel's [crc32()] is [crc32_le]: reflected polynomial
    [0xedb88320], no inversion of the seed or of the result. *)
Definition CRCPOLY_LE : Z := 0xedb88320.

Definition crc32_bit (crc : Z) : Z :=
  Z.lxor (Z.shiftr crc 1) (if Z.testbit crc 0 then CRCPOLY_LE else 0).

Definition crc32_byte (crc : Z) (b : byte) : Z :=
  Nat.iter 8 crc32_bit (Z.lxor crc (byte_val b)).

Definition crc32_le (crc : Z) (p : list byte) : Z := fold_left crc32_byte p crc.

(** The firmware files the driver asks the loader for. *)
Inductive fw_name := FIRMWARE_838X_8380_1 | FIRMWARE_838X_8214FC_1 | FIRMWARE_838X_8218b_1.

(** What [rtl838x_request_fw] leaves behind: the pointer it returns ([None]
    for [NULL]; otherwise the header, which is the start of the loader's
    buffer) and the content of the loader's buffer when it returns ([None]
    when the loader delivered no buffer). *)
Record fw_outcome := {
  fw_ret : option (list byte);
  fw_buf : option (list byte)
}.

End Fw.
Import Fw.

(** ** Concrete collaborators

    Stand-ins for the collaborators, used to run the driver on concrete
    inputs. *)

Module Sim.

(** A register file: every register keeps the last value written to it
    and reads as 0 before the first write. *)
Definition reg_r32 (reg : Z) (m : gmap Z Z) : Z * gmap Z Z :=
  (default 0 (m !! reg), m).

Definition reg_w32 (v reg : Z) (m : gmap Z Z) : gmap Z Z := <[reg := v]> m.

(** Value a register of the register file reads as. *)
Definition reg_value (m : gmap Z Z) (reg : Z) : Z := u32 (default 0 (m !! reg)).

(** A register space without state: reads return a fixed word. *)
Definition const_r32 (w : Z) (reg : Z) (h : unit) : Z * unit := (w, h).

(** An MDIO bus on which every PHY register reads as [0x6276], the
    internal ID of an external RTL8218B, and every access succeeds. *)
Definition phy_read (t : transport) (port page reg : Z) (h : unit)
  : Z * option Z * unit := (0, Some 0x6276, h).

Definition phy_write (t : transport) (port page reg v : Z) (h : unit)
  : Z * unit := (0, h).

(** The same for extended registers; a read stores 0. *)
Definition mmd_read (t : transport) (port devnum regnum : Z) (h : unit)
  : Z * option Z * unit := (0, Some 0, h).

Definition mmd_write (t : transport) (port devnum regnum v : Z) (h : unit)
  : Z * unit := (0, h).

(** An indirect-access block as the protocol describes it, with its
    command register at [0x3b0] and its data register at [0x3b4].  A
    command word with the start bit (bit 0) set is carried out at once:
    with the write bit (bit 1) set the low 16 bits of the data register
    go to the SerDes register the remaining bits address, otherwise that
    register is copied to the data register; afterwards the start bit
    reads as clear. *)
Record sds_block := {
  sds_command : Z;
  sds_data : Z;
  sds_regs : gmap Z Z
}.

Definition SDS_CMD : Z := 0x3b0.
Definition SDS_DATA : Z := 0x3b4.

Definition sds_r32 (reg : Z) (s : sds_block) : Z * sds_block :=
  (if reg =? SDS_CMD then sds_command s
   else if reg =? SDS_DATA then sds_data s
   else 0, s).

Definition sds_w32 (v reg : Z) (s : sds_block) : sds_block :=
  if reg =? SDS_DATA then
    {| sds_command := sds_command s; sds_data := v; sds_regs := sds_regs s |}
  else if reg =? SDS_CMD then
    if Z.testbit v 0 then
      let addr := Z.shiftr v 2 in
      if Z.testbit v 1 then
        {| sds_command := Z.clearbit v 0; sds_data := sds_data s;
           sds_regs := <[addr := sds_data s mod 2 ^ 16]> (sds_regs s) |}
      else
        {| sds_command := Z.clearbit v 0;
           sds_data := default 0 (sds_regs s !! addr);
           sds_regs := sds_regs s |}
    else
      {| sds_command := v; sds_data := sds_data s; sds_regs := sds_regs s |}
  else s.

(** The block with every SerDes register at 0. *)
Definition sds_reset : sds_block :=
  {| sds_command := 0; sds_data := 0; sds_regs := ∅ |}.

(** The SerDes register (lane, page, register) of the block. *)
Definition sds_reg (s : sds_block) (lane page reg : Z) : Z :=
  default 0 (sds_regs s !! Z.shiftr (Z.lor (Z.lor (Z.shiftl lane 2) (Z.shiftl page 7))
                                          (Z.shiftl reg 13)) 2).

(** [struct fw_header] as [rtl83xx-phy.h] declares it (packed):
    [magic], [phy], [checksum], [version], then ten [struct part] of a
    16 bit [start], an 8 bit [wordsize] and an 8 bit [words]. *)
Definition rtl83xx_fw_header : fw_layout :=
  {| hdr_size := 56;
     off_magic := 0;
     off_phy := 4;
     off_checksum := 8;
     part_start := fun h k => Z.to_nat (load16 h (16 + 4 * k)) |}.

Definition be16_bytes (z : Z) : list byte := [byte_of (z / 2 ^ 8); byte_of z].

Definition be32_bytes (z : Z) : list byte :=
  [byte_of (z / 2 ^ 24); byte_of (z / 2 ^ 16); byte_of (z / 2 ^ 8); byte_of z].

(** A firmware file: header with the given [phy] tag, checksum and part
    offsets, followed by the words of the parts. *)
Definition image (phy checksum : Z) (starts : list Z) (body : list Z) : list byte :=
  be32_bytes 0x83808380 ++ be32_bytes phy ++ be32_bytes checksum ++ be32_bytes 1
  ++ flat_map (fun s => be16_bytes s ++ [x04; x00]) starts
  ++ flat_map be32_bytes body.

(** The checksum the driver expects in an image. *)
Definition checksum_of (data : list byte) : Z :=
  not32 (crc32_le 0xFFFFFFFF (store32 8 0 data)).

Definition seal (data : list byte) : list byte := store32 8 (checksum_of data) data.

(** Part 0: two per-chip entries (port offset, register, value) and the end
    mark.  Part 1: two per-port entries (register, value) and the end
    mark.  The other parts are empty. *)
Definition rtl8218b_words : list Z :=
  [1; 0x1f; 0x0000;  2; 0x1e; 0x0008;  0; 0; 0;
   0x1f; 0x0a42;  0x10; 0x1234;  0; 0;
   0; 0].

Definition rtl8218b_starts : list Z := [0; 36; 60; 60; 60; 60; 60; 60; 60; 60].

Definition rtl8218b_fw : list byte :=
  seal (image 0x8218b000 0 rtl8218b_starts rtl8218b_words).

(** The same file with a checksum field that does not match. *)
Definition corrupt_fw : list byte :=
  image 0x8218b000 0xdeadbeef rtl8218b_starts rtl8218b_words.

(** A file with the same parts and the tag of the RTL8214FC. *)
Definition rtl8214fc_fw : list byte :=
  seal (image 0x8214fc00 0 rtl8218b_starts rtl8218b_words).

Definition loader (data : list byte) (name : fw_name) : option (list byte) := Some data.

(** A per-chip list whose first entry addresses port offset 0. *)
Definition perchip_offset0 : list Z := [0; 0x1f; 0x0000;  1; 0x1e; 0x0008;  0; 0; 0].

End Sim.

(** ** Kernel constants and the fields of [struct phy_device]

    [errno.h], [ethtool.h] and [phy.h] are not part of the driver; these
    are the values of the kernel the driver is built for. *)

Module Linux.

Definition ENOMEM : Z := 12.
Definition ENODEV : Z := 19.
Definition ENOTSUPP : Z := 524.

Definition PORT_MII : Z := 0x02.
Definition PORT_FIBRE : Z := 0x03.

Definition AUTONEG_ENABLE : Z := 0x01.



(** [!!x] *)
Definition truth (x : Z) : Z := if x =? 0 then 0 else 1.

End Linux.
Import Linux.

(** ** A board with plain registers

    A stand-in for the whole platform: the switch registers, the PHY
    registers behind the MDIO bus and the extended (MMD) registers are
    memory cells.  Each cell keeps the last value written to it and reads
    as 0 before the first write; every back end reaches the same cells and
    every access succeeds.  PHY cells are addressed by (port, page,
    register), MMD cells by (port, device, register). *)

Module Board.

Record board := {
  b_regs : gmap Z Z;
  b_phy : gmap (Z * Z * Z) Z;
  b_mmd : gmap (Z * Z * Z) Z
}.

Definition r32 (reg : Z) (b : board) : Z * board :=
  (default 0 (b_regs b !! reg), b).

Definition w32 (v reg : Z) (b : board) : board :=
  {| b_regs := <[reg := v]> (b_regs b); b_phy := b_phy b; b_mmd := b_mmd b |}.

Definition read_phy (t : transport) (port page reg : Z) (b : board)
  : Z * option Z * board :=
  (0, Some (default 0 (b_phy b !! (port, page, reg))), b).

Definition write_phy (t : transport) (port page reg v : Z) (b : board)
  : Z * board :=
  (0, {| b_regs := b_regs b; b_phy := <[(port, page, reg) := v]> (b_phy b);
         b_mmd := b_mmd b |}).

Definition read_mmd (t : transport) (port devnum regnum : Z) (b : board)
  : Z * option Z * board :=
  (0, Some (default 0 (b_mmd b !! (port, devnum, regnum))), b).

Definition write_mmd (t : transport) (port devnum regnum v : Z) (b : board)
  : Z * board :=
  (0, {| b_regs := b_regs b; b_phy := b_phy b;
         b_mmd := <[(port, devnum, regnum) := v]> (b_mmd b) |}).

(** What a PHY cell and an MMD cell read as. *)
Definition phy_cell (b : board) (port page reg : Z) : Z :=
  default 0 (b_phy b !! (port, page, reg)).

Definition mmd_cell (b : board) (port devnum regnum : Z) : Z :=
  default 0 (b_mmd b !! (port, devnum, regnum)).

(** The board after power-up. *)
Definition reset : board := {| b_regs := ∅; b_phy := ∅; b_mmd := ∅ |}.

End Board.

(** ** Vocabulary for the SerDes mode registers of the RTL9300 *)

(** The mode field of SerDes [sds_num] in the [SDS_MODE_SEL] registers:
    the register and the position of the lowest of its five bits. *)
Definition sds_mode_field (sds_num : Z) : option (Z * Z) :=
  if sds_num <? 0 then None
  else [(0x0194, 0); (0x0194, 6); (0x0194, 12); (0x0194, 18);
        (0x02a0, 0); (0x02a0, 6); (0x02a0, 12); (0x02a0, 18);
        (0x02a4, 0); (0x02a4, 6); (0x0198, 0); (0x0198, 6)] !! Z.to_nat sds_num.

(** The mode a register file holds for a SerDes. *)
Definition sds_mode (regs : gmap Z Z) (sds_num : Z) : option Z :=
  '(reg, lsb) ← sds_mode_field sds_num;
  Some (Z.land (Z.shiftr (Sim.reg_value regs reg) lsb) 0x1f).

(** ** Vocabulary for the polling registers *)

(** The polling registers of a family read the same in [after] as in
    [before].  RTL8390 has two of them; the driver has no polling register
    for RTL9310, where nothing at all may have changed. *)
Definition polling_restored (family : soc_family)
  (RTL838X_SMI_POLL_CTRL RTL839X_SMI_PORT_POLLING_CTRL RTL930X_SMI_POLL_CTRL : Z)
  (before after : gmap Z Z) : Prop :=
  match family with
  | RTL8380_FAMILY_ID =>
      Sim.reg_value after RTL838X_SMI_POLL_CTRL
      = Sim.reg_value before RTL838X_SMI_POLL_CTRL
  | RTL8390_FAMILY_ID =>
      Sim.reg_value after RTL839X_SMI_PORT_POLLING_CTRL
      = Sim.reg_value before RTL839X_SMI_PORT_POLLING_CTRL
      /\ Sim.reg_value after (RTL839X_SMI_PORT_POLLING_CTRL + 4)
         = Sim.reg_value before (RTL839X_SMI_PORT_POLLING_CTRL + 4)
  | RTL9300_FAMILY_ID =>
      Sim.reg_value after RTL930X_SMI_POLL_CTRL
      = Sim.reg_value before RTL930X_SMI_POLL_CTRL
  | RTL9310_FAMILY_ID | UNKNOWN_FAMILY_ID => after = before
  end.

(** ** The driver *)

Section Driver.

Context {hw : Type}.

(** The switch register space behind [sw_r32(reg)] and [sw_w32(val, reg)]. *)
Variable io_r32 : Z -> hw -> Z * hw.
Variable io_w32 : Z -> Z -> hw -> hw.

(** The MDIO back ends of the Ethernet driver.  A read returns its status
    and, when it stored one, the value it stored through [val]. *)
Variable bus_read_phy : transport -> Z -> Z -> Z -> hw -> Z * option Z * hw.
Variable bus_write_phy : transport -> Z -> Z -> Z -> Z -> hw -> Z * hw.
Variable bus_read_mmd : transport -> Z -> Z -> Z -> hw -> Z * option Z * hw.
Variable bus_write_mmd : transport -> Z -> Z -> Z -> Z -> hw -> Z * hw.

(** The firmware loader ([None]: [request_firmware] failed) and the
    kernel's [crc32]. *)
Variable request_firmware : fw_name -> option (list byte).
Variable crc32 : Z -> list byte -> Z.

(** [struct fw_header] of [rtl83xx-phy.h]. *)
Variable layout : fw_layout.

(** [soc_info.family] and [soc_info.id]. *)
Variable soc_info_family : soc_family.
Variable soc_info_id : Z.

(** What an uninitialised local holds when the code reads it. *)
Variable indeterminate : Z.

(** Register addresses of [mach-rtl83xx.h]. *)
Variable RTL838X_SMI_POLL_CTRL : Z.
Variable RTL839X_SMI_PORT_POLLING_CTRL : Z.
Variable RTL930X_SMI_POLL_CTRL : Z.
Variable RTL839X_SDS12_13_XSG0 : Z.
Variable RTL930X_SDS_INDACS_CMD : Z.
Variable RTL930X_SDS_INDACS_DATA : Z.
Variable RTL931X_SERDES_INDRT_ACCESS_CTRL : Z.
Variable RTL931X_SERDES_INDRT_DATA_CTRL : Z.
Variable RTL838X_DMY_REG31 : Z.

(** *** Register primitives *)

Definition sw_r32 (reg : Z) : M hw Z := fun h =>
  let '(v, h') := io_r32 reg h in (u32 v, h', [EvR32 reg (u32 v)]).

Definition sw_w32 (v reg : Z) : M hw unit := fun h =>
  (tt, io_w32 (u32 v) reg h, [EvW32 (u32 v) reg]).

(** [sw_w32_mask(clear, set, reg)] is the platform header's
    [sw_w32((sw_r32(reg) & ~(clear)) | (set), reg)]. *)
Definition sw_w32_mask (clear set reg : Z) : M hw unit :=
  v ← sw_r32 reg;
  sw_w32 (Z.lor (Z.land v (not32 clear)) set) reg.

Definition call_read_phy (t : transport) (port page reg val : Z) : M hw (Z * Z) :=
  fun h =>
    let '(ret, out, h') := bus_read_phy t port page reg h in
    ((ret, default val (u32 <$> out)), h', [EvReadPhy t port page reg]).

Definition call_write_phy (t : transport) (port page reg v : Z) : M hw Z :=
  fun h =>
    let '(ret, h') := bus_write_phy t port page reg v h in
    (ret, h', [EvWritePhy t port page reg v]).

Definition call_read_mmd (t : transport) (port devnum regnum val : Z) : M hw (Z * Z) :=
  fun h =>
    let '(ret, out, h') := bus_read_mmd t port devnum regnum h in
    ((ret, default val (u32 <$> out)), h', [EvReadMmd t port devnum regnum]).

Definition call_write_mmd (t : transport) (port devnum regnum v : Z) : M hw Z :=
  fun h =>
    let '(ret, h') := bus_write_mmd t port devnum regnum v h in
    (ret, h', [EvWriteMmd t port devnum regnum v]).

(** *** Family dispatch

    The parameters are [u32]; [val] is the content of [*val] before the
    call, the result carries the status and the content after it. *)

Definition read_phy (port page reg val : Z) : M hw (Z * Z) :=
  let port := u32 port in let page := u32 page in let reg := u32 reg in
  match soc_info_family with
  | RTL8380_FAMILY_ID => call_read_phy T838x port page reg val
  | RTL8390_FAMILY_ID => call_read_phy T839x port page reg val
  | RTL9300_FAMILY_ID => call_read_phy T930x port page reg val
  | RTL9310_FAMILY_ID => call_read_phy T931x port page reg val
  | UNKNOWN_FAMILY_ID => mret (-1, val)
  end.

Definition write_phy (port page reg v : Z) : M hw Z :=
  let port := u32 port in let page := u32 page in
  let reg := u32 reg in let v := u32 v in
  match soc_info_family with
  | RTL8380_FAMILY_ID => call_write_phy T838x port page reg v
  | RTL8390_FAMILY_ID => call_write_phy T839x port page reg v
  | RTL9300_FAMILY_ID => call_write_phy T930x port page reg v
  | RTL9310_FAMILY_ID => call_write_phy T931x port page reg v
  | UNKNOWN_FAMILY_ID => mret (-1)
  end.

Definition read_mmd_phy (port devnum regnum val : Z) : M hw (Z * Z) :=
  let port := u32 port in let devnum := u32 devnum in
  let regnum := u32 regnum in
  match soc_info_family with
  | RTL8380_FAMILY_ID => call_read_mmd T838x port devnum regnum val
  | RTL8390_FAMILY_ID => call_read_mmd T839x port devnum regnum val
  | RTL9300_FAMILY_ID => call_read_mmd T930x port devnum regnum val
  | RTL9310_FAMILY_ID => call_read_mmd T931x port devnum regnum val
  | UNKNOWN_FAMILY_ID => mret (-1, val)
  end.

Definition write_mmd_phy (port devnum reg v : Z) : M hw Z :=
  let port := u32 port in let devnum := u32 devnum in
  let reg := u32 reg in let v := u32 v in
  match soc_info_family with
  | RTL8380_FAMILY_ID => call_write_mmd T838x port devnum reg v
  | RTL8390_FAMILY_ID => call_write_mmd T839x port devnum reg v
  | RTL9300_FAMILY_ID => call_write_mmd T930x port devnum reg v
  | RTL9310_FAMILY_ID => call_write_mmd T931x port devnum reg v
  | UNKNOWN_FAMILY_ID => mret (-1)
  end.

(** [rtl838x_write_mmd_phy(port, devnum, reg, val)], the RTL8380 back end
    itself. *)
Definition rtl838x_write_mmd_phy (port devnum reg v : Z) : M hw Z :=
  call_write_mmd T838x (u32 port) (u32 devnum) (u32 reg) (u32 v).

(** *** Suspending and resuming the SoC's PHY polling

    [saved_state] is a [u64]; on RTL8390 it holds both polling words. *)

Definition disable_polling (port : Z) : M hw Z :=
  mutex_lock;;
  saved_state ←
    match soc_info_family with
    | RTL8380_FAMILY_ID =>
        saved_state ← sw_r32 RTL838X_SMI_POLL_CTRL;
        sw_w32_mask (BIT port) 0 RTL838X_SMI_POLL_CTRL;;
        mret saved_state
    | RTL8390_FAMILY_ID =>
        hi ← sw_r32 (RTL839X_SMI_PORT_POLLING_CTRL + 4);
        let saved_state := Z.shiftl hi 32 mod 2 ^ 64 in
        lo ← sw_r32 RTL839X_SMI_PORT_POLLING_CTRL;
        let saved_state := Z.lor saved_state lo in
        sw_w32_mask (BIT (Z.rem port 32)) 0
          (RTL839X_SMI_PORT_POLLING_CTRL + Z.shiftl (Z.shiftr port 5) 2);;
        mret saved_state
    | RTL9300_FAMILY_ID =>
        saved_state ← sw_r32 RTL930X_SMI_POLL_CTRL;
        sw_w32_mask (BIT port) 0 RTL930X_SMI_POLL_CTRL;;
        mret saved_state
    | RTL9310_FAMILY_ID => mret indeterminate    (* pr_warn: not implemented *)
    | UNKNOWN_FAMILY_ID => mret indeterminate
    end;
  mutex_unlock;;
  mret saved_state.

Definition resume_polling (saved_state : Z) : M hw Z :=
  mutex_lock;;
  match soc_info_family with
  | RTL8380_FAMILY_ID => sw_w32 saved_state RTL838X_SMI_POLL_CTRL
  | RTL8390_FAMILY_ID =>
      sw_w32 (Z.shiftr saved_state 32) (RTL839X_SMI_PORT_POLLING_CTRL + 4);;
      sw_w32 saved_state RTL839X_SMI_PORT_POLLING_CTRL
  | RTL9300_FAMILY_ID => sw_w32 saved_state RTL930X_SMI_POLL_CTRL
  | RTL9310_FAMILY_ID => mret tt                 (* pr_warn: not implemented *)
  | UNKNOWN_FAMILY_ID => mret tt
  end;;
  mutex_unlock;;
  mret 0.

(** *** PHY power and reset *)

Definition rtl8380_int_phy_on_off (mac : Z) (on : bool) : M hw unit :=
  '(_, val) ← read_phy mac 0 0 indeterminate;
  (if on then write_phy mac 0 0 (Z.land val (not32 (BIT 11)))
   else write_phy mac 0 0 (Z.lor val (BIT 11)));;
  mret tt.

Definition rtl8380_phy_reset (mac : Z) : M hw unit :=
  '(_, val) ← read_phy mac 0 0 indeterminate;
  write_phy mac 0 0 (Z.lor val (BIT 15));;
  mret tt.

(** *** SerDes access *)

(** RTL839x: the SerDes registers sit in a 2048 bit wide register. *)
Definition rtl839x_read_sds_phy (phy_addr phy_reg : Z) : M hw Z :=
  let offset := if phy_addr =? 49 then 0x100 else 0 in
  if (soc_info_id =? 0x8393) && (phy_reg =? 2) then mret 0x1c
  else if (soc_info_id =? 0x8393) && (phy_reg =? 3) then mret 0x8393
  else
    let reg := Z.land (Z.shiftl phy_reg 1) 0xfc in
    val ← sw_r32 (RTL839X_SDS12_13_XSG0 + offset + 0x80 + reg);
    let val :=
      if negb (Z.land phy_reg 1 =? 0)
      then Z.land (Z.shiftr val 16) 0xffff
      else Z.land val 0xffff in
    mret val.

(** The command word of the RTL930x/RTL931x indirect access. *)
Definition sds_cmd (phy_addr page phy_reg : Z) : Z :=
  Z.lor (Z.lor (Z.shiftl phy_addr 2) (Z.shiftl page 7)) (Z.shiftl phy_reg 13).

(** The wait loop all four indirect accessors contain:
[[
    for (i = 0; i < 100; i++) {
        if (!(sw_r32(reg) & 0x1)) break;
        mdelay(1);
    }
]]
    [n] is the number of iterations left, the result is the final [i]. *)
Fixpoint sds_wait (reg : Z) (n : nat) (i : Z) : M hw Z :=
  match n with
  | O => mret i
  | S n' =>
      v ← sw_r32 reg;
      if Z.land v 1 =? 0 then mret i
      else mdelay 1;; sds_wait reg n' (i + 1)
  end.

(** RTL930x/RTL931x: the SerDes registers are reached through a command
    and a data register.  The [pr_debug] lines are left out: without
    [DEBUG] their arguments are not evaluated. *)
Definition rtl930x_read_sds_phy (phy_addr page phy_reg : Z) : M hw Z :=
  let cmd := u32 (Z.lor (sds_cmd phy_addr page phy_reg) 1) in
  sw_w32 cmd RTL930X_SDS_INDACS_CMD;;
  i ← sds_wait RTL930X_SDS_INDACS_CMD 100 0;
  if 100 <=? i then mret (- EIO)
  else
    v ← sw_r32 RTL930X_SDS_INDACS_DATA;
    mret (Z.land v 0xffff).

(** [v] is a [u16] parameter.  [cmd] is assigned and not used, as in the
    source. *)
Definition rtl930x_write_sds_phy (phy_addr page phy_reg v : Z) : M hw Z :=
  let v := u16 v in
  sw_w32 v RTL930X_SDS_INDACS_DATA;;
  let cmd := u32 (Z.lor (sds_cmd phy_addr page phy_reg) 0x3) in
  i ← sds_wait RTL930X_SDS_INDACS_CMD 100 0;
  if 100 <=? i then mret (- EIO)
  else mret 0.

Definition rtl931x_read_sds_phy (phy_addr page phy_reg : Z) : M hw Z :=
  let cmd := u32 (Z.lor (sds_cmd phy_addr page phy_reg) 1) in
  sw_w32 cmd RTL931X_SERDES_INDRT_ACCESS_CTRL;;
  i ← sds_wait RTL931X_SERDES_INDRT_ACCESS_CTRL 100 0;
  if 100 <=? i then mret (- EIO)
  else
    v ← sw_r32 RTL931X_SERDES_INDRT_DATA_CTRL;
    mret (Z.land v 0xffff).

Definition rtl931x_write_sds_phy (phy_addr page phy_reg v : Z) : M hw Z :=
  let v := u16 v in
  let cmd := u32 (sds_cmd phy_addr page phy_reg) in
  sw_w32 cmd RTL931X_SERDES_INDRT_ACCESS_CTRL;;
  sw_w32 v RTL931X_SERDES_INDRT_DATA_CTRL;;
  c ← sw_r32 RTL931X_SERDES_INDRT_ACCESS_CTRL;
  let cmd := Z.lor c 0x3 in
  sw_w32 cmd RTL931X_SERDES_INDRT_ACCESS_CTRL;;
  i ← sds_wait RTL931X_SERDES_INDRT_ACCESS_CTRL 100 0;
  if 100 <=? i then mret (- EIO)
  else mret 0.

(** *** Bit fields of RTL9300 SerDes registers *)

Definition rtl9300_sds_field_w (sds page reg end_bit start_bit v : Z) : M hw unit :=
  let l := end_bit - start_bit - 1 in
  let v := u32 v in
  data ←
    (if l <? 32 then
       let mask := u32 (BIT l - 1) in
       data ← rtl930x_read_sds_phy sds page reg;
       let data := u32 data in
       let data := Z.land data (not32 (u32 (Z.shiftl mask start_bit))) in
       let data := Z.lor data (u32 (Z.shiftl (Z.land v mask) start_bit)) in
       mret data
     else mret v);
  rtl930x_write_sds_phy sds page reg data;;
  mret tt.

Definition rtl9300_sds_field_r (sds page reg end_bit start_bit : Z) : M hw Z :=
  let l := end_bit - start_bit - 1 in
  v ← rtl930x_read_sds_phy sds page reg;
  let v := u32 v in
  if 32 <=? l then mret v
  else mret (Z.land (Z.shiftr v start_bit) (u32 (BIT l - 1))).

(** *** Loading and checking a firmware file *)

Definition rtl838x_request_fw (name : fw_name) : fw_outcome :=
  match request_firmware name with
  | None => {| fw_ret := None; fw_buf := None |}            (* err < 0 *)
  | Some data =>
      if (length data <? hdr_size layout)%nat
      then {| fw_ret := None; fw_buf := Some data |}        (* too small *)
      else if negb (load32 data (off_magic layout) =? 0x83808380)
      then {| fw_ret := None; fw_buf := Some data |}        (* MAGIC mismatch *)
      else
        let checksum := load32 data (off_checksum layout) in
        let data := store32 (off_checksum layout) 0 data in
        let my_checksum := not32 (crc32 0xFFFFFFFF data) in
        if negb (checksum =? my_checksum)
        then {| fw_ret := None; fw_buf := Some data |}      (* checksum mismatch *)
        else
          let data := store32 (off_checksum layout) checksum data in
          {| fw_ret := Some data; fw_buf := Some data |}
  end.

(** The pointer [h + sizeof(struct fw_header) + h->parts[k].start] (in
    bytes), seen as the [u32] array the driver indexes. *)
Definition fw_part (h : list byte) (k : nat) : nat -> option Z :=
  word_at h (hdr_size layout + part_start layout h k).

(** *** Replaying the write-lists of a firmware file

    The loops walk an array inside the firmware buffer until they meet
    their end mark.  [fuel] bounds the walk (every round moves to the next
    entry, so the length of the buffer is enough); the result is [false]
    when the walk leaves the buffer. *)

(** [[
    i = 0;
    while (arr[i * 2]) {
        write_phy(port, 0xfff, arr[i * 2], arr[i * 2 + 1]);
        i++;
    }
]] *)
Fixpoint patch_perport (fuel : nat) (arr : nat -> option Z) (port : Z) (i : nat)
  : M hw bool :=
  match fuel with
  | O => mret false
  | S fuel' =>
      match arr (i * 2)%nat with
      | None => mret false
      | Some r =>
          if r =? 0 then mret true
          else
            match arr (i * 2 + 1)%nat with
            | None => mret false
            | Some v =>
                write_phy port 0xfff r v;;
                patch_perport fuel' arr port (S i)
            end
      end
  end.

(** [[
    i = 0;
    while (arr[i * 3] && arr[i * 3 + 1]) {
        write_phy(mac + arr[i * 3], 0xfff, arr[i * 3 + 1], arr[i * 3 + 2]);
        i++;
    }
]] *)
Fixpoint patch_perchip (fuel : nat) (arr : nat -> option Z) (mac : Z) (i : nat)
  : M hw bool :=
  match fuel with
  | O => mret false
  | S fuel' =>
      match arr (i * 3)%nat with
      | None => mret false
      | Some p =>
          if p =? 0 then mret true
          else
            match arr (i * 3 + 1)%nat with
            | None => mret false
            | Some r =>
                if r =? 0 then mret true
                else
                  match arr (i * 3 + 2)%nat with
                  | None => mret false
                  | Some v =>
                      write_phy (mac + p) 0xfff r v;;
                      patch_perchip fuel' arr mac (S i)
                  end
            end
      end
  end.

(** [for (p = 0; p < 8; p++) body(p)] *)
Fixpoint for_each (body : Z -> M hw unit) (ps : list Z) : M hw unit :=
  match ps with
  | [] => mret tt
  | p :: ps' => body p;; for_each body ps'
  end.

Definition ports8 : list Z := [0; 1; 2; 3; 4; 5; 6; 7].

(** [[
    for (l = 0; l < 100; l++) {
        read_phy(port, 0xb80, 0x10, &val);
        if (val & 0x40) break;
    }
]]
    The result is the final [l] and [val]. *)
Fixpoint patch_ready_wait (port : Z) (n : nat) (l val : Z) : M hw (Z * Z) :=
  match n with
  | O => mret (l, val)
  | S n' =>
      '(_, val) ← read_phy port 0xb80 0x10 val;
      if negb (Z.land val 0x40 =? 0) then mret (l, val)
      else patch_ready_wait port n' (l + 1) val
  end.

(** The readiness check of all eight ports; [false] when one of them
    exhausted its 100 reads ([return -1]). *)
Fixpoint verify_patch_ready (mac : Z) (ps : list Z) (val : Z) : M hw (bool * Z) :=
  match ps with
  | [] => mret (true, val)
  | p :: ps' =>
      '(l, val) ← patch_ready_wait (mac + p) 100 0 val;
      if 100 <=? l then mret (false, val)
      else verify_patch_ready mac ps' val
  end.

(** The last loop of [rtl8380_configure_int_rtl8218b]: both per-port lists,
    port by port. *)
Fixpoint patch_int_ports (fuel : nat) (l1 l2 : nat -> option Z) (mac : Z)
  (ps : list Z) : M hw bool :=
  match ps with
  | [] => mret true
  | p :: ps' =>
      ok ← patch_perport fuel l1 (mac + p) 0;
      if negb ok then mret false
      else
        ok ← patch_perport fuel l2 (mac + p) 0;
        if negb ok then mret false
        else patch_int_ports fuel l1 l2 mac ps'
  end.

(** [phydev->mdio.addr] is the only field of [phydev] the function uses.
    The result is [None] when a list walk left the firmware buffer. *)
Definition rtl8380_configure_int_rtl8218b (mac : Z) : M hw (option Z) :=
  '(_, val) ← read_phy mac 0 2 indeterminate;
  '(_, val) ← read_phy mac 0 3 val;
  (* Read internal PHY ID *)
  write_phy mac 31 27 0x0002;;
  '(_, val) ← read_phy mac 31 28 val;
  if negb (val =? 0x6275) then mret (Some (-1))
  else
    match fw_ret (rtl838x_request_fw FIRMWARE_838X_8380_1) with
    | None => mret (Some (-1))
    | Some h =>
        if negb (load32 h (off_phy layout) =? 0x83800000) then mret (Some (-1))
        else
          let rtl838x_6275B_intPhy_perport := fw_part h 8 in
          let rtl8218b_6276B_hwEsd_perport := fw_part h 9 in
          sw_r32 RTL838X_DMY_REG31;;
          '(_, val) ← read_phy mac 0 0 val;
          (if negb (Z.land val (Z.shiftl 1 11) =? 0)
           then rtl8380_int_phy_on_off mac true
           else rtl8380_phy_reset mac);;
          msleep 100;;
          (* Ready PHY for patch *)
          for_each (fun p =>
            write_phy (mac + p) 0xfff 0x1f 0x0b82;;
            write_phy (mac + p) 0xfff 0x10 0x0010;;
            mret tt) ports8;;
          msleep 500;;
          '(ready, val) ← verify_patch_ready mac ports8 val;
          if negb ready then mret (Some (-1))
          else
            ok ← patch_int_ports (S (length h))
                   rtl838x_6275B_intPhy_perport
                   rtl8218b_6276B_hwEsd_perport mac ports8;
            if negb ok then mret None else mret (Some 0)
    end.

(** The two halves of the broadcast bracket.  They are not functions of
    the driver: they name the two runs of six writes of
    [rtl8380_configure_ext_rtl8218b] so that its body below reads like the
    source. *)
Definition broadcast_id_write (mac id : Z) : M hw unit :=
  write_phy mac 0xfff 0x1f 0x0000;;
  write_phy mac 0xfff 0x1d 0x0008;;
  write_phy mac 0xfff 0x1f 0x0266;;
  write_phy mac 0xfff 0x16 id;;
  write_phy mac 0xfff 0x1f 0x0000;;
  write_phy mac 0xfff 0x1d 0x0000;;
  mdelay 1.

Definition rtl8380_configure_ext_rtl8218b (mac : Z) : M hw (option Z) :=
  if match soc_info_family with RTL8380_FAMILY_ID => true | _ => false end
     && negb (mac =? 0) && negb (mac =? 16)
  then mret (Some (-1))
  else
  '(_, val) ← read_phy mac 0 2 indeterminate;
  '(_, val) ← read_phy mac 0 3 val;
  (* Read internal PHY ID *)
  write_phy mac 31 27 0x0002;;
  '(_, val) ← read_phy mac 31 28 val;
  if negb (val =? 0x6276) then mret (Some (-1))
  else
    match fw_ret (rtl838x_request_fw FIRMWARE_838X_8218b_1) with
    | None => mret (Some (-1))
    | Some h =>
        if negb (load32 h (off_phy layout) =? 0x8218b000) then mret (Some (-1))
        else
          let rtl8380_rtl8218b_perchip := fw_part h 0 in
          let rtl8218B_6276B_rtl8380_perport := fw_part h 1 in
          let rtl8380_rtl8218b_perport := fw_part h 2 in
          '(_, val) ← read_phy mac 0 0 val;
          (if negb (Z.land val (Z.shiftl 1 11) =? 0)
           then rtl8380_int_phy_on_off mac true
           else rtl8380_phy_reset mac);;
          msleep 100;;
          (* Get Chip revision *)
          write_phy mac 0xfff 0x1f 0x0;;
          write_phy mac 0xfff 0x1b 0x4;;
          '(_, val) ← read_phy mac 0xfff 0x1c val;
          ok ← patch_perchip (S (length h)) rtl8380_rtl8218b_perchip mac 0;
          if negb ok then mret None
          else
            (* Enable PHY *)
            for_each (fun i =>
              write_phy (mac + i) 0xfff 0x1f 0x0000;;
              write_phy (mac + i) 0xfff 0x00 0x1140;;
              mret tt) ports8;;
            mdelay 100;;
            (* Request patch *)
            for_each (fun i =>
              write_phy (mac + i) 0xfff 0x1f 0x0b82;;
              write_phy (mac + i) 0xfff 0x10 0x0010;;
              mret tt) ports8;;
            mdelay 300;;
            (* Verify patch readiness *)
            '(ready, val) ← verify_patch_ready mac ports8 val;
            if negb ready then mret (Some (-1))
            else
              (* Use Broadcast ID method for patching *)
              broadcast_id_write mac (0xff00 + mac);;
              write_phy mac 0xfff 30 8;;
              write_phy mac 0x26e 17 0xb;;
              write_phy mac 0x26e 16 0x2;;
              mdelay 1;;
              read_phy mac 0x26e 19 indeterminate;;
              write_phy mac 0 30 0;;
              ok ← patch_perport (S (length h)) rtl8218B_6276B_rtl8380_perport mac 0;
              if negb ok then mret None
              else
                (* Disable broadcast ID *)
                broadcast_id_write mac (0x00 + mac);;
                mret (Some 0)
    end.

(** *** Extended (MMD) registers of the RTL8218B

    [addr] is [phydev->mdio.addr]; [regnum] and [val] are [u16]
    parameters. *)

Definition rtl8218b_read_mmd (addr devnum regnum : Z) : M hw Z :=
  let regnum := u16 regnum in
  '(ret, val) ← read_mmd_phy addr devnum regnum indeterminate;
  if negb (ret =? 0) then mret ret
  else mret (s32 val).

Definition rtl8218b_write_mmd (addr devnum regnum val : Z) : M hw Z :=
  let regnum := u16 regnum in
  let val := u16 val in
  rtl838x_write_mmd_phy addr devnum regnum val.

(** *** More register addresses of [mach-rtl83xx.h], the MMD device
    numbers of [rtl83xx-phy.h], and the outcome of [devm_kzalloc] ([true]:
    the allocation succeeded) *)

Variable RTL931X_PS_SERDES_OFF_MODE_CTRL_ADDR : Z.
Variable RTL931X_SERDES_MODE_CTRL : Z.
Variable RTL838X_SDS_CFG_REG : Z.
Variable RTL838X_INT_RW_CTRL : Z.
Variable RTL838X_INT_MODE_CTRL : Z.
Variable RTL838X_SDS_MODE_SEL : Z.
Variable RTL838X_PLL_CML_CTRL : Z.
Variable MMD_AN : Z.
Variable MMD_VEND2 : Z.
Variable devm_kzalloc : bool.

(** *** SerDes mode and reset *)

(** [sds_num] is an [int], [mode] a [u32]; the two tables are those of the
    source. *)
Definition rtl9300_sds_rst (sds_num mode : Z) : M hw unit :=
  let regs := [0x0194; 0x0194; 0x0194; 0x0194; 0x02a0; 0x02a0; 0x02a0; 0x02a0;
               0x02A4; 0x02A4; 0x0198; 0x0198] in
  let lsb := [0; 6; 12; 18; 0; 6; 12; 18; 0; 6; 0; 6] in
  let mode := u32 mode in
  if (sds_num <? 0) || (11 <? sds_num) then mret tt   (* pr_err; return *)
  else
    let reg := default 0 (regs !! Z.to_nat sds_num) in
    let l := default 0 (lsb !! Z.to_nat sds_num) in
    sw_w32_mask (Z.shiftl 0x1f l) (Z.shiftl 0x1f l) reg;;
    mdelay 10;;
    sw_w32_mask (Z.shiftl 0x1f l) (Z.shiftl mode l) reg;;
    mdelay 10.

(** RTL839x: the write that goes with [rtl839x_read_sds_phy]; [v] is a
    [u16] parameter. *)
Definition rtl839x_write_sds_phy (phy_addr phy_reg v : Z) : M hw Z :=
  let v := u16 v in
  let offset := if phy_addr =? 49 then 0x100 else 0 in
  let reg := Z.land (Z.shiftl phy_reg 1) 0xfc in
  let val := v in
  (if negb (Z.land phy_reg 1 =? 0) then
     let val := u32 (Z.shiftl val 16) in
     sw_w32_mask 0xffff0000 val (RTL839X_SDS12_13_XSG0 + offset + 0x80 + reg)
   else
     sw_w32_mask 0xffff val (RTL839X_SDS12_13_XSG0 + offset + 0x80 + reg));;
  mret 0.

Definition rtl8390_configure_serdes : M hw Z :=
  (* In autoneg state, force link, set SR4_CFG_EN_LINK_FIB1G *)
  sw_w32_mask 0 (Z.shiftl 1 18) (RTL839X_SDS12_13_XSG0 + 0x0a);;
  (* Disable EEE *)
  sw_w32_mask (Z.shiftl 0x1f 10) 0 (RTL839X_SDS12_13_XSG0 + 0xe0);;
  mret 0.

(** *** Bit fields of RTL9310 SerDes registers

    The read of [rtl9310_sds_field_w] goes through [rtl930x_read_sds_phy],
    as in the source. *)


Definition rtl9310_sds_field_r (sds page reg end_bit start_bit : Z) : M hw Z :=
  let l := end_bit - start_bit - 1 in
  v ← rtl931x_read_sds_phy sds page reg;
  let v := u32 v in
  if 32 <=? l then mret v
  else mret (Z.land (Z.shiftr v start_bit) (u32 (BIT l - 1))).

(** [sds] is a [u32]. *)
Definition rtl931x_sds_rst (sds : Z) : M hw unit :=
  let sds := u32 sds in
  let shift := Z.shiftl (Z.land sds 0x3) 3 in
  o ← sw_r32 RTL931X_PS_SERDES_OFF_MODE_CTRL_ADDR;
  let v := Z.lor o (BIT sds) in
  sw_w32 v RTL931X_PS_SERDES_OFF_MODE_CTRL_ADDR;;
  o_mode ← sw_r32 (u32 (RTL931X_SERDES_MODE_CTRL + 4 * Z.shiftr sds 2));
  let v := Z.lor (BIT 7) 0x1F in
  sw_w32_mask (Z.shiftl 0xff shift) (Z.shiftl v shift)
    (u32 (RTL931X_SERDES_MODE_CTRL + 4 * Z.shiftr sds 2));;
  sw_w32 o_mode (u32 (RTL931X_SERDES_MODE_CTRL + 4 * Z.shiftr sds 2));;
  sw_w32 o RTL931X_PS_SERDES_OFF_MODE_CTRL_ADDR.

Definition rtl931x_get_analog_sds (sds : Z) : Z :=
  let sds := u32 sds in
  let sds_map := [0; 1; 2; 3; 6; 7; 10; 11; 14; 15; 18; 19; 22; 23] in
  if sds <? 14 then default 0 (sds_map !! Z.to_nat sds)
  else sds.

(** *** The RTL8226 through its extended registers

    [port] is [phydev->mdio.addr]. *)


Definition rtl8226_advertise_aneg (port : Z) : M hw Z :=
  '(ret, v) ← read_mmd_phy port MMD_AN 16 indeterminate;
  if negb (ret =? 0) then mret ret
  else
    let v := Z.lor v (BIT 5) in      (* HD 10M *)
    let v := Z.lor v (BIT 6) in      (* FD 10M *)
    let v := Z.lor v (BIT 7) in      (* HD 100M *)
    let v := Z.lor v (BIT 8) in      (* FD 100M *)
    write_mmd_phy port MMD_AN 16 v;;
    (* Allow 1GBit *)
    '(ret, v) ← read_mmd_phy port MMD_VEND2 0xA412 v;
    if negb (ret =? 0) then mret ret
    else
      let v := Z.lor v (BIT 9) in    (* FD 1000M *)
      ret ← write_mmd_phy port MMD_VEND2 0xA412 v;
      if negb (ret =? 0) then mret ret
      else
        (* Allow 2.5G *)
        '(ret, v) ← read_mmd_phy port MMD_AN 32 v;
        if negb (ret =? 0) then mret ret
        else
          let v := Z.lor v (BIT 7) in
          write_mmd_phy port MMD_AN 32 v.

(** [autoneg] is [phydev->autoneg]. *)
Definition rtl8226_config_aneg (port autoneg : Z) : M hw Z :=
  if autoneg =? AUTONEG_ENABLE then
    ret ← rtl8226_advertise_aneg port;
    if negb (ret =? 0) then mret ret
    else
      (* AutoNegotiationEnable *)
      '(ret, v) ← read_mmd_phy port MMD_AN 0 indeterminate;
      if negb (ret =? 0) then mret ret
      else
        let v := Z.lor v (BIT 12) in   (* Enable AN *)
        ret ← write_mmd_phy port MMD_AN 0 v;
        if negb (ret =? 0) then mret ret
        else
          (* RestartAutoNegotiation *)
          '(ret, v) ← read_mmd_phy port MMD_VEND2 0xA400 v;
          if negb (ret =? 0) then mret ret
          else
            let v := Z.lor v (BIT 9) in
            write_mmd_phy port MMD_VEND2 0xA400 v
  else mret 0.

(** [eee_enabled] is [e->eee_enabled] ([__u32]) before the call; the
    result carries the status and the field after it. *)
Definition rtl8226_get_eee (addr eee_enabled : Z) : M hw (Z * Z) :=
  '(_, val) ← read_mmd_phy addr MMD_AN 60 indeterminate;
  eee_enabled ←
    (if negb (eee_enabled =? 0) then
       let eee_enabled := truth (Z.land val (BIT 1)) in
       if eee_enabled =? 0 then
         '(_, val) ← read_mmd_phy addr MMD_AN 62 val;
         mret (truth (Z.land val (BIT 0)))
       else mret eee_enabled
     else mret eee_enabled);
  mret (0, eee_enabled).

Definition rtl8226_set_eee (port eee_enabled : Z) : M hw Z :=
  poll_state ← disable_polling port;
  (* Remember aneg state *)
  '(_, val) ← read_mmd_phy port MMD_AN 0 indeterminate;
  let an_enabled := truth (Z.land val (BIT 12)) in
  (* Setup 100/1000MBit *)
  '(_, val) ← read_mmd_phy port MMD_AN 60 val;
  let val := if negb (eee_enabled =? 0) then Z.lor val 0x6 else Z.land val 0x6 in
  write_mmd_phy port MMD_AN 60 val;;
  (* Setup 2.5GBit *)
  '(_, val) ← read_mmd_phy port MMD_AN 62 val;
  let val := if negb (eee_enabled =? 0) then Z.lor val 0x1 else Z.land val 0x1 in
  write_mmd_phy port MMD_AN 62 val;;
  (* RestartAutoNegotiation *)
  '(_, val) ← read_mmd_phy port MMD_VEND2 0xA400 val;
  let val := Z.lor val (BIT 9) in
  write_mmd_phy port MMD_VEND2 0xA400 val;;
  resume_polling poll_state;;
  mret 0.

(** [regnum] and [val] are [u16] parameters. *)
Definition rtl8226_read_mmd (port devnum regnum : Z) : M hw Z :=
  let regnum := u16 regnum in
  '(err, val) ← read_mmd_phy port devnum regnum indeterminate;
  if negb (err =? 0) then mret err
  else mret (s32 val).

Definition rtl8226_write_mmd (port devnum regnum val : Z) : M hw Z :=
  let regnum := u16 regnum in
  let val := u16 val in
  write_mmd_phy port devnum regnum val.

(** *** Media selection of the RTL8214FC *)

(** [reg[mac % 4]] for the table [{16, 19, 20, 21}] of the two functions
    below; [%] truncates, so a negative [mac] indexes in front of the
    table. *)
Definition rtl8214fc_media_reg (mac : Z) : Z :=
  match Z.rem mac 4 with
  | 0 => 16
  | 1 => 19
  | 2 => 20
  | 3 => 21
  | _ => indeterminate
  end.

(** [val] and [power] are [int]s the reads fill through a [u32 *]. *)
Definition rtl8380_rtl8214fc_media_set (mac : Z) (set_fibre : bool) : M hw unit :=
  let base := mac - Z.rem mac 4 in
  let reg := rtl8214fc_media_reg mac in
  write_phy base 0xfff 29 8;;
  '(_, val) ← read_phy base 0x266 reg indeterminate;
  let val := s32 val in
  let media := Z.land (Z.shiftr val 10) 0x3 in
  power ←
    (if negb (Z.land media 0x2 =? 0) then
       (* Powering off COPPER *)
       write_phy base 0xfff 29 1;;
       (* Ensure power is off *)
       '(_, power) ← read_phy base 0xa40 16 indeterminate;
       let power := s32 power in
       (if Z.land power (Z.shiftl 1 11) =? 0
        then write_phy base 0xa40 16 (Z.lor power (Z.shiftl 1 11));; mret tt
        else mret tt);;
       mret power
     else
       (* Powering off FIBRE *)
       write_phy base 0xfff 29 3;;
       (* Ensure power is off *)
       '(_, power) ← read_phy base 0xa40 16 indeterminate;
       let power := s32 power in
       (if Z.land power (Z.shiftl 1 11) =? 0
        then write_phy base 0xa40 16 (Z.lor power (Z.shiftl 1 11));; mret tt
        else mret tt);;
       mret power);
  let val :=
    if set_fibre
    then Z.land (Z.lor val (Z.shiftl 1 10)) (Z.lnot (Z.shiftl 1 11))
    else Z.lor (Z.lor val (Z.shiftl 1 10)) (Z.shiftl 1 11) in
  write_phy base 0xfff 29 8;;
  write_phy base 0x266 reg val;;
  write_phy base 0xfff 29 0;;
  (if set_fibre then
     (* Powering on FIBRE *)
     write_phy base 0xfff 29 3;;
     '(_, power) ← read_phy base 0xa40 16 power;
     let power := s32 power in
     if negb (Z.land power (Z.shiftl 1 11) =? 0)
     then write_phy base 0xa40 16 (Z.land power (Z.lnot (Z.shiftl 1 11)));; mret tt
     else mret tt
   else
     (* Powering on COPPER *)
     write_phy base 0xfff 29 1;;
     '(_, power) ← read_phy base 0xa40 16 power;
     let power := s32 power in
     if negb (Z.land power (Z.shiftl 1 11) =? 0)
     then write_phy base 0xa40 16 (Z.land power (Z.lnot (Z.shiftl 1 11)));; mret tt
     else mret tt);;
  write_phy base 0xfff 29 0;;
  mret tt.

Definition rtl8380_rtl8214fc_media_is_fibre (mac : Z) : M hw bool :=
  let base := mac - Z.rem mac 4 in
  let reg := rtl8214fc_media_reg mac in
  write_phy base 0xfff 29 8;;
  '(_, val) ← read_phy base 0x266 reg indeterminate;
  write_phy base 0xfff 29 0;;
  if negb (Z.land val (Z.shiftl 1 11) =? 0) then mret false
  else mret true.

(** [addr] is [phydev->mdio.addr]. *)
Definition rtl8214fc_set_port (addr port : Z) : M hw Z :=
  let is_fibre := port =? PORT_FIBRE in
  rtl8380_rtl8214fc_media_set addr is_fibre;;
  mret 0.

Definition rtl8214fc_get_port (addr : Z) : M hw Z :=
  fibre ← rtl8380_rtl8214fc_media_is_fibre addr;
  if (fibre : bool) then mret PORT_FIBRE
  else mret PORT_MII.

(** *** Energy-efficient Ethernet *)

Definition rtl8218d_eee_set (port : Z) (enable : bool) : M hw unit :=
  (* Set GPHY page to copper *)
  write_phy port 0xa42 30 0x0001;;
  '(_, val) ← read_phy port 0 0 indeterminate;
  let an_enabled := negb (Z.land val (BIT 12) =? 0) in
  (* Enable 100M (bit 1) / 1000M (bit 2) EEE *)
  '(_, val) ← read_mmd_phy port 7 60 val;
  let val := Z.lor val (Z.lor (BIT 2) (BIT 1)) in
  write_mmd_phy port 7 60 (if enable then 0x6 else 0);;
  (* 500M EEE ability *)
  '(_, val) ← read_phy port 0xa42 20 val;
  let val := if enable then Z.lor val (BIT 7) else Z.land val (not32 (BIT 7)) in
  write_phy port 0xa42 20 val;;
  (* Restart AN if enabled *)
  (if an_enabled then
     '(_, val) ← read_phy port 0 0 val;
     let val := Z.lor val (BIT 9) in
     write_phy port 0 0 val;;
     mret tt
   else mret tt);;
  (* GPHY page back to auto *)
  write_phy port 0xa42 30 0;;
  mret tt.

Definition rtl8218b_get_eee (addr eee_enabled : Z) : M hw (Z * Z) :=
  (* Set GPHY page to copper *)
  write_phy addr 0xa42 29 0x0001;;
  '(_, val) ← read_phy addr 7 60 indeterminate;
  eee_enabled ←
    (if negb (eee_enabled =? 0) then
       (* Verify vs MAC-based EEE *)
       let eee_enabled := truth (Z.land val (BIT 7)) in
       if eee_enabled =? 0 then
         '(_, val) ← read_phy addr 0x0A43 25 val;
         mret (truth (Z.land val (BIT 4)))
       else mret eee_enabled
     else mret eee_enabled);
  (* GPHY page to auto *)
  write_phy addr 0xa42 29 0x0000;;
  mret (0, eee_enabled).

Definition rtl8218d_get_eee (addr eee_enabled : Z) : M hw (Z * Z) :=
  (* Set GPHY page to copper *)
  write_phy addr 0xa42 30 0x0001;;
  '(_, val) ← read_phy addr 7 60 indeterminate;
  let eee_enabled :=
    if negb (eee_enabled =? 0) then truth (Z.land val (BIT 7))
    else eee_enabled in
  (* GPHY page to auto *)
  write_phy addr 0xa42 30 0x0000;;
  mret (0, eee_enabled).

(** [poll_state] is a [u32] here: it keeps the low word of what
    [disable_polling] returns. *)
Definition rtl8214fc_set_eee (port eee_enabled : Z) : M hw Z :=
  fibre ← rtl8380_rtl8214fc_media_is_fibre port;
  if (fibre : bool) then mret (- ENOTSUPP)
  else
    poll_state ← disable_polling port;
    let poll_state := u32 poll_state in
    (* Set GPHY page to copper *)
    write_phy port 0xa42 29 0x0001;;
    (* Get auto-negotiation status *)
    '(_, val) ← read_phy port 0 0 indeterminate;
    let an_enabled := negb (Z.land val (BIT 12) =? 0) in
    '(_, val) ← read_phy port 0x0A43 25 val;
    let val := Z.land val (not32 (BIT 5)) in    (* Use MAC-based EEE *)
    write_phy port 0x0A43 25 val;;
    (* Enable 100M (bit 1) / 1000M (bit 2) EEE *)
    write_phy port 7 60 (if negb (eee_enabled =? 0) then 0x6 else 0);;
    (* 500M EEE ability *)
    '(_, val) ← read_phy port 0xa42 20 val;
    let val :=
      if negb (eee_enabled =? 0) then Z.lor val (BIT 7)
      else Z.land val (not32 (BIT 7)) in
    write_phy port 0xa42 20 val;;
    (* Restart AN if enabled *)
    (if an_enabled then
       '(_, val) ← read_phy port 0 0 val;
       let val := Z.lor val (BIT 9) in
       write_phy port 0 0 val;;
       mret tt
     else mret tt);;
    (* GPHY page back to auto *)
    write_phy port 0xa42 29 0;;
    resume_polling poll_state;;
    mret 0.

Definition rtl8214fc_get_eee (addr eee_enabled : Z) : M hw (Z * Z) :=
  fibre ← rtl8380_rtl8214fc_media_is_fibre addr;
  if (fibre : bool) then mret (- ENOTSUPP, eee_enabled)
  else rtl8218b_get_eee addr eee_enabled.

Definition rtl8218b_set_eee (port eee_enabled : Z) : M hw Z :=
  poll_state ← disable_polling port;
  (* Set GPHY page to copper *)
  write_phy port 0 30 0x0001;;
  '(_, val) ← read_phy port 0 0 indeterminate;
  let an_enabled := negb (Z.land val (BIT 12) =? 0) in
  val ←
    (if negb (eee_enabled =? 0) then
       (* 100/1000M EEE Capability *)
       write_phy port 0 13 0x0007;;
       write_phy port 0 14 0x003C;;
       write_phy port 0 13 0x4007;;
       write_phy port 0 14 0x0006;;
       '(_, val) ← read_phy port 0x0A43 25 val;
       let val := Z.lor val (BIT 4) in
       write_phy port 0x0A43 25 val;;
       mret val
     else
       (* 100/1000M EEE Capability *)
       write_phy port 0 13 0x0007;;
       write_phy port 0 14 0x003C;;
       write_phy port 0 13 0x0007;;
       write_phy port 0 14 0x0000;;
       '(_, val) ← read_phy port 0x0A43 25 val;
       let val := Z.land val (not32 (BIT 4)) in
       write_phy port 0x0A43 25 val;;
       mret val);
  (* Restart AN if enabled *)
  (if an_enabled then
     '(_, val) ← read_phy port 0 0 val;
     let val := Z.lor val (BIT 9) in
     write_phy port 0 0 val;;
     mret tt
   else mret tt);;
  (* GPHY page back to auto *)
  write_phy port 0xa42 30 0;;
  resume_polling poll_state;;
  mret 0.

Definition rtl8218d_set_eee (addr eee_enabled : Z) : M hw Z :=
  poll_state ← disable_polling addr;
  rtl8218d_eee_set addr (negb (eee_enabled =? 0));;
  resume_polling poll_state;;
  mret 0.

(** *** SerDes configuration of the RTL8380 *)

(** [[
    i = 0;
    while (arr[2 * i]) {
        sw_w32(arr[2 * i + 1], arr[2 * i]);
        i++;
        udelay(1000);
    }
]]
    The first two lists are replayed with the delay, the other six without
    ([delay = false]).  [udelay(1000)] is what [mdelay(1)] expands to.  As
    for the PHY lists, [fuel] bounds the walk and the result is [false]
    when the walk leaves the buffer. *)
Fixpoint sds_replay (fuel : nat) (delay : bool) (arr : nat -> option Z) (i : nat)
  : M hw bool :=
  match fuel with
  | O => mret false
  | S fuel' =>
      match arr (2 * i)%nat with
      | None => mret false
      | Some r =>
          if r =? 0 then mret true
          else
            match arr (2 * i + 1)%nat with
            | None => mret false
            | Some v =>
                sw_w32 v r;;
                (if delay then mdelay 1 else mret tt);;
                sds_replay fuel' delay arr (S i)
            end
      end
  end.

(** The lists of a file, one after the other; [false] as soon as one walk
    leaves the buffer. *)
Fixpoint sds_replay_all (fuel : nat) (delay : bool) (arrs : list (nat -> option Z))
  : M hw bool :=
  match arrs with
  | [] => mret true
  | arr :: arrs' =>
      ok ← sds_replay fuel delay arr 0;
      if negb ok then mret false
      else sds_replay_all fuel delay arrs'
  end.

(** The two [pr_info] lines that read a register are kept: [pr_info]
    evaluates its arguments. *)
Definition rtl8380_configure_serdes : M hw (option Z) :=
  match fw_ret (rtl838x_request_fw FIRMWARE_838X_8380_1) with
  | None => mret (Some (-1))
  | Some h =>
      if negb (load32 h (off_magic layout) =? 0x83808380) then mret (Some (-1))
      else
        let rtl8380_sds_take_reset := fw_part h 0 in
        let rtl8380_sds_common := fw_part h 1 in
        let rtl8380_sds01_qsgmii_6275b := fw_part h 2 in
        let rtl8380_sds23_qsgmii_6275b := fw_part h 3 in
        let rtl8380_sds4_fiber_6275b := fw_part h 4 in
        let rtl8380_sds5_fiber_6275b := fw_part h 5 in
        let rtl8380_sds_reset := fw_part h 6 in
        let rtl8380_sds_release_reset := fw_part h 7 in
        (* Back up serdes power off value *)
        sds_conf_value ← sw_r32 RTL838X_SDS_CFG_REG;
        (* take serdes into reset, apply common serdes patch *)
        ok ← sds_replay_all (S (length h)) true
               [rtl8380_sds_take_reset; rtl8380_sds_common];
        if negb ok then mret None
        else
          (* internal R/W enable *)
          sw_w32 3 RTL838X_INT_RW_CTRL;;
          (* SerDes ports 4 and 5 are FIBRE ports *)
          sw_w32_mask (Z.lor 0x7 0x38) (Z.lor 1 (Z.shiftl 1 3)) RTL838X_INT_MODE_CTRL;;
          (* SerDes module settings, SerDes 0-3 are QSGMII *)
          let v := Z.lor (Z.lor (Z.lor (Z.shiftl 0x6 25) (Z.shiftl 0x6 20))
                                (Z.shiftl 0x6 15)) (Z.shiftl 0x6 10) in
          (* SerDes 4 and 5 are 1000BX FIBRE *)
          let v := Z.lor v (Z.lor (Z.shiftl 0x4 5) 0x4) in
          sw_w32 v RTL838X_SDS_MODE_SEL;;
          sw_r32 RTL838X_PLL_CML_CTRL;;
          sw_w32_mask 0xfffffff0 (Z.land 0xaaaaaaaf 0xf) RTL838X_PLL_CML_CTRL;;
          ok ← sds_replay_all (S (length h)) false
                 [rtl8380_sds01_qsgmii_6275b; rtl8380_sds23_qsgmii_6275b;
                  rtl8380_sds4_fiber_6275b; rtl8380_sds5_fiber_6275b;
                  rtl8380_sds_reset; rtl8380_sds_release_reset];
          if negb ok then mret None
          else
            sw_r32 RTL838X_SDS_CFG_REG;;
            sw_w32 sds_conf_value RTL838X_SDS_CFG_REG;;
            mret (Some 0)
  end.

(** *** Probing

    [addr] is [phydev->mdio.addr]; the allocation of the private data is
    the only other thing a probe function does. *)

Definition rtl8380_configure_rtl8214c (mac : Z) : M hw Z :=
  '(_, val) ← read_phy mac 0 2 indeterminate;
  '(_, val) ← read_phy mac 0 3 val;
  (* GPHY auto conf *)
  write_phy mac 0xa42 29 0;;
  mret 0.

Definition rtl8214c_phy_probe (addr : Z) : M hw Z :=
  if negb devm_kzalloc then mret (- ENOMEM)
  else if Z.rem addr 8 =? 0 then rtl8380_configure_rtl8214c addr
  else mret 0.

Definition rtl8218b_ext_phy_probe (addr : Z) : M hw (option Z) :=
  if negb devm_kzalloc then mret (Some (- ENOMEM))
  else if (Z.rem addr 8 =? 0)
          && match soc_info_family with RTL8380_FAMILY_ID => true | _ => false end
  then rtl8380_configure_ext_rtl8218b addr
  else mret (Some 0).

Definition rtl8218b_int_phy_probe (addr : Z) : M hw (option Z) :=
  if negb match soc_info_family with RTL8380_FAMILY_ID => true | _ => false end
  then mret (Some (- ENODEV))
  else if 24 <=? addr then mret (Some (- ENODEV))
  else if negb devm_kzalloc then mret (Some (- ENOMEM))
  else if Z.rem addr 8 =? 0 then rtl8380_configure_int_rtl8218b addr
  else mret (Some 0).

Definition rtl838x_serdes_probe (addr : Z) : M hw (option Z) :=
  if negb match soc_info_family with RTL8380_FAMILY_ID => true | _ => false end
  then mret (Some (- ENODEV))
  else if addr <? 24 then mret (Some (- ENODEV))
  else if negb devm_kzalloc then mret (Some (- ENOMEM))
  else
    (* On the RTL8380M, PHYs 24-27 connect to the internal SerDes *)
    if soc_info_id =? 0x8380 then
      if addr =? 24 then rtl8380_configure_serdes
      else mret (Some 0)
    else mret (Some (- ENODEV)).

Definition rtl8393_serdes_probe (addr : Z) : M hw Z :=
  if negb match soc_info_family with RTL8390_FAMILY_ID => true | _ => false end
  then mret (- ENODEV)
  else if addr <? 24 then mret (- ENODEV)
  else if negb devm_kzalloc then mret (- ENOMEM)
  else rtl8390_configure_serdes.

(** *** Configuration of the RTL8214FC *)

(** The PHY IDs of [rtl83xx-phy.h]. *)
Variable PHY_ID_RTL8218B_E : Z.
Variable PHY_ID_RTL8214FC : Z.

(** [phy_id] is [phydev->phy_id], [addr] is [phydev->mdio.addr]. *)
Definition rtl8218b_ext_match_phy_device (phy_id addr : Z) : bool :=
  match soc_info_family with
  | RTL8380_FAMILY_ID => (phy_id =? PHY_ID_RTL8218B_E) && (addr <? 8)
  | _ => phy_id =? PHY_ID_RTL8218B_E
  end.

Definition rtl8214fc_match_phy_device (phy_id addr : Z) : bool :=
  (phy_id =? PHY_ID_RTL8214FC) && (24 <=? addr).

Definition rtl8380_rtl8214fc_on_off (mac : Z) (on : bool) : M hw unit :=
  (* fiber ports *)
  write_phy mac 4095 30 3;;
  '(_, val) ← read_phy mac 0 16 indeterminate;
  (if on then write_phy mac 0 16 (Z.land val (not32 (BIT 11)))
   else write_phy mac 0 16 (Z.lor val (BIT 11)));;
  (* copper ports *)
  write_phy mac 4095 30 1;;
  '(_, val) ← read_phy mac 0 16 val;
  (if on then write_phy mac 0xa40 16 (Z.land val (not32 (BIT 11)))
   else write_phy mac 0xa40 16 (Z.lor val (BIT 11)));;
  mret tt.

(** [[
    i = 0;
    while (arr[i * 3] && arr[i * 3 + 1]) {
        if (arr[i * 3 + 1] == 0x1f)
            page = arr[i * 3 + 2];
        if (arr[i * 3 + 1] == 0x13 && page == 0x260) {
            read_phy(mac + arr[i * 3], 0x260, 13, &val);
            val = (val & 0x1f00) | (arr[i * 3 + 2] & 0xe0ff);
            write_phy(mac + arr[i * 3], 0xfff, arr[i * 3 + 1], val);
        } else {
            write_phy(mac + arr[i * 3], 0xfff, arr[i * 3 + 1], arr[i * 3 + 2]);
        }
        i++;
    }
]]
    The result carries [val] as the loop leaves it. *)
Fixpoint patch_perchip_rtl8214fc (fuel : nat) (arr : nat -> option Z) (mac : Z)
  (i : nat) (page val : Z) : M hw (bool * Z) :=
  match fuel with
  | O => mret (false, val)
  | S fuel' =>
      match arr (i * 3)%nat with
      | None => mret (false, val)
      | Some p =>
          if p =? 0 then mret (true, val)
          else
            match arr (i * 3 + 1)%nat with
            | None => mret (false, val)
            | Some r =>
                if r =? 0 then mret (true, val)
                else
                  match arr (i * 3 + 2)%nat with
                  | None => mret (false, val)
                  | Some v =>
                      let page := if r =? 0x1f then v else page in
                      if (r =? 0x13) && (page =? 0x260) then
                        '(_, val) ← read_phy (mac + p) 0x260 13 val;
                        let val := Z.lor (Z.land val 0x1f00) (Z.land v 0xe0ff) in
                        write_phy (mac + p) 0xfff r val;;
                        patch_perchip_rtl8214fc fuel' arr mac (S i) page val
                      else
                        write_phy (mac + p) 0xfff r v;;
                        patch_perchip_rtl8214fc fuel' arr mac (S i) page val
                  end
            end
      end
  end.

Definition ports4 : list Z := [0; 1; 2; 3].

(** [[
    for (l = 0; l < 100; l++) {
        read_phy(port, 0x0a42, 0x10, &val);
        if ((val & 0x7) >= 3) break;
    }
]] *)
Fixpoint autosensing_wait (port : Z) (n : nat) (l val : Z) : M hw (Z * Z) :=
  match n with
  | O => mret (l, val)
  | S n' =>
      '(_, val) ← read_phy port 0x0a42 0x10 val;
      if 3 <=? Z.land val 0x7 then mret (l, val)
      else autosensing_wait port n' (l + 1) val
  end.

(** The wait for all ports; [false] when one of them exhausted its 100
    reads ([return -1]). *)
Fixpoint disable_autosensing (mac : Z) (ps : list Z) (val : Z) : M hw (bool * Z) :=
  match ps with
  | [] => mret (true, val)
  | p :: ps' =>
      '(l, val) ← autosensing_wait (mac + p) 100 0 val;
      if 100 <=? l then mret (false, val)
      else disable_autosensing mac ps' val
  end.

Definition rtl8380_configure_rtl8214fc (mac : Z) : M hw (option Z) :=
  '(_, val) ← read_phy mac 0 2 indeterminate;
  '(_, val) ← read_phy mac 0 3 val;
  (* Read internal PHY id *)
  write_phy mac 0 30 0x0001;;
  write_phy mac 0 31 0x0a42;;
  write_phy mac 31 27 0x0002;;
  '(_, val) ← read_phy mac 31 28 val;
  if negb (val =? 0x6276) then mret (Some (-1))
  else
    match fw_ret (rtl838x_request_fw FIRMWARE_838X_8214FC_1) with
    | None => mret (Some (-1))
    | Some h =>
        if negb (load32 h (off_phy layout) =? 0x8214fc00) then mret (Some (-1))
        else
          let rtl8380_rtl8214fc_perchip := fw_part h 0 in
          let rtl8380_rtl8214fc_perport := fw_part h 1 in
          (* detect phy version *)
          write_phy mac 0xfff 27 0x0004;;
          '(_, val) ← read_phy mac 0xfff 28 val;
          '(_, val) ← read_phy mac 0 16 val;
          (if negb (Z.land val (Z.shiftl 1 11) =? 0)
           then rtl8380_rtl8214fc_on_off mac true
           else rtl8380_phy_reset mac);;
          msleep 100;;
          write_phy mac 0 30 0x0001;;
          '(ok, val) ← patch_perchip_rtl8214fc (S (length h))
                         rtl8380_rtl8214fc_perchip mac 0 0 val;
          if negb ok then mret None
          else
            (* Force copper medium *)
            for_each (fun i =>
              write_phy (mac + i) 0xfff 0x1f 0x0000;;
              write_phy (mac + i) 0xfff 0x1e 0x0001;;
              mret tt) ports4;;
            (* Enable PHY *)
            for_each (fun i =>
              write_phy (mac + i) 0xfff 0x1f 0x0000;;
              write_phy (mac + i) 0xfff 0x00 0x1140;;
              mret tt) ports4;;
            mdelay 100;;
            (* Disable Autosensing *)
            '(done, val) ← disable_autosensing mac ports4 val;
            if negb done then mret (Some (-1))
            else
              (* Request patch *)
              for_each (fun i =>
                write_phy (mac + i) 0xfff 0x1f 0x0b82;;
                write_phy (mac + i) 0xfff 0x10 0x0010;;
                mret tt) ports4;;
              mdelay 300;;
              (* Verify patch readiness *)
              '(ready, val) ← verify_patch_ready mac ports4 val;
              if negb ready then mret (Some (-1))
              else
                (* Use Broadcast ID method for patching *)
                broadcast_id_write mac (0xff00 + mac);;
                ok ← patch_perport (S (length h)) rtl8380_rtl8214fc_perport mac 0;
                if negb ok then mret None
                else
                  (* Disable broadcast ID *)
                  broadcast_id_write mac (0x00 + mac);;
                  (* Auto medium selection *)
                  for_each (fun i =>
                    write_phy (mac + i) 0xfff 0x1f 0x0000;;
                    write_phy (mac + i) 0xfff 0x1e 0x0000;;
                    mret tt) ports4;;
                  mret (Some 0)
    end.

Definition rtl8214fc_phy_probe (addr : Z) : M hw (option Z) :=
  (* 839x has internal SerDes *)
  if soc_info_id =? 0x8393 then mret (Some (- ENODEV))
  else if negb devm_kzalloc then mret (Some (- ENOMEM))
  else if Z.rem addr 8 =? 0 then rtl8380_configure_rtl8214fc addr
  else mret (Some 0).


(** ** Vocabulary of the statements *)

(** The back end a family is routed to. *)
Definition family_transport (f : soc_family) : option transport :=
  match f with
  | RTL8380_FAMILY_ID => Some T838x
  | RTL8390_FAMILY_ID => Some T839x
  | RTL9300_FAMILY_ID => Some T930x
  | RTL9310_FAMILY_ID => Some T931x
  | UNKNOWN_FAMILY_ID => None
  end.

(** A value read from a command register shows the start/busy bit. *)
Definition busy (v : Z) : Prop := Z.land v 1 <> 0.

(** The rounds of a wait loop that found the bit set: a read of the
    command register followed by the 1 ms delay, once per value. *)
Definition wait_rounds (reg : Z) (polls : list Z) : list event :=
  flat_map (fun v => [EvR32 reg v; EvMdelay 1]) polls.

(** What an indirect read may do, given the command word [cmd] it issues:
    either 100 rounds that all found the bit set, the result [-EIO] and
    nothing after the last round; or fewer than 100 such rounds, one read
    that found the bit clear, one read of the data register, and the low
    16 bits of that read as result. *)
Definition indirect_read_behaviour (cmd_reg data_reg cmd : Z)
  (r : Z * hw * list event) : Prop :=
  exists polls : list Z,
    Forall busy polls /\
    ((length polls = 100%nat /\
      retval r = - EIO /\
      trace r = EvW32 cmd cmd_reg :: wait_rounds cmd_reg polls)
     \/
     (exists v d : Z,
        (length polls < 100)%nat /\
        ~ busy v /\
        trace r = EvW32 cmd cmd_reg :: wait_rounds cmd_reg polls
                    ++ [EvR32 cmd_reg v; EvR32 data_reg d] /\
        retval r = Z.land d 0xffff /\
        0 <= retval r < 2 ^ 16)).

(** The two checks of the firmware header, as the specification words
    them: the magic is the fixed value; the complemented CRC32 of the whole
    image with the checksum field zeroed is the stored checksum. *)
Definition magic_ok (data : list byte) : Prop :=
  load32 data (off_magic layout) = 0x83808380.

Definition checksum_ok (data : list byte) : Prop :=
  not32 (crc32 0xFFFFFFFF (store32 (off_checksum layout) 0 data))
  = load32 data (off_checksum layout).

(** The access a call [write_phy(port, page, reg, v)] (resp. [read_phy])
    makes through back end [t]: the arguments arrive as [u32]. *)
Definition phy_write_event (t : transport) (port page reg v : Z) : event :=
  EvWritePhy t (u32 port) (u32 page) (u32 reg) (u32 v).

Definition phy_read_event (t : transport) (port page reg : Z) : event :=
  EvReadPhy t (u32 port) (u32 page) (u32 reg).

(** [perport_list arr i entries]: from entry [i] on, the two-word array
    [arr] holds the (register, value) pairs [entries], all with a register
    word different from zero, followed by an entry whose register word is
    zero. *)
Inductive perport_list (arr : nat -> option Z) : nat -> list (Z * Z) -> Prop :=
| perport_end i :
    arr (i * 2)%nat = Some 0 ->
    perport_list arr i []
| perport_entry i r v entries :
    arr (i * 2)%nat = Some r -> r <> 0 ->
    arr (i * 2 + 1)%nat = Some v ->
    perport_list arr (S i) entries ->
    perport_list arr i ((r, v) :: entries).

(** [perchip_list arr i entries]: from entry [i] on, the three-word array
    [arr] holds the (port offset, register, value) triples [entries], all
    with port offset and register different from zero, followed by an
    entry whose port offset or register word is zero. *)
Inductive perchip_list (arr : nat -> option Z) : nat -> list (Z * Z * Z) -> Prop :=
| perchip_end_port i :
    arr (i * 3)%nat = Some 0 ->
    perchip_list arr i []
| perchip_end_reg i p :
    arr (i * 3)%nat = Some p -> p <> 0 ->
    arr (i * 3 + 1)%nat = Some 0 ->
    perchip_list arr i []
| perchip_entry i p r v entries :
    arr (i * 3)%nat = Some p -> p <> 0 ->
    arr (i * 3 + 1)%nat = Some r -> r <> 0 ->
    arr (i * 3 + 2)%nat = Some v ->
    perchip_list arr (S i) entries ->
    perchip_list arr i ((p, r, v) :: entries).

(** The six writes and the delay that set the broadcast ID register
    (page [0x266], register [0x16]) of the package at [mac] to [id]. *)
Definition broadcast_events (t : transport) (mac id : Z) : list event :=
  [phy_write_event t mac 0xfff 0x1f 0x0000;
   phy_write_event t mac 0xfff 0x1d 0x0008;
   phy_write_event t mac 0xfff 0x1f 0x0266;
   phy_write_event t mac 0xfff 0x16 id;
   phy_write_event t mac 0xfff 0x1f 0x0000;
   phy_write_event t mac 0xfff 0x1d 0x0000;
   EvMdelay 1].

(** The accesses between the opening of the bracket and the replay of the
    list: the probe of the IPD value. *)
Definition ipd_probe_events (t : transport) (mac : Z) : list event :=
  [phy_write_event t mac 0xfff 30 8;
   phy_write_event t mac 0x26e 17 0xb;
   phy_write_event t mac 0x26e 16 0x2;
   EvMdelay 1;
   phy_read_event t mac 0x26e 19;
   phy_write_event t mac 0 30 0].

(** A computation that, when it returns [Some 0], ends with accesses
    [suffix] describes. *)
Definition ends_with (suffix : list event -> Prop) (r : option Z * hw * list event)
  : Prop :=
  retval r = Some 0 ->
  exists pre suf, suffix suf /\ trace r = pre ++ suf.

(** An access to a PHY over the MDIO bus. *)
Definition is_phy_access (e : event) : Prop :=
  match transport_of e with Some _ => True | None => False end.

(** The accesses of [resume_polling(saved_state)]. *)
Definition resume_polling_events (saved_state : Z) : list event :=
  match soc_info_family with
  | RTL8380_FAMILY_ID =>
      [EvLock; EvW32 (u32 saved_state) RTL838X_SMI_POLL_CTRL; EvUnlock]
  | RTL8390_FAMILY_ID =>
      [EvLock;
       EvW32 (u32 (Z.shiftr saved_state 32)) (RTL839X_SMI_PORT_POLLING_CTRL + 4);
       EvW32 (u32 saved_state) RTL839X_SMI_PORT_POLLING_CTRL;
       EvUnlock]
  | RTL9300_FAMILY_ID =>
      [EvLock; EvW32 (u32 saved_state) RTL930X_SMI_POLL_CTRL; EvUnlock]
  | RTL9310_FAMILY_ID | UNKNOWN_FAMILY_ID => [EvLock; EvUnlock]
  end.

(** A run [r] that starts in [h] by suspending the polling of [port],
    then only talks to PHYs, ends by resuming the polling with the state
    [kept] leaves of the one that was saved, and returns 0. *)
Definition inside_polling_bracket (port : Z) (kept : Z -> Z) (h : hw)
  (r : Z * hw * list event) : Prop :=
  retval r = 0 /\
  exists mid,
    Forall is_phy_access mid /\
    trace r = trace (disable_polling port h) ++ mid
              ++ resume_polling_events (kept (retval (disable_polling port h))).

(** The identification of a PHY package at the start of its
    configuration: both halves of the PHY ID, then the internal ID. *)
Definition id_probe_events (t : transport) (mac : Z) : list event :=
  [phy_read_event t mac 0 2;
   phy_read_event t mac 0 3;
   phy_write_event t mac 31 27 0x0002;
   phy_read_event t mac 31 28].

(** A run that talks to PHYs only, then resumes the polling with
    [saved_state], and returns 0. *)
Definition resumes (saved_state : Z) (r : Z * hw * list event) : Prop :=
  retval r = 0 /\
  exists mid,
    Forall is_phy_access mid /\
    trace r = mid ++ resume_polling_events saved_state.

(** The identification at the start of [rtl8380_configure_rtl8214fc]. *)
Definition rtl8214fc_id_probe_events (t : transport) (mac : Z) : list event :=
  [phy_read_event t mac 0 2;
   phy_read_event t mac 0 3;
   phy_write_event t mac 0 30 0x0001;
   phy_write_event t mac 0 31 0x0a42;
   phy_write_event t mac 31 27 0x0002;
   phy_read_event t mac 31 28].

(** The writes that hand the choice of the medium back to the four ports
    of the package. *)
Definition auto_medium_events (t : transport) (mac : Z) : list event :=
  flat_map (fun i => [phy_write_event t (mac + i) 0xfff 0x1f 0x0000;
                      phy_write_event t (mac + i) 0xfff 0x1e 0x0000])
    [0; 1; 2; 3].


(** ** Proof tools *)

(** Drops what the statement at hand does not mention, so that the
    arithmetic procedures do not pick up the platform. *)
Ltac drop_unused := repeat match goal with x : _ |- _ => clear x end.


(** ** Machine integers *)

Lemma u32_range z : 0 <= u32 z < 2 ^ 32.
Proof. unfold u32. apply Z.mod_pos_bound. reflexivity. Qed.

Lemma u16_range z : 0 <= u16 z < 2 ^ 16.
Proof. unfold u16. apply Z.mod_pos_bound. reflexivity. Qed.

Lemma u32_id z : 0 <= z < 2 ^ 32 -> u32 z = z.
Proof. intros Hz. unfold u32. apply Z.mod_small. exact Hz. Qed.

Lemma u32_u32 z : u32 (u32 z) = u32 z.
Proof. apply u32_id, u32_range. Qed.

Lemma u32_u16 z : u32 (u16 z) = u16 z.
Proof.
  drop_unused. apply u32_id. pose proof (u16_range z) as H.
  change (2 ^ 16) with 65536 in H. change (2 ^ 32) with 4294967296. lia.
Qed.

Lemma land_ffff_range z : 0 <= Z.land z 65535 < 2 ^ 16.
Proof.
  change 65535 with (Z.ones 16). rewrite Z.land_ones by discriminate.
  apply Z.mod_pos_bound. reflexivity.
Qed.

(** ** Running computations *)

Lemma run_bind {A B} (m : M hw A) (f : A -> M hw B) (h : hw) :
  (m ≫= f) h =
  (retval (f (retval (m h)) (final (m h))),
   final (f (retval (m h)) (final (m h))),
   trace (m h) ++ trace (f (retval (m h)) (final (m h)))).
Proof.
  unfold mbind, M_bind, retval, final, trace.
  destruct (m h) as [[a h1] t1]; simpl.
  destruct (f a h1) as [[b h2] t2]; reflexivity.
Qed.

Lemma retval_bind {A B} (m : M hw A) (f : A -> M hw B) h :
  retval ((m ≫= f) h) = retval (f (retval (m h)) (final (m h))).
Proof. rewrite run_bind. reflexivity. Qed.

Lemma final_bind {A B} (m : M hw A) (f : A -> M hw B) h :
  final ((m ≫= f) h) = final (f (retval (m h)) (final (m h))).
Proof. rewrite run_bind. reflexivity. Qed.

Lemma trace_bind {A B} (m : M hw A) (f : A -> M hw B) h :
  trace ((m ≫= f) h) = trace (m h) ++ trace (f (retval (m h)) (final (m h))).
Proof. rewrite run_bind. reflexivity. Qed.

Lemma run_ret {A} (a : A) (h : hw) : (mret a : M hw A) h = (a, h, []).
Proof. reflexivity. Qed.

Lemma retval_ret {A} (a : A) (h : hw) : retval ((mret a : M hw A) h) = a.
Proof. reflexivity. Qed.

Lemma final_ret {A} (a : A) (h : hw) : final ((mret a : M hw A) h) = h.
Proof. reflexivity. Qed.

Lemma trace_ret {A} (a : A) (h : hw) : trace ((mret a : M hw A) h) = [].
Proof. reflexivity. Qed.

Lemma trace_sw_r32 reg h : trace (sw_r32 reg h) = [EvR32 reg (retval (sw_r32 reg h))].
Proof. unfold sw_r32, trace, retval. destruct (io_r32 reg h). reflexivity. Qed.

Lemma retval_sw_r32_range reg h : 0 <= retval (sw_r32 reg h) < 2 ^ 32.
Proof. unfold sw_r32, retval. destruct (io_r32 reg h). apply u32_range. Qed.

Lemma trace_sw_w32 v reg h : trace (sw_w32 v reg h) = [EvW32 (u32 v) reg].
Proof. reflexivity. Qed.

(** ** The wait loop *)

Lemma sds_wait_cases reg n i h :
  exists polls : list Z,
    Forall busy polls /\
    ((length polls = n /\
      retval (sds_wait reg n i h) = i + Z.of_nat n /\
      trace (sds_wait reg n i h) = wait_rounds reg polls)
     \/
     (exists v,
        (length polls < n)%nat /\
        ~ busy v /\
        retval (sds_wait reg n i h) = i + Z.of_nat (length polls) /\
        trace (sds_wait reg n i h) = wait_rounds reg polls ++ [EvR32 reg v])).
Proof.
  revert i h. induction n as [|n IH]; intros i h.
  - exists []. split; [constructor|]. left.
    cbn. repeat split. lia.
  - cbn [sds_wait]. rewrite retval_bind, trace_bind, trace_sw_r32.
    set (v := retval (sw_r32 reg h)).
    set (h1 := final (sw_r32 reg h)).
    destruct (Z.land v 1 =? 0) eqn:Hv.
    + exists []. split; [constructor|]. right. exists v.
      apply Z.eqb_eq in Hv. cbn. unfold busy. repeat split; lia.
    + apply Z.eqb_neq in Hv.
      rewrite retval_bind, trace_bind.
      change (final (mdelay 1 h1)) with h1.
      change (trace (mdelay 1 h1)) with [EvMdelay 1].
      destruct (IH (i + 1) h1) as (polls & Hb & Hc).
      exists (v :: polls). split; [constructor; assumption|].
      destruct Hc as [(Hl & Hret & Htr) | (w & Hl & Hw & Hret & Htr)].
      * left. rewrite Hret, Htr. cbn [length]. repeat split; lia.
      * right. exists w. rewrite Hret, Htr. cbn [length].
        repeat split; try lia. assumption.
Qed.

(** ** Indirect SerDes access *)

Lemma indirect_read_steps cmd_reg data_reg cmd h :
  indirect_read_behaviour cmd_reg data_reg (u32 cmd)
    ((sw_w32 cmd cmd_reg;;
      i ← sds_wait cmd_reg 100 0;
      if 100 <=? i then mret (- EIO)
      else v ← sw_r32 data_reg; mret (Z.land v 0xffff)) h).
Proof.
  unfold indirect_read_behaviour.
  rewrite retval_bind, trace_bind, trace_sw_w32.
  set (h0 := final (sw_w32 cmd cmd_reg h)).
  rewrite retval_bind, trace_bind.
  destruct (sds_wait_cases cmd_reg 100 0 h0) as (polls & Hb & Hc).
  exists polls. split; [assumption|].
  destruct Hc as [(Hl & Hret & Htr) | (w & Hl & Hw & Hret & Htr)].
  - left. rewrite Hret, Htr.
    change (100 <=? 0 + Z.of_nat 100) with true. cbv iota.
    rewrite retval_ret, trace_ret, app_nil_r.
    repeat split. assumption.
  - right. rewrite Hret, Htr.
    destruct (100 <=? 0 + Z.of_nat (length polls)) eqn:Hge.
    { apply Z.leb_le in Hge. lia. }
    set (h1 := final (sds_wait cmd_reg 100 0 h0)).
    rewrite retval_bind, trace_bind, trace_sw_r32.
    exists w, (retval (sw_r32 data_reg h1)).
    rewrite retval_ret, trace_ret, app_nil_r, <- app_assoc.
    repeat split; try assumption; try apply land_ffff_range.
Qed.

(** C2 (both protocol variants): an indirect SerDes read polls the command
    register at most 100 times, waiting 1 ms after each poll that found
    the start bit set; when all 100 polls found it set the call returns
    [-EIO] and makes no further access (the data register is not read);
    otherwise it returns the data register masked to 16 bits. *)
Theorem indirect_read_sds_phy_timeout_or_data phy_addr page phy_reg h :
  indirect_read_behaviour RTL930X_SDS_INDACS_CMD RTL930X_SDS_INDACS_DATA
    (u32 (Z.lor (sds_cmd phy_addr page phy_reg) 1))
    (rtl930x_read_sds_phy phy_addr page phy_reg h)
  /\
  indirect_read_behaviour RTL931X_SERDES_INDRT_ACCESS_CTRL
    RTL931X_SERDES_INDRT_DATA_CTRL
    (u32 (Z.lor (sds_cmd phy_addr page phy_reg) 1))
    (rtl931x_read_sds_phy phy_addr page phy_reg h).
Proof.
  split.
  - unfold rtl930x_read_sds_phy.
    rewrite <- (u32_u32 (Z.lor _ 1)) at 1. apply indirect_read_steps.
  - unfold rtl931x_read_sds_phy.
    rewrite <- (u32_u32 (Z.lor _ 1)) at 1. apply indirect_read_steps.
Qed.

Lemma filter_w32_wait_rounds reg polls :
  List.filter is_w32 (wait_rounds reg polls) = [].
Proof. induction polls as [|v polls IH]; [reflexivity|]. cbn. exact IH. Qed.

Lemma filter_w32_sds_wait reg n i h :
  List.filter is_w32 (trace (sds_wait reg n i h)) = [].
Proof.
  destruct (sds_wait_cases reg n i h) as (polls & _ & [(_ & _ & ->) | (v & _ & _ & _ & ->)]).
  - apply filter_w32_wait_rounds.
  - rewrite List.filter_app, filter_w32_wait_rounds. reflexivity.
Qed.

Lemma trace_if_ret {A} (c : bool) (a b : A) (h : hw) :
  trace ((if c then mret a else mret b : M hw A) h) = [].
Proof. destruct c; reflexivity. Qed.

(** C1, RTL9300 variant: whatever the hardware answers, the only register
    write [rtl930x_write_sds_phy] makes is the one of the data value into
    the data register.  The command word it computes is never written to
    the command register. *)
Theorem rtl930x_write_sds_phy_issues_no_command phy_addr page phy_reg v h :
  List.filter is_w32 (trace (rtl930x_write_sds_phy phy_addr page phy_reg v h))
  = [EvW32 (u16 v) RTL930X_SDS_INDACS_DATA].
Proof.
  unfold rtl930x_write_sds_phy.
  rewrite trace_bind, trace_sw_w32, trace_bind.
  rewrite !List.filter_app, filter_w32_sds_wait, trace_if_ret.
  cbn. rewrite u32_u16. reflexivity.
Qed.

(** The RTL9310 variant does issue it: address bits first, then the data
    value, then the word read back with the write and start bits set. *)
Lemma rtl931x_write_sds_phy_writes phy_addr page phy_reg v h :
  exists c,
    List.filter is_w32 (trace (rtl931x_write_sds_phy phy_addr page phy_reg v h))
    = [EvW32 (u32 (sds_cmd phy_addr page phy_reg)) RTL931X_SERDES_INDRT_ACCESS_CTRL;
       EvW32 (u16 v) RTL931X_SERDES_INDRT_DATA_CTRL;
       EvW32 (Z.lor c 0x3) RTL931X_SERDES_INDRT_ACCESS_CTRL]
    /\ Z.testbit (Z.lor c 0x3) 0 = true /\ Z.testbit (Z.lor c 0x3) 1 = true.
Proof.
  unfold rtl931x_write_sds_phy.
  rewrite trace_bind, trace_sw_w32.
  set (h0 := final (sw_w32 _ _ h)).
  rewrite trace_bind, trace_sw_w32.
  set (h1 := final (sw_w32 _ _ h0)).
  rewrite trace_bind, trace_sw_r32.
  set (c := retval (sw_r32 _ h1)).
  assert (Hc : 0 <= c < 2 ^ 32) by apply retval_sw_r32_range.
  set (h2 := final (sw_r32 _ h1)).
  rewrite trace_bind, trace_sw_w32, trace_bind.
  exists c.
  rewrite !List.filter_app, filter_w32_sds_wait, trace_if_ret.
  cbn [List.filter is_w32 app].
  rewrite u32_u32, u32_u16.
  assert (Hor : u32 (Z.lor c 3) = Z.lor c 3).
  { apply u32_id. split.
    - apply Z.lor_nonneg. lia.
    - destruct (Z.eq_dec (Z.lor c 3) 0) as [->|Hne]; [lia|].
      apply Z.log2_lt_pow2.
      + assert (0 <= Z.lor c 3) by (apply Z.lor_nonneg; lia). lia.
      + rewrite Z.log2_lor by lia.
        apply Z.max_lub_lt; [|reflexivity].
        destruct (Z.eq_dec c 0) as [->|Hc0]; [reflexivity|].
        apply Z.log2_lt_pow2; lia. }
  rewrite Hor. split; [reflexivity|].
  rewrite !Z.lor_spec. split; [apply orb_true_r | apply orb_true_r].
Qed.

(** ** The RTL839x shadow register *)

(** C9: on a chip with identifier [0x8393], registers 2 and 3 of the
    SerDes PHY read as [0x1c] and [0x8393] without any register access;
    every other register number costs exactly one read of the shadow
    register, and the result is the 16 bit half of that word the register
    number selects. *)
Theorem rtl839x_read_sds_phy_simulated_id phy_addr phy_reg h :
  soc_info_id = 0x8393 ->
  (phy_reg = 2 ->
     rtl839x_read_sds_phy phy_addr phy_reg h = (0x1c, h, [])) /\
  (phy_reg = 3 ->
     rtl839x_read_sds_phy phy_addr phy_reg h = (0x8393, h, [])) /\
  (phy_reg <> 2 -> phy_reg <> 3 ->
     exists w,
       trace (rtl839x_read_sds_phy phy_addr phy_reg h)
       = [EvR32 (RTL839X_SDS12_13_XSG0 + (if phy_addr =? 49 then 0x100 else 0)
                 + 0x80 + Z.land (Z.shiftl phy_reg 1) 0xfc) w] /\
       retval (rtl839x_read_sds_phy phy_addr phy_reg h)
       = Z.land (Z.shiftr w (16 * Z.land phy_reg 1)) 0xffff /\
       0 <= retval (rtl839x_read_sds_phy phy_addr phy_reg h) < 2 ^ 16).
Proof.
  intros Hid. unfold rtl839x_read_sds_phy. rewrite Hid.
  change (0x8393 =? 0x8393) with true. cbn [andb].
  split; [|split].
  - intros ->. reflexivity.
  - intros ->. reflexivity.
  - intros H2 H3.
    destruct (phy_reg =? 2) eqn:E2; [apply Z.eqb_eq in E2; contradiction|].
    destruct (phy_reg =? 3) eqn:E3; [apply Z.eqb_eq in E3; contradiction|].
    rewrite retval_bind, trace_bind, trace_sw_r32, retval_ret, trace_ret, app_nil_r.
    set (w := retval (sw_r32 _ h)).
    exists w. split; [reflexivity|].
    assert (Hbit : Z.land phy_reg 1 = 0 \/ Z.land phy_reg 1 = 1).
    { pose proof (Z.land_ones phy_reg 1 ltac:(lia)) as Hm.
      change (Z.ones 1) with 1 in Hm. change (2 ^ 1) with 2 in Hm.
      pose proof (Z.mod_pos_bound phy_reg 2 ltac:(lia)). lia. }
    destruct Hbit as [-> | ->]; cbn [Z.eqb negb Z.mul];
      rewrite ?Z.shiftr_0_r; split; try reflexivity; apply land_ffff_range.
Qed.

(** ** Extended registers of the RTL8218B *)

(** C10: whatever the active family, the MMD write of the RTL8218B goes to
    the RTL8380 back end, while the MMD read goes to the back end of the
    active family (to none when the family is not a supported one); so on
    every family but RTL8380 the read never uses the back end the write
    uses. *)
Theorem rtl8218b_mmd_read_write_transports addr devnum regnum val h :
  trace (rtl8218b_write_mmd addr devnum regnum val h)
  = [EvWriteMmd T838x (u32 addr) (u32 devnum) (u16 regnum) (u16 val)]
  /\
  trace (rtl8218b_read_mmd addr devnum regnum h)
  = match family_transport soc_info_family with
    | Some t => [EvReadMmd t (u32 addr) (u32 devnum) (u16 regnum)]
    | None => []
    end
  /\
  (soc_info_family <> RTL8380_FAMILY_ID ->
   forall er ew,
     In er (trace (rtl8218b_read_mmd addr devnum regnum h)) ->
     In ew (trace (rtl8218b_write_mmd addr devnum regnum val h)) ->
     transport_of ew = Some T838x /\ transport_of er <> transport_of ew).
Proof.
  pose proof u32_u16 as H16.
  assert (Hw : trace (rtl8218b_write_mmd addr devnum regnum val h)
               = [EvWriteMmd T838x (u32 addr) (u32 devnum) (u16 regnum) (u16 val)]).
  { unfold rtl8218b_write_mmd, rtl838x_write_mmd_phy, call_write_mmd, trace.
    destruct (bus_write_mmd _ _ _ _ _ h). cbn. rewrite !H16. reflexivity. }
  assert (Hr : trace (rtl8218b_read_mmd addr devnum regnum h)
               = match family_transport soc_info_family with
                 | Some t => [EvReadMmd t (u32 addr) (u32 devnum) (u16 regnum)]
                 | None => []
                 end).
  { unfold rtl8218b_read_mmd. rewrite trace_bind.
    destruct (retval (read_mmd_phy _ _ _ _ h)) as [ret v].
    rewrite trace_if_ret, app_nil_r.
    unfold read_mmd_phy, call_read_mmd, trace.
    destruct soc_info_family; cbn [family_transport];
      try (destruct (bus_read_mmd _ _ _ _ h) as [[? ?] ?]; cbn;
           rewrite H16; reflexivity).
    reflexivity. }
  split; [exact Hw|]. split; [exact Hr|].
  intros Hfam er ew. rewrite Hr, Hw. intros Her [<- | []].
  split; [reflexivity|].
  destruct soc_info_family; cbn in Her; try contradiction;
    destruct Her as [<- | []]; cbn; congruence.
Qed.

(** ** Bit fields of a SerDes register *)

Lemma retval_rtl9300_sds_field_r_one_bit sds page reg start_bit h :
  retval (rtl9300_sds_field_r sds page reg (start_bit + 1) start_bit h) = 0.
Proof.
  unfold rtl9300_sds_field_r.
  replace (start_bit + 1 - start_bit - 1) with 0 by lia.
  rewrite retval_bind. change (32 <=? 0) with false. cbv iota.
  rewrite retval_ret. change (u32 (BIT 0 - 1)) with 0.
  apply Z.land_0_r.
Qed.

(** Whatever the register holds, a field read stays below
    [2 ^ (end_bit - start_bit - 1)]: the helper takes one bit less than
    the distance of the two bit positions. *)
Lemma retval_rtl9300_sds_field_r_bound sds page reg end_bit start_bit h :
  0 <= end_bit - start_bit - 1 < 32 ->
  0 <= retval (rtl9300_sds_field_r sds page reg end_bit start_bit h)
    < 2 ^ (end_bit - start_bit - 1).
Proof.
  intros Hl. unfold rtl9300_sds_field_r. rewrite retval_bind.
  set (l := end_bit - start_bit - 1) in *.
  destruct (32 <=? l) eqn:E; [apply Z.leb_le in E; lia|].
  rewrite retval_ret.
  assert (Hbit : u32 (BIT l - 1) = Z.ones l).
  { unfold BIT. rewrite Z.shiftl_1_l, Z.ones_equiv.
    assert (Hp : 0 < 2 ^ l <= 2 ^ 31).
    { split; [apply Z.pow_pos_nonneg; lia|].
      apply Z.pow_le_mono_r; lia. }
    change (2 ^ 31) with 2147483648 in Hp.
    rewrite (u32_id (2 ^ l)), u32_id;
      change (2 ^ 32) with 4294967296; lia. }
  rewrite Hbit, Z.land_ones by lia.
  apply Z.mod_pos_bound. apply Z.pow_pos_nonneg; lia.
Qed.

(** So for every pair of bit positions with [end_bit > start_bit] there is
    a value that does not come back: the one with only the top bit of the
    [end_bit - start_bit] bits set. *)
Lemma rtl9300_sds_field_w_r_misses_top_bit sds page reg end_bit start_bit h :
  0 <= end_bit - start_bit - 1 < 32 ->
  retval ((rtl9300_sds_field_w sds page reg end_bit start_bit
             (2 ^ (end_bit - start_bit - 1));;
           rtl9300_sds_field_r sds page reg end_bit start_bit) h)
  <> 2 ^ (end_bit - start_bit - 1) mod 2 ^ (end_bit - start_bit).
Proof.
  intros Hl. rewrite retval_bind.
  match goal with |- retval (rtl9300_sds_field_r _ _ _ _ _ ?h1) <> _ =>
    pose proof (retval_rtl9300_sds_field_r_bound sds page reg end_bit start_bit
                  h1 Hl) as Hb
  end.
  set (l := end_bit - start_bit - 1) in *.
  replace (end_bit - start_bit) with (Z.succ l) by (unfold l; lia).
  rewrite Z.mod_small; [lia|].
  rewrite Z.pow_succ_r by lia.
  assert (0 < 2 ^ l) by (apply Z.pow_pos_nonneg; lia). lia.
Qed.

(** C4 at a field of declared width one ([end_bit = 1], [start_bit = 0]):
    on every hardware, reading the field back after writing any value to
    it yields 0, also when the value written is 1. *)
Theorem rtl9300_sds_field_w_r_one_bit_reads_zero sds page reg v h :
  retval ((rtl9300_sds_field_w sds page reg 1 0 v;;
           rtl9300_sds_field_r sds page reg 1 0) h) = 0.
Proof.
  rewrite retval_bind.
  apply (retval_rtl9300_sds_field_r_one_bit sds page reg 0).
Qed.

(** ** Firmware images *)

Lemma byte_val_range b : 0 <= byte_val b < 256.
Proof.
  unfold byte_val. pose proof (Byte.to_N_bounded b). lia.
Qed.

Lemma byte_of_val b : byte_of (byte_val b) = b.
Proof.
  unfold byte_of. rewrite Z.mod_small by apply byte_val_range.
  unfold byte_val. rewrite N2Z.id, Byte.of_to_N. reflexivity.
Qed.

Lemma byte_of_mod z b : z mod 256 = byte_val b -> byte_of z = b.
Proof.
  intros H. rewrite <- (byte_of_val b). unfold byte_of.
  rewrite H, (Z.mod_small (byte_val b)) by apply byte_val_range. reflexivity.
Qed.

Lemma insert_byte_at_id (data : list byte) (i : nat) (z : Z) :
  z mod 256 = byte_at data i -> <[i := byte_of z]> data = data.
Proof.
  unfold byte_at. intros H. rewrite (byte_of_mod _ _ H).
  destruct (data !! i) as [b|] eqn:E; cbn.
  - apply list_insert_id. exact E.
  - apply list_insert_ge. apply lookup_ge_None. exact E.
Qed.

Lemma be32_split b0 b1 b2 b3 :
  0 <= b0 < 256 -> 0 <= b1 < 256 -> 0 <= b2 < 256 -> 0 <= b3 < 256 ->
  let v := b0 * 2 ^ 24 + b1 * 2 ^ 16 + b2 * 2 ^ 8 + b3 in
  (v / 2 ^ 24) mod 256 = b0 /\ (v / 2 ^ 16) mod 256 = b1 /\
  (v / 2 ^ 8) mod 256 = b2 /\ v mod 256 = b3.
Proof.
  drop_unused. intros H0 H1 H2 H3 v. subst v.
  change (2 ^ 24) with 16777216. change (2 ^ 16) with 65536.
  change (2 ^ 8) with 256.
  repeat split; Z.div_mod_to_equations; lia.
Qed.

Lemma byte_at_range data i : 0 <= byte_at data i < 256.
Proof. apply byte_val_range. Qed.

(** Storing back the word a field holds changes nothing. *)
Lemma store32_load32 (data : list byte) (off : nat) :
  store32 off (load32 data off) data = data.
Proof.
  unfold store32, load32.
  destruct (be32_split (byte_at data off) (byte_at data (off + 1))
              (byte_at data (off + 2)) (byte_at data (off + 3)))
    as (E0 & E1 & E2 & E3); try apply byte_at_range.
  rewrite (insert_byte_at_id data (off + 3) _ E3).
  rewrite (insert_byte_at_id data (off + 2) _ E2).
  rewrite (insert_byte_at_id data (off + 1) _ E1).
  apply (insert_byte_at_id data off _ E0).
Qed.

(** A second store to a field replaces the first. *)
Lemma store32_store32 (data : list byte) (off : nat) (v w : Z) :
  store32 off v (store32 off w data) = store32 off v data.
Proof.
  unfold store32. apply list_eq. intros j.
  rewrite !list_lookup_insert, !length_insert.
  repeat case_decide; try reflexivity; lia.
Qed.

Lemma length_store32 (data : list byte) (off : nat) (v : Z) :
  length (store32 off v data) = length data.
Proof. unfold store32. rewrite !length_insert. reflexivity. Qed.

(** The header [rtl838x_request_fw] returns is the image it was given. *)
Lemma rtl838x_request_fw_ret name h :
  fw_ret (rtl838x_request_fw name) = Some h -> request_firmware name = Some h.
Proof.
  unfold rtl838x_request_fw.
  destruct (request_firmware name) as [data|]; [|discriminate].
  destruct (length data <? hdr_size layout)%nat; [discriminate|].
  destruct (negb (load32 data (off_magic layout) =? 0x83808380)); [discriminate|].
  destruct (negb _); [discriminate|].
  cbn. rewrite store32_store32, store32_load32. trivial.
Qed.

(** C3: an image shorter than the header is rejected; any other image is
    accepted exactly when its magic is [0x83808380] and the complemented
    CRC32 of the image with the checksum field zeroed equals the stored
    checksum; the header returned on acceptance is the image itself, and
    a rejected image yields no header. *)
Theorem rtl838x_request_fw_accepts_iff name data :
  request_firmware name = Some data ->
  ((length data < hdr_size layout)%nat ->
     fw_ret (rtl838x_request_fw name) = None) /\
  ((hdr_size layout <= length data)%nat ->
     (fw_ret (rtl838x_request_fw name) = Some data
      <-> magic_ok data /\ checksum_ok data)) /\
  (fw_ret (rtl838x_request_fw name) = Some data
   \/ fw_ret (rtl838x_request_fw name) = None).
Proof.
  drop_unused.
  intros Hload. unfold rtl838x_request_fw, magic_ok, checksum_ok. rewrite Hload.
  destruct (length data <? hdr_size layout)%nat eqn:Hlen.
  { apply Nat.ltb_lt in Hlen. cbn [fw_ret].
    intuition (try discriminate; try lia). }
  apply Nat.ltb_ge in Hlen.
  destruct (load32 data (off_magic layout) =? 0x83808380) eqn:Hmagic; cbn [negb].
  2:{ apply Z.eqb_neq in Hmagic. cbn [fw_ret].
      intuition (try discriminate; try lia). }
  apply Z.eqb_eq in Hmagic.
  destruct (load32 data (off_checksum layout) =? _) eqn:Hsum; cbn [negb fw_ret].
  - apply Z.eqb_eq in Hsum.
    rewrite store32_store32, store32_load32.
    intuition (try discriminate; try lia).
  - apply Z.eqb_neq in Hsum.
    intuition (try discriminate; try lia; try congruence).
Qed.

(** What the call leaves in the loader's buffer, path by path: the image
    as it was when the file is rejected for its size or magic or is
    accepted; the image with a zeroed checksum field when the checksum
    does not match. *)
Lemma rtl838x_request_fw_buffer name data :
  request_firmware name = Some data ->
  fw_buf (rtl838x_request_fw name)
  = if (hdr_size layout <=? length data)%nat
       && (load32 data (off_magic layout) =? 0x83808380)
       && negb (load32 data (off_checksum layout)
                =? not32 (crc32 0xFFFFFFFF (store32 (off_checksum layout) 0 data)))
    then Some (store32 (off_checksum layout) 0 data)
    else Some data.
Proof.
  intros Hload. unfold rtl838x_request_fw. rewrite Hload.
  destruct (length data <? hdr_size layout)%nat eqn:Hlen.
  { apply Nat.ltb_lt in Hlen.
    destruct (hdr_size layout <=? length data)%nat eqn:Hle; [|reflexivity].
    apply Nat.leb_le in Hle. lia. }
  apply Nat.ltb_ge in Hlen.
  destruct (hdr_size layout <=? length data)%nat eqn:Hle.
  2:{ apply Nat.leb_gt in Hle. lia. }
  destruct (load32 data (off_magic layout) =? 0x83808380); cbn [negb andb]; [|reflexivity].
  destruct (load32 data (off_checksum layout) =? _); cbn [negb fw_buf]; [|reflexivity].
  rewrite store32_store32, store32_load32. reflexivity.
Qed.

(** ** Replaying write-lists *)

Lemma trace_write_phy t port page reg v h :
  family_transport soc_info_family = Some t ->
  trace (write_phy port page reg v h) = [phy_write_event t port page reg v].
Proof.
  unfold write_phy, call_write_phy, trace, phy_write_event.
  destruct soc_info_family; cbn [family_transport]; intros [= <-];
    destruct (bus_write_phy _ _ _ _ _ h); reflexivity.
Qed.

Lemma trace_read_phy t port page reg val h :
  family_transport soc_info_family = Some t ->
  trace (read_phy port page reg val h) = [phy_read_event t port page reg].
Proof.
  unfold read_phy, call_read_phy, trace, phy_read_event.
  destruct soc_info_family; cbn [family_transport]; intros [= <-];
    destruct (bus_read_phy _ _ _ _ h) as [[? ?] ?]; reflexivity.
Qed.

(** A list that ends inside the array is replayed entry by entry, in
    order, and the entry that ends it is not written. *)
Lemma patch_perport_replays t arr port entries :
  family_transport soc_info_family = Some t ->
  forall i, perport_list arr i entries ->
  forall fuel h, (length entries < fuel)%nat ->
  retval (patch_perport fuel arr port i h) = true /\
  trace (patch_perport fuel arr port i h)
  = map (fun '(r, v) => phy_write_event t port 0xfff r v) entries.
Proof.
  intros Ht i Hl. induction Hl as [i H0 | i r v entries Hr Hnz Hv Hl IH];
    intros fuel h Hfuel; (destruct fuel as [|fuel]; [cbn in Hfuel; lia|]).
  - cbn [patch_perport]. rewrite H0. split; reflexivity.
  - cbn [patch_perport]. rewrite Hr. apply Z.eqb_neq in Hnz. rewrite Hnz, Hv.
    rewrite retval_bind, trace_bind, (trace_write_phy t) by assumption.
    cbn [length] in Hfuel.
    destruct (IH fuel (final (write_phy port 0xfff r v h)) ltac:(lia)) as [-> ->].
    split; reflexivity.
Qed.

(** Conversely, a walk that ends normally has replayed a list that ends
    inside the array. *)
Lemma patch_perport_replayed t arr port :
  family_transport soc_info_family = Some t ->
  forall fuel i h,
  retval (patch_perport fuel arr port i h) = true ->
  exists entries,
    perport_list arr i entries /\
    trace (patch_perport fuel arr port i h)
    = map (fun '(r, v) => phy_write_event t port 0xfff r v) entries.
Proof.
  intros Ht fuel. induction fuel as [|fuel IH]; intros i h.
  - cbn. discriminate.
  - cbn [patch_perport].
    destruct (arr (i * 2)%nat) as [r|] eqn:Hr; [|cbn; discriminate].
    destruct (r =? 0) eqn:Hz.
    + apply Z.eqb_eq in Hz. subst r. intros _. exists [].
      split; [constructor; assumption | reflexivity].
    + apply Z.eqb_neq in Hz.
      destruct (arr (i * 2 + 1)%nat) as [v|] eqn:Hv; [|cbn; discriminate].
      rewrite retval_bind, trace_bind, (trace_write_phy t) by assumption.
      intros Hret. destruct (IH _ _ Hret) as (entries & Hl & ->).
      exists ((r, v) :: entries). split; [|reflexivity].
      econstructor; eassumption.
Qed.

Lemma patch_perchip_replays t arr mac entries :
  family_transport soc_info_family = Some t ->
  forall i, perchip_list arr i entries ->
  forall fuel h, (length entries < fuel)%nat ->
  retval (patch_perchip fuel arr mac i h) = true /\
  trace (patch_perchip fuel arr mac i h)
  = map (fun '(p, r, v) => phy_write_event t (mac + p) 0xfff r v) entries.
Proof.
  intros Ht i Hl.
  induction Hl as [i H0 | i p Hp Hpnz H1 | i p r v entries Hp Hpnz Hr Hrnz Hv Hl IH];
    intros fuel h Hfuel; (destruct fuel as [|fuel]; [cbn in Hfuel; lia|]).
  - cbn [patch_perchip]. rewrite H0. split; reflexivity.
  - cbn [patch_perchip]. rewrite Hp. apply Z.eqb_neq in Hpnz. rewrite Hpnz, H1.
    split; reflexivity.
  - cbn [patch_perchip]. rewrite Hp. apply Z.eqb_neq in Hpnz, Hrnz.
    rewrite Hpnz, Hr, Hrnz, Hv.
    rewrite retval_bind, trace_bind, (trace_write_phy t) by assumption.
    cbn [length] in Hfuel.
    destruct (IH fuel (final (write_phy (mac + p) 0xfff r v h)) ltac:(lia)) as [-> ->].
    split; reflexivity.
Qed.

(** The bound on a walk is never what ends it: past the end of the array
    every read fails, so any two bounds beyond the array give the same
    run.  The bound [S (length h)] the configuration functions use is such
    a bound for every array inside the firmware buffer [h]. *)
Lemma patch_perport_fuel arr n port :
  (forall j, (n <= j)%nat -> arr j = None) ->
  forall fuel fuel' i h,
  (n < fuel + i)%nat -> (n < fuel' + i)%nat ->
  patch_perport fuel arr port i h = patch_perport fuel' arr port i h.
Proof.
  intros Hend fuel.
  induction fuel as [|fuel IH]; intros [|fuel'] i h H1 H2; try reflexivity.
  - cbn [patch_perport]. rewrite (Hend (i * 2)%nat) by (cbn in H1; lia).
    reflexivity.
  - cbn [patch_perport]. rewrite (Hend (i * 2)%nat) by (cbn in H2; lia).
    reflexivity.
  - cbn [patch_perport].
    destruct (arr (i * 2)%nat) as [r|]; [|reflexivity].
    destruct (r =? 0); [reflexivity|].
    destruct (arr (i * 2 + 1)%nat) as [v|]; [|reflexivity].
    rewrite !run_bind. rewrite (IH fuel' (S i)) by lia. reflexivity.
Qed.

Lemma patch_perchip_fuel arr n mac :
  (forall j, (n <= j)%nat -> arr j = None) ->
  forall fuel fuel' i h,
  (n < fuel + i)%nat -> (n < fuel' + i)%nat ->
  patch_perchip fuel arr mac i h = patch_perchip fuel' arr mac i h.
Proof.
  intros Hend fuel.
  induction fuel as [|fuel IH]; intros [|fuel'] i h H1 H2; try reflexivity.
  - cbn [patch_perchip]. rewrite (Hend (i * 3)%nat) by (cbn in H1; lia).
    reflexivity.
  - cbn [patch_perchip]. rewrite (Hend (i * 3)%nat) by (cbn in H2; lia).
    reflexivity.
  - cbn [patch_perchip].
    destruct (arr (i * 3)%nat) as [p|]; [|reflexivity].
    destruct (p =? 0); [reflexivity|].
    destruct (arr (i * 3 + 1)%nat) as [r|]; [|reflexivity].
    destruct (r =? 0); [reflexivity|].
    destruct (arr (i * 3 + 2)%nat) as [v|]; [|reflexivity].
    rewrite !run_bind. rewrite (IH fuel' (S i)) by lia. reflexivity.
Qed.

Lemma fw_part_end h k j : (length h <= j)%nat -> fw_part h k j = None.
Proof.
  intros Hj. unfold fw_part, word_at.
  destruct (_ <=? length h)%nat eqn:E; [|reflexivity].
  apply Nat.leb_le in E. lia.
Qed.

Lemma patch_perport_fw_part_fuel h k port fuel h0 :
  (length h < fuel)%nat ->
  patch_perport fuel (fw_part h k) port 0 h0
  = patch_perport (S (length h)) (fw_part h k) port 0 h0.
Proof.
  intros Hfuel. apply (patch_perport_fuel _ (length h)); [|lia|lia].
  apply fw_part_end.
Qed.

Lemma patch_perchip_fw_part_fuel h k mac fuel h0 :
  (length h < fuel)%nat ->
  patch_perchip fuel (fw_part h k) mac 0 h0
  = patch_perchip (S (length h)) (fw_part h k) mac 0 h0.
Proof.
  intros Hfuel. apply (patch_perchip_fuel _ (length h)); [|lia|lia].
  apply fw_part_end.
Qed.

(** C7, as the code has it: a write-list is replayed in list order through
    [write_phy] up to, and without, the first entry that ends it.  A
    (register, value) list ends at the first entry with register word 0; a
    (port offset, register, value) list ends at the first entry with port
    offset 0 or register word 0.  In particular the list
    [(p1,r1,v1), (p2,r2,v2), (0,0,0)] with [p1], [r1], [p2], [r2] different
    from 0 makes exactly two writes, in that order. *)
Theorem patch_lists_replayed_in_order_up_to_end_mark t h :
  family_transport soc_info_family = Some t ->
  (forall arr port entries fuel,
     perport_list arr 0 entries -> (length entries < fuel)%nat ->
     retval (patch_perport fuel arr port 0 h) = true /\
     trace (patch_perport fuel arr port 0 h)
     = map (fun '(r, v) => phy_write_event t port 0xfff r v) entries) /\
  (forall arr mac entries fuel,
     perchip_list arr 0 entries -> (length entries < fuel)%nat ->
     retval (patch_perchip fuel arr mac 0 h) = true /\
     trace (patch_perchip fuel arr mac 0 h)
     = map (fun '(p, r, v) => phy_write_event t (mac + p) 0xfff r v) entries) /\
  (forall mac p1 r1 v1 p2 r2 v2 fuel,
     p1 <> 0 -> r1 <> 0 -> p2 <> 0 -> r2 <> 0 -> (2 < fuel)%nat ->
     trace (patch_perchip fuel
              (fun i => [p1; r1; v1; p2; r2; v2; 0; 0; 0] !! i) mac 0 h)
     = [phy_write_event t (mac + p1) 0xfff r1 v1;
        phy_write_event t (mac + p2) 0xfff r2 v2]).
Proof.
  intros Ht. split; [|split].
  - intros arr port entries fuel Hl Hfuel.
    apply (patch_perport_replays t); assumption.
  - intros arr mac entries fuel Hl Hfuel.
    apply (patch_perchip_replays t); assumption.
  - intros mac p1 r1 v1 p2 r2 v2 fuel Hp1 Hr1 Hp2 Hr2 Hfuel.
    apply (patch_perchip_replays t _ mac [(p1, r1, v1); (p2, r2, v2)]);
      [assumption | | cbn; lia].
    eapply perchip_entry; [reflexivity | assumption | reflexivity | assumption
                          | reflexivity |].
    eapply perchip_entry; [reflexivity | assumption | reflexivity | assumption
                          | reflexivity |].
    apply perchip_end_port. reflexivity.
Qed.

(** ** The broadcast bracket *)

Lemma ends_with_bind {A} suffix (m : M hw A) (f : A -> M hw (option Z)) h :
  ends_with suffix (f (retval (m h)) (final (m h))) ->
  ends_with suffix ((m ≫= f) h).
Proof.
  unfold ends_with. rewrite retval_bind, trace_bind. intros H Hret.
  destruct (H Hret) as (pre & suf & Hs & ->).
  exists (trace (m h) ++ pre), suf. split; [assumption|].
  rewrite <- List.app_assoc. reflexivity.
Qed.

Lemma ends_with_other suffix (o : option Z) h :
  o <> Some 0 -> ends_with suffix ((mret o : M hw (option Z)) h).
Proof. intros Ho Hret. cbn in Hret. contradiction. Qed.

Lemma trace_broadcast_id_write t mac id h :
  family_transport soc_info_family = Some t ->
  trace (broadcast_id_write mac id h) = broadcast_events t mac id.
Proof.
  intros Ht. unfold broadcast_id_write.
  repeat (rewrite trace_bind, (trace_write_phy t) by assumption).
  reflexivity.
Qed.

Ltac walk_to_bracket :=
  repeat lazymatch goal with
  | |- ends_with _ ((broadcast_id_write _ _ ≫= _) _) => fail
  | |- ends_with _ ((_ ≫= _) _) => apply ends_with_bind
  | |- ends_with _ ((let '(_, _) := ?x in _) _) => destruct x as [? ?]
  | |- ends_with _ ((if ?c then _ else _) _) => destruct c eqn:?
  | |- ends_with _ ((match ?x with Some _ => _ | None => _ end) _) =>
      destruct x eqn:?
  | |- ends_with _ (mret _ _) => apply ends_with_other; discriminate
  end.

(** C8: a run of [rtl8380_configure_ext_rtl8218b] that returns 0 ends with
    these accesses, in this order and with nothing in between: the six
    writes that set the broadcast ID register (page [0x266], register
    [0x16]) to [0xff00 + mac]; the probe of the IPD value; the replay of
    the per-port list of the firmware file (part 1), entry by entry; the
    six writes that set the broadcast ID register to [0x00 + mac]. *)
Theorem rtl8380_configure_ext_rtl8218b_broadcast_bracket t mac h :
  family_transport soc_info_family = Some t ->
  retval (rtl8380_configure_ext_rtl8218b mac h) = Some 0 ->
  exists fw entries pre,
    fw_ret (rtl838x_request_fw FIRMWARE_838X_8218b_1) = Some fw /\
    perport_list (fw_part fw 1) 0 entries /\
    trace (rtl8380_configure_ext_rtl8218b mac h)
    = pre
      ++ broadcast_events t mac (0xff00 + mac)
      ++ ipd_probe_events t mac
      ++ map (fun '(r, v) => phy_write_event t mac 0xfff r v) entries
      ++ broadcast_events t mac (0x00 + mac).
Proof.
  intros Ht Hret.
  set (suffix := fun suf : list event =>
    exists fw entries,
      fw_ret (rtl838x_request_fw FIRMWARE_838X_8218b_1) = Some fw /\
      perport_list (fw_part fw 1) 0 entries /\
      suf = broadcast_events t mac (0xff00 + mac)
            ++ ipd_probe_events t mac
            ++ map (fun '(r, v) => phy_write_event t mac 0xfff r v) entries
            ++ broadcast_events t mac (0x00 + mac)).
  assert (H : ends_with suffix (rtl8380_configure_ext_rtl8218b mac h)).
  { clear Hret. unfold rtl8380_configure_ext_rtl8218b.
    walk_to_bracket.
    match goal with |- ends_with _ (_ ?h0) => generalize h0 end.
    intros h0 Hret.
    exists [].
    revert Hret.
    rewrite retval_bind, trace_bind, (trace_broadcast_id_write t) by assumption.
    set (h1 := final (broadcast_id_write _ _ h0)).
    do 3 (rewrite retval_bind, trace_bind, (trace_write_phy t) by assumption).
    rewrite retval_bind, trace_bind.
    change (trace (mdelay 1 _)) with [EvMdelay 1].
    rewrite retval_bind, trace_bind, (trace_read_phy t) by assumption.
    rewrite retval_bind, trace_bind, (trace_write_phy t) by assumption.
    rewrite retval_bind, trace_bind.
    match goal with
    | |- context [patch_perport ?f ?a ?p ?i ?hh] =>
        set (run := patch_perport f a p i hh);
        pose proof (patch_perport_replayed t a p Ht f i hh) as Hrep;
        fold run in Hrep
    end.
    destruct (retval run) eqn:Hok; cbn [negb]; [|cbn; discriminate].
    destruct (Hrep eq_refl) as (entries & Hl & Htr).
    rewrite Htr. intros _.
    rewrite trace_bind, (trace_broadcast_id_write t), trace_ret, app_nil_r
      by assumption.
    eexists. split; [|reflexivity].
    exists l, entries.
    split; [first [assumption | reflexivity]|]. split; [assumption|].
    reflexivity. }
  destruct (H Hret) as (pre & suf & (fw & entries & Hfw & Hl & ->) & Htr).
  exists fw, entries, pre. auto.
Qed.

(** ** Energy-efficient Ethernet inside the polling bracket *)

Lemma phy_access_read_phy port page reg val h :
  Forall is_phy_access (trace (read_phy port page reg val h)).
Proof.
  unfold read_phy, call_read_phy, trace.
  destruct soc_info_family; try (destruct (bus_read_phy _ _ _ _ h) as [[? ?] ?]);
    repeat constructor.
Qed.

Lemma phy_access_write_phy port page reg v h :
  Forall is_phy_access (trace (write_phy port page reg v h)).
Proof.
  unfold write_phy, call_write_phy, trace.
  destruct soc_info_family; try (destruct (bus_write_phy _ _ _ _ _ h));
    repeat constructor.
Qed.

Lemma phy_access_read_mmd_phy port devnum regnum val h :
  Forall is_phy_access (trace (read_mmd_phy port devnum regnum val h)).
Proof.
  unfold read_mmd_phy, call_read_mmd, trace.
  destruct soc_info_family; try (destruct (bus_read_mmd _ _ _ _ h) as [[? ?] ?]);
    repeat constructor.
Qed.

Lemma phy_access_write_mmd_phy port devnum reg v h :
  Forall is_phy_access (trace (write_mmd_phy port devnum reg v h)).
Proof.
  unfold write_mmd_phy, call_write_mmd, trace.
  destruct soc_info_family; try (destruct (bus_write_mmd _ _ _ _ _ h));
    repeat constructor.
Qed.

Lemma phy_access_bind {A B} (m : M hw A) (f : A -> M hw B) h :
  Forall is_phy_access (trace (m h)) ->
  Forall is_phy_access (trace (f (retval (m h)) (final (m h)))) ->
  Forall is_phy_access (trace ((m ≫= f) h)).
Proof. intros H1 H2. rewrite trace_bind. apply Forall_app. split; assumption. Qed.

(** Walks a computation that is made of PHY accesses only. *)
Ltac phy_accesses :=
  repeat lazymatch goal with
  | |- Forall _ (trace ((_ ≫= _) _)) => apply phy_access_bind
  | |- Forall _ (trace ((let '(_, _) := ?x in _) _)) => destruct x as [? ?]
  | |- Forall _ (trace ((if ?c then _ else _) _)) => destruct c
  | |- Forall _ (trace (mret _ _)) => constructor
  | |- Forall _ (trace (read_phy _ _ _ _ _)) => apply phy_access_read_phy
  | |- Forall _ (trace (write_phy _ _ _ _ _)) => apply phy_access_write_phy
  | |- Forall _ (trace (read_mmd_phy _ _ _ _ _)) => apply phy_access_read_mmd_phy
  | |- Forall _ (trace (write_mmd_phy _ _ _ _ _)) => apply phy_access_write_mmd_phy
  end.

Lemma phy_access_rtl8218d_eee_set port enable h :
  Forall is_phy_access (trace (rtl8218d_eee_set port enable h)).
Proof. unfold rtl8218d_eee_set. phy_accesses. Qed.

Lemma phy_access_media_is_fibre mac h :
  Forall is_phy_access (trace (rtl8380_rtl8214fc_media_is_fibre mac h)).
Proof. unfold rtl8380_rtl8214fc_media_is_fibre. phy_accesses. Qed.

Lemma run_resume_polling saved_state h :
  retval (resume_polling saved_state h) = 0 /\
  trace (resume_polling saved_state h) = resume_polling_events saved_state.
Proof.
  unfold resume_polling, resume_polling_events.
  destruct soc_info_family; split; reflexivity.
Qed.

Lemma resumes_bind {A} saved_state (m : M hw A) (f : A -> M hw Z) h :
  Forall is_phy_access (trace (m h)) ->
  resumes saved_state (f (retval (m h)) (final (m h))) ->
  resumes saved_state ((m ≫= f) h).
Proof.
  intros Hm (Hret & mid & Hmid & Htr). unfold resumes.
  rewrite retval_bind, trace_bind. split; [assumption|].
  exists (trace (m h) ++ mid). split.
  - apply Forall_app. split; assumption.
  - rewrite Htr, List.app_assoc. reflexivity.
Qed.

Lemma resumes_resume_polling saved_state h :
  resumes saved_state ((resume_polling saved_state;; mret 0) h).
Proof.
  unfold resumes. rewrite retval_bind, trace_bind, retval_ret, trace_ret, app_nil_r.
  split; [reflexivity|]. exists []. split; [constructor|].
  apply run_resume_polling.
Qed.

(** Walks the part of a function between its [disable_polling] and the
    end. *)
Ltac walk_to_resume :=
  repeat lazymatch goal with
  | |- resumes _ ((resume_polling _ ≫= _) _) => apply resumes_resume_polling
  | |- resumes _ ((_ ≫= _) _) => apply resumes_bind; [phy_accesses|]
  | |- resumes _ ((let '(_, _) := ?x in _) _) => destruct x as [? ?]
  | |- resumes _ ((if ?c then _ else _) _) => destruct c
  end.

Lemma inside_polling_bracket_intro port kept (f : Z -> M hw Z) h :
  (forall saved_state h', resumes (kept saved_state) (f saved_state h')) ->
  inside_polling_bracket port kept h ((disable_polling port ≫= f) h).
Proof.
  intros Hf. unfold inside_polling_bracket.
  rewrite retval_bind, trace_bind.
  destruct (Hf (retval (disable_polling port h)) (final (disable_polling port h)))
    as (Hret & mid & Hmid & Htr).
  split; [assumption|]. exists mid. split; [assumption|].
  rewrite Htr. reflexivity.
Qed.

(** X5: [rtl8218b_set_eee], [rtl8218d_set_eee] and [rtl8226_set_eee] do
    all their PHY accesses with the polling of the port suspended: each
    run is [disable_polling(port)], then PHY accesses only, then
    [resume_polling] of exactly the state [disable_polling] returned, and
    the result is 0, whatever the hardware answers. *)
Theorem set_eee_inside_polling_bracket port eee_enabled h :
  inside_polling_bracket port (fun s => s) h (rtl8218b_set_eee port eee_enabled h) /\
  inside_polling_bracket port (fun s => s) h (rtl8218d_set_eee port eee_enabled h) /\
  inside_polling_bracket port (fun s => s) h (rtl8226_set_eee port eee_enabled h).
Proof.
  split; [|split].
  - unfold rtl8218b_set_eee. apply inside_polling_bracket_intro.
    intros s h'. walk_to_resume.
  - unfold rtl8218d_set_eee. apply inside_polling_bracket_intro.
    intros s h'. apply resumes_bind; [apply phy_access_rtl8218d_eee_set|].
    apply resumes_resume_polling.
  - unfold rtl8226_set_eee. apply inside_polling_bracket_intro.
    intros s h'. walk_to_resume.
Qed.

Lemma u32_high_word_zero z : u32 (Z.shiftr (u32 z) 32) = 0.
Proof.
  drop_unused. rewrite Z.shiftr_div_pow2 by lia.
  rewrite Z.div_small by apply u32_range. reflexivity.
Qed.

(** X6: on a port that is set to fibre, [rtl8214fc_set_eee] and
    [rtl8214fc_get_eee] return [-ENOTSUPP] after the media probe alone:
    at most three accesses, all to the PHY; the polling is not suspended,
    no EEE register is touched and [e->eee_enabled] is left as it was. *)
Theorem rtl8214fc_eee_refused_on_fibre port eee_enabled h :
  retval (rtl8380_rtl8214fc_media_is_fibre port h) = true ->
  rtl8214fc_set_eee port eee_enabled h
  = (- ENOTSUPP, final (rtl8380_rtl8214fc_media_is_fibre port h),
     trace (rtl8380_rtl8214fc_media_is_fibre port h)) /\
  rtl8214fc_get_eee port eee_enabled h
  = ((- ENOTSUPP, eee_enabled), final (rtl8380_rtl8214fc_media_is_fibre port h),
     trace (rtl8380_rtl8214fc_media_is_fibre port h)) /\
  Forall is_phy_access (trace (rtl8380_rtl8214fc_media_is_fibre port h)) /\
  (length (trace (rtl8380_rtl8214fc_media_is_fibre port h)) <= 3)%nat.
Proof.
  intros Hf. split; [|split; [|split]].
  - unfold rtl8214fc_set_eee. rewrite run_bind, Hf.
    rewrite retval_ret, final_ret, trace_ret, app_nil_r. reflexivity.
  - unfold rtl8214fc_get_eee. rewrite run_bind, Hf.
    rewrite retval_ret, final_ret, trace_ret, app_nil_r. reflexivity.
  - apply phy_access_media_is_fibre.
  - clear Hf. unfold rtl8380_rtl8214fc_media_is_fibre, write_phy, read_phy.
    destruct soc_info_family;
      cbv [call_write_phy call_read_phy mbind M_bind mret M_ret trace snd];
      repeat match goal with
      | |- context [bus_write_phy ?t ?a ?b ?c ?d ?hh] =>
          destruct (bus_write_phy t a b c d hh) as [? ?]
      | |- context [bus_read_phy ?t ?a ?b ?c ?hh] =>
          destruct (bus_read_phy t a b c hh) as [[? ?] ?]
      | |- context [if ?c then _ else _] => destruct c
      end; cbn; lia.
Qed.

(** X7: on a copper port, [rtl8214fc_set_eee] works inside the polling
    bracket like the other PHYs, but it keeps the saved polling state in
    a [u32]: what [resume_polling] gets is the low word of what
    [disable_polling] returned.  On RTL8390, whose state has two words,
    the run therefore ends by writing 0 to the upper polling register. *)
Theorem rtl8214fc_set_eee_resumes_low_word port eee_enabled h :
  retval (rtl8380_rtl8214fc_media_is_fibre port h) = false ->
  exists r,
    inside_polling_bracket port u32
      (final (rtl8380_rtl8214fc_media_is_fibre port h)) r /\
    retval (rtl8214fc_set_eee port eee_enabled h) = retval r /\
    trace (rtl8214fc_set_eee port eee_enabled h)
    = trace (rtl8380_rtl8214fc_media_is_fibre port h) ++ trace r /\
    (soc_info_family = RTL8390_FAMILY_ID ->
     exists pre lo,
       trace r
       = pre ++ [EvLock;
                 EvW32 0 (RTL839X_SMI_PORT_POLLING_CTRL + 4);
                 EvW32 lo RTL839X_SMI_PORT_POLLING_CTRL;
                 EvUnlock]).
Proof.
  intros Hf. unfold rtl8214fc_set_eee.
  rewrite retval_bind, trace_bind, Hf.
  set (h1 := final (rtl8380_rtl8214fc_media_is_fibre port h)).
  match goal with |- context [retval (?m h1)] => set (run := m) end.
  assert (Hb : inside_polling_bracket port u32 h1 (run h1)).
  { subst run. apply inside_polling_bracket_intro. intros s h'. walk_to_resume. }
  exists (run h1). split; [exact Hb|]. split; [reflexivity|]. split; [reflexivity|].
  intros Hfam. destruct Hb as (_ & mid & _ & ->).
  unfold resume_polling_events. rewrite Hfam, u32_high_word_zero, u32_u32.
  exists (trace (disable_polling port h1) ++ mid). eexists.
  rewrite <- List.app_assoc. reflexivity.
Qed.

Lemma get_eee_results addr eee_enabled h :
  let results :=
    [retval (rtl8226_get_eee addr eee_enabled h);
     retval (rtl8218b_get_eee addr eee_enabled h);
     retval (rtl8218d_get_eee addr eee_enabled h)] in
  Forall (fun r => r.1 = 0 /\
                   (eee_enabled = 0 -> r.2 = 0) /\
                   (r.2 = 0 \/ r.2 = 1)) results.
Proof.
  assert (Ht : forall x, truth x = 0 \/ truth x = 1).
  { intros x. unfold truth. destruct (x =? 0); auto. }
  cbv zeta.
  apply List.Forall_cons; [|apply List.Forall_cons; [|apply List.Forall_cons;
    [|apply List.Forall_nil]]].
  - unfold rtl8226_get_eee. rewrite ?retval_bind.
    destruct (retval (read_mmd_phy _ _ _ _ _)) as [ret val].
    destruct (Z.eqb_spec eee_enabled 0) as [->|Hne]; cbn [negb].
    + rewrite ?retval_bind, ?retval_ret. cbn. auto.
    + destruct (truth (Z.land val (BIT 1)) =? 0) eqn:E.
      * rewrite ?retval_bind.
        destruct (retval (read_mmd_phy _ _ _ _ _)) as [ret' val'].
        rewrite !retval_ret. cbn.
        split; [reflexivity|]. split; [contradiction|].
        destruct (Ht (Z.land val' (BIT 0))); auto.
      * rewrite ?retval_bind, ?retval_ret. cbn.
        split; [reflexivity|]. split; [contradiction|].
        destruct (Ht (Z.land val (BIT 1))); auto.
  - unfold rtl8218b_get_eee. rewrite ?retval_bind.
    destruct (retval (read_phy _ _ _ _ _)) as [ret val].
    destruct (Z.eqb_spec eee_enabled 0) as [->|Hne]; cbn [negb].
    + rewrite ?retval_bind, ?retval_ret. cbn. auto.
    + destruct (truth (Z.land val (BIT 7)) =? 0) eqn:E.
      * rewrite ?retval_bind.
        destruct (retval (read_phy _ _ _ _ _)) as [ret' val'].
        rewrite ?retval_bind, ?retval_ret. cbn.
        split; [reflexivity|]. split; [contradiction|].
        destruct (Ht (Z.land val' (BIT 4))); auto.
      * rewrite ?retval_bind, ?retval_ret. cbn.
        split; [reflexivity|]. split; [contradiction|].
        destruct (Ht (Z.land val (BIT 7))); auto.
  - unfold rtl8218d_get_eee. rewrite ?retval_bind.
    destruct (retval (read_phy _ _ _ _ _)) as [ret val].
    rewrite ?retval_bind, ?retval_ret. cbn [fst snd].
    destruct (Z.eqb_spec eee_enabled 0) as [->|Hne]; cbn [negb].
    + auto.
    + split; [reflexivity|]. split; [contradiction|].
      destruct (Ht (Z.land val (BIT 7))); auto.
Qed.

(** X8: the three [get_eee] functions never report more than they were
    asked with: called with [e->eee_enabled = 0] they return 0 and leave
    the field at 0, whatever the PHY registers hold; in every case they
    return 0 and leave 0 or 1 in the field. *)
Theorem get_eee_never_turns_eee_on addr eee_enabled h :
  Forall (fun get_eee : Z -> Z -> M hw (Z * Z) =>
            retval (get_eee addr 0 h) = (0, 0) /\
            (retval (get_eee addr eee_enabled h)).1 = 0 /\
            ((retval (get_eee addr eee_enabled h)).2 = 0 \/
             (retval (get_eee addr eee_enabled h)).2 = 1))
    [rtl8226_get_eee; rtl8218b_get_eee; rtl8218d_get_eee].
Proof.
  pose proof (get_eee_results addr 0 h) as H0.
  pose proof (get_eee_results addr eee_enabled h) as He.
  cbv zeta in H0, He.
  apply Forall_cons in H0 as [(A1 & A2 & _) H0], He as [(B1 & _ & B3) He].
  apply Forall_cons in H0 as [(C1 & C2 & _) H0], He as [(D1 & _ & D3) He].
  apply Forall_cons in H0 as [(E1 & E2 & _) _], He as [(F1 & _ & F3) _].
  specialize (A2 eq_refl). specialize (C2 eq_refl). specialize (E2 eq_refl).
  repeat apply List.Forall_cons; try apply List.Forall_nil;
    (split; [|split; assumption]).
  - destruct (retval (rtl8226_get_eee addr 0 h)); cbn in *; congruence.
  - destruct (retval (rtl8218b_get_eee addr 0 h)); cbn in *; congruence.
  - destruct (retval (rtl8218d_get_eee addr 0 h)); cbn in *; congruence.
Qed.

(** ** Configuration needs its firmware *)

(** X9: without a firmware file that passes the checks and carries the
    tag of the PHY, the configuration of an RTL8218B fails with -1 before
    it changes the PHY: the only accesses of the run are those of the
    identification (or none at all, when the external PHY sits at an
    address the RTL8380 does not allow). *)
Theorem rtl8218b_configure_needs_firmware t mac h :
  family_transport soc_info_family = Some t ->
  ((forall fw, fw_ret (rtl838x_request_fw FIRMWARE_838X_8218b_1) = Some fw ->
      load32 fw (off_phy layout) <> 0x8218b000) ->
   retval (rtl8380_configure_ext_rtl8218b mac h) = Some (-1) /\
   (trace (rtl8380_configure_ext_rtl8218b mac h) = [] \/
    trace (rtl8380_configure_ext_rtl8218b mac h) = id_probe_events t mac)) /\
  ((forall fw, fw_ret (rtl838x_request_fw FIRMWARE_838X_8380_1) = Some fw ->
      load32 fw (off_phy layout) <> 0x83800000) ->
   retval (rtl8380_configure_int_rtl8218b mac h) = Some (-1) /\
   trace (rtl8380_configure_int_rtl8218b mac h) = id_probe_events t mac).
Proof.
  intros Ht. split; intros Hfw.
  - unfold rtl8380_configure_ext_rtl8218b.
    destruct (_ && _ && _); [split; [reflexivity | left; reflexivity]|].
    rewrite retval_bind, trace_bind, (trace_read_phy t) by assumption.
    destruct (retval (read_phy mac 0 2 _ _)) as [? val0].
    rewrite retval_bind, trace_bind, (trace_read_phy t) by assumption.
    destruct (retval (read_phy mac 0 3 _ _)) as [? val1].
    rewrite retval_bind, trace_bind, (trace_write_phy t) by assumption.
    rewrite retval_bind, trace_bind, (trace_read_phy t) by assumption.
    destruct (retval (read_phy mac 31 28 _ _)) as [? val2].
    destruct (negb (val2 =? 0x6276));
      [split; [reflexivity | right; reflexivity]|].
    destruct (fw_ret (rtl838x_request_fw FIRMWARE_838X_8218b_1)) as [fw|] eqn:E;
      [|split; [reflexivity | right; reflexivity]].
    specialize (Hfw fw eq_refl). apply Z.eqb_neq in Hfw. rewrite Hfw.
    split; [reflexivity | right; reflexivity].
  - unfold rtl8380_configure_int_rtl8218b.
    rewrite retval_bind, trace_bind, (trace_read_phy t) by assumption.
    destruct (retval (read_phy mac 0 2 _ _)) as [? val0].
    rewrite retval_bind, trace_bind, (trace_read_phy t) by assumption.
    destruct (retval (read_phy mac 0 3 _ _)) as [? val1].
    rewrite retval_bind, trace_bind, (trace_write_phy t) by assumption.
    rewrite retval_bind, trace_bind, (trace_read_phy t) by assumption.
    destruct (retval (read_phy mac 31 28 _ _)) as [? val2].
    destruct (negb (val2 =? 0x6275)); [split; reflexivity|].
    destruct (fw_ret (rtl838x_request_fw FIRMWARE_838X_8380_1)) as [fw|] eqn:E;
      [|split; reflexivity].
    specialize (Hfw fw eq_refl). apply Z.eqb_neq in Hfw. rewrite Hfw.
    split; reflexivity.
Qed.

(** ** Probing *)

(** X10: a probe function reaches the hardware only for the address its
    package is configured at.  [rtl8218b_ext_phy_probe] does so only on
    RTL8380 at address 0 or 16, [rtl8218b_int_phy_probe] only on RTL8380
    at a multiple of 8 below 24, [rtl8214c_phy_probe] only at a multiple
    of 8, [rtl838x_serdes_probe] only on an RTL8380 SoC at address 24;
    none does when the allocation of its private data failed.  On
    RTL8380 the probe of an external RTL8218B at any other multiple of 8
    fails with -1 without an access. *)
Theorem probes_reach_hardware_at_base_addresses_only addr h :
  (trace (rtl8218b_ext_phy_probe addr h) <> [] ->
   devm_kzalloc = true /\ soc_info_family = RTL8380_FAMILY_ID /\
   (addr = 0 \/ addr = 16)) /\
  (trace (rtl8218b_int_phy_probe addr h) <> [] ->
   devm_kzalloc = true /\ soc_info_family = RTL8380_FAMILY_ID /\
   addr < 24 /\ Z.rem addr 8 = 0) /\
  (trace (rtl8214c_phy_probe addr h) <> [] ->
   devm_kzalloc = true /\ Z.rem addr 8 = 0) /\
  (trace (rtl838x_serdes_probe addr h) <> [] ->
   devm_kzalloc = true /\ soc_info_family = RTL8380_FAMILY_ID /\
   soc_info_id = 0x8380 /\ addr = 24) /\
  (devm_kzalloc = true -> soc_info_family = RTL8380_FAMILY_ID ->
   Z.rem addr 8 = 0 -> addr <> 0 -> addr <> 16 ->
   rtl8218b_ext_phy_probe addr h = (Some (-1), h, [])).
Proof.
  split; [|split; [|split; [|split]]].
  - unfold rtl8218b_ext_phy_probe, rtl8380_configure_ext_rtl8218b.
    destruct devm_kzalloc; cbn [negb]; [|intros Htr; exfalso; apply Htr; reflexivity].
    destruct (Z.eqb_spec (Z.rem addr 8) 0) as [Hr|Hr]; cbn [andb];
      [|intros Htr; exfalso; apply Htr; reflexivity].
    destruct soc_info_family; try (intros Htr; exfalso; apply Htr; reflexivity).
    cbn [andb].
    destruct (Z.eqb_spec addr 0) as [->|H0]; cbn [negb andb]; [auto|].
    destruct (Z.eqb_spec addr 16) as [->|H16]; cbn [negb andb]; [auto|].
    intros Htr; exfalso; apply Htr; reflexivity.
  - unfold rtl8218b_int_phy_probe.
    destruct soc_info_family; cbn [negb];
      try (intros Htr; exfalso; apply Htr; reflexivity).
    destruct (Z.leb_spec 24 addr); [intros Htr; exfalso; apply Htr; reflexivity|].
    destruct devm_kzalloc; cbn [negb]; [|intros Htr; exfalso; apply Htr; reflexivity].
    destruct (Z.eqb_spec (Z.rem addr 8) 0) as [Hr|Hr];
      [|intros Htr; exfalso; apply Htr; reflexivity].
    auto.
  - unfold rtl8214c_phy_probe.
    destruct devm_kzalloc; cbn [negb]; [|intros Htr; exfalso; apply Htr; reflexivity].
    destruct (Z.eqb_spec (Z.rem addr 8) 0) as [Hr|Hr];
      [|intros Htr; exfalso; apply Htr; reflexivity].
    auto.
  - unfold rtl838x_serdes_probe.
    destruct soc_info_family; cbn [negb];
      try (intros Htr; exfalso; apply Htr; reflexivity).
    destruct (addr <? 24); [intros Htr; exfalso; apply Htr; reflexivity|].
    destruct devm_kzalloc; cbn [negb]; [|intros Htr; exfalso; apply Htr; reflexivity].
    destruct (Z.eqb_spec soc_info_id 0x8380) as [Hid|Hid];
      [|intros Htr; exfalso; apply Htr; reflexivity].
    destruct (Z.eqb_spec addr 24) as [Ha|Ha];
      [|intros Htr; exfalso; apply Htr; reflexivity].
    auto.
  - intros Hk Hfam Hr H0 H16.
    unfold rtl8218b_ext_phy_probe, rtl8380_configure_ext_rtl8218b.
    rewrite Hk, Hfam, Hr. cbn [negb andb Z.eqb].
    apply Z.eqb_neq in H0, H16. rewrite H0, H16. reflexivity.
Qed.

(** ** The RTL8226 *)

Lemma trace_read_mmd_phy t port devnum regnum val h :
  family_transport soc_info_family = Some t ->
  trace (read_mmd_phy port devnum regnum val h)
  = [EvReadMmd t (u32 port) (u32 devnum) (u32 regnum)].
Proof.
  unfold read_mmd_phy, call_read_mmd, trace.
  destruct soc_info_family; cbn [family_transport]; intros [= <-];
    destruct (bus_read_mmd _ _ _ _ h) as [[? ?] ?]; reflexivity.
Qed.

Lemma trace_write_mmd_phy t port devnum reg v h :
  family_transport soc_info_family = Some t ->
  trace (write_mmd_phy port devnum reg v h)
  = [EvWriteMmd t (u32 port) (u32 devnum) (u32 reg) (u32 v)].
Proof.
  unfold write_mmd_phy, call_write_mmd, trace.
  destruct soc_info_family; cbn [family_transport]; intros [= <-];
    destruct (bus_write_mmd _ _ _ _ _ h); reflexivity.
Qed.

(** X15: unlike the RTL8218B pair, [rtl8226_read_mmd] and
    [rtl8226_write_mmd] go through the same back end, the one of the
    active family, with one access each; for an unsupported family both
    return -1 without an access. *)
Theorem rtl8226_mmd_read_write_same_transport port devnum regnum val h :
  Forall (fun e => transport_of e = family_transport soc_info_family)
    (trace (rtl8226_read_mmd port devnum regnum h)
     ++ trace (rtl8226_write_mmd port devnum regnum val h)) /\
  match family_transport soc_info_family with
  | Some t =>
      trace (rtl8226_read_mmd port devnum regnum h)
      = [EvReadMmd t (u32 port) (u32 devnum) (u16 regnum)] /\
      trace (rtl8226_write_mmd port devnum regnum val h)
      = [EvWriteMmd t (u32 port) (u32 devnum) (u16 regnum) (u16 val)]
  | None =>
      rtl8226_read_mmd port devnum regnum h = (-1, h, []) /\
      rtl8226_write_mmd port devnum regnum val h = (-1, h, [])
  end.
Proof.
  unfold rtl8226_read_mmd, rtl8226_write_mmd.
  destruct (family_transport soc_info_family) as [t|] eqn:Ht.
  - rewrite trace_bind, (trace_read_mmd_phy t) by assumption.
    destruct (retval (read_mmd_phy _ _ _ _ h)) as [err v].
    destruct (negb (err =? 0));
      rewrite trace_ret, (trace_write_mmd_phy t), !u32_u16 by assumption;
      cbn [app]; (split; [repeat constructor | split; reflexivity]).
  - unfold read_mmd_phy, write_mmd_phy.
    destruct soc_info_family; try discriminate Ht.
    split; [constructor | split; reflexivity].
Qed.


(** ** SerDes configuration of the RTL8380 *)

Lemma rtl838x_request_fw_magic name h :
  fw_ret (rtl838x_request_fw name) = Some h ->
  load32 h (off_magic layout) = 0x83808380.
Proof.
  unfold rtl838x_request_fw.
  destruct (request_firmware name) as [data|]; [|discriminate].
  destruct (length data <? hdr_size layout)%nat; [discriminate|].
  destruct (Z.eqb_spec (load32 data (off_magic layout)) 0x83808380) as [Hm|];
    [|discriminate].
  cbn [negb]. destruct (negb _); [discriminate|].
  cbn [fw_ret]. rewrite store32_store32, store32_load32. intros [= <-]. exact Hm.
Qed.

(** The bound on a walk over a register list is never what ends it. *)
Lemma sds_replay_fuel arr n delay :
  (forall j, (n <= j)%nat -> arr j = None) ->
  forall fuel fuel' i h,
  (n < fuel + i)%nat -> (n < fuel' + i)%nat ->
  sds_replay fuel delay arr i h = sds_replay fuel' delay arr i h.
Proof.
  intros Hend fuel.
  induction fuel as [|fuel IH]; intros [|fuel'] i h H1 H2; try reflexivity.
  - cbn [sds_replay]. rewrite (Hend (2 * i)%nat) by (cbn in H1; lia).
    reflexivity.
  - cbn [sds_replay]. rewrite (Hend (2 * i)%nat) by (cbn in H2; lia).
    reflexivity.
  - cbn [sds_replay].
    destruct (arr (2 * i)%nat) as [r|]; [|reflexivity].
    destruct (r =? 0); [reflexivity|].
    destruct (arr (2 * i + 1)%nat) as [v|]; [|reflexivity].
    rewrite !run_bind. rewrite (IH fuel' (S i)) by lia. reflexivity.
Qed.

Ltac walk_to_end :=
  repeat lazymatch goal with
  | |- ends_with _ ((sw_r32 _ ≫= fun _ => sw_w32 _ _ ≫= _) _) => fail
  | |- ends_with _ ((_ ≫= _) _) => apply ends_with_bind
  | |- ends_with _ ((if ?c then _ else _) _) => destruct c eqn:?
  | |- ends_with _ (mret _ _) => apply ends_with_other; discriminate
  end.

(** X17: [rtl8380_configure_serdes] fails with -1, without touching a
    register, exactly when the firmware file is not delivered or does not
    pass the checks of [rtl838x_request_fw]; its own test of the magic
    number can never fail.  A run that returns 0 starts by reading the
    SerDes power-down register and ends by reading it once more and
    writing back the value read at the start. *)
Theorem rtl8380_configure_serdes_restores_power_down h :
  (fw_ret (rtl838x_request_fw FIRMWARE_838X_8380_1) = None ->
   rtl8380_configure_serdes h = (Some (-1), h, [])) /\
  (fw_ret (rtl838x_request_fw FIRMWARE_838X_8380_1) <> None ->
   retval (rtl8380_configure_serdes h) <> Some (-1)) /\
  (retval (rtl8380_configure_serdes h) = Some 0 ->
   exists v mid v',
     trace (rtl8380_configure_serdes h)
     = EvR32 RTL838X_SDS_CFG_REG v :: mid
       ++ [EvR32 RTL838X_SDS_CFG_REG v'; EvW32 v RTL838X_SDS_CFG_REG]).
Proof.
  unfold rtl8380_configure_serdes.
  destruct (fw_ret (rtl838x_request_fw FIRMWARE_838X_8380_1)) as [fw|] eqn:Hfw.
  2:{ split; [reflexivity|]. split; [congruence|]. cbn. discriminate. }
  rewrite (rtl838x_request_fw_magic _ _ Hfw).
  change (negb (2206237568 =? 2206237568)) with false. cbv iota.
  split; [discriminate|].
  rewrite retval_bind, trace_bind, trace_sw_r32.
  set (v := retval (sw_r32 RTL838X_SDS_CFG_REG h)).
  set (h1 := final (sw_r32 RTL838X_SDS_CFG_REG h)).
  match goal with |- context [retval (?m h1)] => set (rest := m) end.
  assert (Hend : ends_with
            (fun suf => exists v', suf = [EvR32 RTL838X_SDS_CFG_REG v';
                                          EvW32 v RTL838X_SDS_CFG_REG])
            (rest h1)).
  { subst rest. walk_to_end.
    match goal with |- ends_with _ (_ ?h0) => generalize h0 end.
    intros h0 _. exists [].
    rewrite trace_bind, trace_sw_r32, trace_bind, trace_sw_w32, trace_ret.
    rewrite (u32_id v) by apply retval_sw_r32_range.
    eexists. split; [eexists; reflexivity|]. reflexivity. }
  split.
  - intros _. assert (Hne : forall hh, retval (rest hh) <> Some (-1)).
    { intros hh. subst rest. cbv beta.
      rewrite retval_bind.
      match goal with |- context [negb ?c] => destruct (negb c) end;
        [rewrite retval_ret; discriminate|].
      do 6 rewrite retval_bind.
      match goal with |- context [negb ?c] => destruct (negb c) end;
        [rewrite retval_ret; discriminate|].
      rewrite !retval_bind, retval_ret. discriminate. }
    apply Hne.
  - intros Hret. destruct (Hend Hret) as (pre & suf & (v' & ->) & Htr).
    exists v, pre, v'. rewrite Htr. reflexivity.
Qed.

(** ** Bit fields of RTL9310 SerDes registers *)


(** ** Waiting for the patch mode *)

Lemma patch_ready_wait_reads t port n l val h :
  family_transport soc_info_family = Some t ->
  exists k,
    (k <= n)%nat /\
    trace (patch_ready_wait port n l val h)
    = repeat (phy_read_event t port 0xb80 0x10) k /\
    ((retval (patch_ready_wait port n l val h)).1 = l + Z.of_nat n /\ k = n
     \/
     (retval (patch_ready_wait port n l val h)).1 = l + Z.of_nat k - 1 /\
     (1 <= k)%nat /\
     Z.land (retval (patch_ready_wait port n l val h)).2 0x40 <> 0).
Proof.
  intros Ht. revert l val h. induction n as [|n IH]; intros l val h.
  - exists 0%nat. split; [lia|]. split; [reflexivity|]. left.
    cbn. split; [lia | reflexivity].
  - cbn [patch_ready_wait].
    rewrite retval_bind, trace_bind, (trace_read_phy t) by assumption.
    destruct (retval (read_phy port 0xb80 0x10 val h)) as [ret val'].
    set (h1 := final (read_phy port 0xb80 0x10 val h)).
    destruct (Z.eqb_spec (Z.land val' 0x40) 0) as [Hz|Hnz]; cbn [negb].
    + destruct (IH (l + 1) val' h1) as (k & Hk & Htr & Hc).
      exists (S k). split; [lia|]. rewrite Htr. split; [reflexivity|].
      destruct Hc as [(Hr & ->) | (Hr & Hk1 & Hb)].
      * left. rewrite Hr. split; [lia | reflexivity].
      * right. rewrite Hr. split; [lia|]. split; [lia | assumption].
    + exists 1%nat. split; [lia|]. split; [reflexivity|]. right.
      cbn. split; [lia|]. split; [lia | assumption].
Qed.

(** X19: the readiness check before patching only reads: each port of the
    package is polled at register [0x10] of page [0xb80] at most 100
    times, one port after the other, and nothing is written.  The check
    succeeds only if the last value read from every port had bit 6
    set. *)
Theorem verify_patch_ready_only_polls t mac ps val h :
  family_transport soc_info_family = Some t ->
  exists polls : list nat,
    (length polls <= length ps)%nat /\
    Forall (fun k => (1 <= k <= 100)%nat) polls /\
    trace (verify_patch_ready mac ps val h)
    = concat (zip_with (fun p k => repeat (phy_read_event t (mac + p) 0xb80 0x10) k)
                ps polls) /\
    ((retval (verify_patch_ready mac ps val h)).1 = true ->
     length polls = length ps /\
     (ps <> [] -> Z.land (retval (verify_patch_ready mac ps val h)).2 0x40 <> 0)).
Proof.
  intros Ht. revert val h. induction ps as [|p ps IH]; intros val h.
  - exists []. cbn. repeat split; try constructor. intros; congruence.
  - cbn [verify_patch_ready].
    rewrite retval_bind, trace_bind.
    destruct (patch_ready_wait_reads t (mac + p) 100 0 val h Ht)
      as (k & Hk & Htr & Hc).
    rewrite Htr.
    destruct (retval (patch_ready_wait (mac + p) 100 0 val h)) as [l val'].
    set (h1 := final (patch_ready_wait (mac + p) 100 0 val h)).
    cbn [fst snd] in Hc.
    destruct (Z.leb_spec 100 l) as [Hge|Hlt].
    + exists [k]. cbn [length]. split; [lia|].
      assert (Hk1 : (1 <= k)%nat) by (destruct Hc as [(_ & ->) | (_ & ? & _)]; lia).
      split; [apply List.Forall_cons; [lia | apply List.Forall_nil]|].
      rewrite trace_ret, app_nil_r.
      split; [destruct ps; cbn; rewrite app_nil_r; reflexivity|].
      cbn. discriminate.
    + destruct Hc as [(Hr & _) | (Hr & Hk1 & Hb)]; [lia|].
      destruct (IH val' h1) as (polls & Hlen & Hall & Htr' & Hok).
      exists (k :: polls). cbn [length]. split; [lia|].
      split; [apply List.Forall_cons; [lia | assumption]|].
      rewrite Htr'. split; [reflexivity|].
      intros Hret. destruct (Hok Hret) as [Hl Hv]. split; [lia|].
      intros _. destruct ps as [|p' ps'].
      * cbn. exact Hb.
      * apply Hv. discriminate.
Qed.

(** X20: [rtl9310_sds_field_r] returns a value below
    [2 ^ (end_bit - start_bit - 1)] whenever that exponent is between 0
    and 31, whatever the hardware answers: the helper takes one bit less
    than the distance of the two bit positions, and a read that timed out
    is not reported but comes back as field value as well. *)
Theorem rtl9310_sds_field_r_bound sds page reg end_bit start_bit h :
  0 <= end_bit - start_bit - 1 < 32 ->
  0 <= retval (rtl9310_sds_field_r sds page reg end_bit start_bit h)
    < 2 ^ (end_bit - start_bit - 1).
Proof.
  intros Hl. unfold rtl9310_sds_field_r. rewrite retval_bind.
  set (l := end_bit - start_bit - 1) in *.
  destruct (Z.leb_spec 32 l) as [E|E]; [exfalso; revert Hl E; drop_unused; lia|].
  rewrite retval_ret.
  assert (Hbit : u32 (BIT l - 1) = Z.ones l).
  { clearbody l. revert Hl. drop_unused. intros Hl.
    unfold BIT. rewrite Z.shiftl_1_l, Z.ones_equiv.
    assert (Hp : 0 < 2 ^ l <= 2 ^ 31).
    { split; [apply Z.pow_pos_nonneg; lia|].
      apply Z.pow_le_mono_r; lia. }
    change (2 ^ 31) with 2147483648 in Hp.
    rewrite (u32_id (2 ^ l)), u32_id;
      change (2 ^ 32) with 4294967296; lia. }
  rewrite Hbit, Z.land_ones by (revert Hl; drop_unused; lia).
  apply Z.mod_pos_bound. apply Z.pow_pos_nonneg; revert Hl; drop_unused; lia.
Qed.

(** ** The RTL8214FC *)

Lemma trace_auto_medium t mac h :
  family_transport soc_info_family = Some t ->
  trace (for_each (fun i =>
           write_phy (mac + i) 0xfff 0x1f 0x0000;;
           write_phy (mac + i) 0xfff 0x1e 0x0000;;
           mret tt) ports4 h)
  = auto_medium_events t mac.
Proof.
  intros Ht. cbn [for_each ports4].
  repeat (rewrite trace_bind, ?(trace_write_phy t), ?trace_ret by assumption).
  reflexivity.
Qed.

(** X22: a run of [rtl8380_configure_rtl8214fc] that returns 0 ends with
    these accesses, in this order and with nothing in between: the six
    writes that set the broadcast ID register to [0xff00 + mac]; the
    replay of the per-port list of the firmware file (part 1), entry by
    entry, at the base address; the six writes that set the broadcast ID
    register back to [0x00 + mac]; the two writes per port that leave the
    choice of the medium to each of the four ports. *)
Theorem rtl8380_configure_rtl8214fc_ends_in_auto_medium t mac h :
  family_transport soc_info_family = Some t ->
  retval (rtl8380_configure_rtl8214fc mac h) = Some 0 ->
  exists fw entries pre,
    fw_ret (rtl838x_request_fw FIRMWARE_838X_8214FC_1) = Some fw /\
    load32 fw (off_phy layout) = 0x8214fc00 /\
    perport_list (fw_part fw 1) 0 entries /\
    trace (rtl8380_configure_rtl8214fc mac h)
    = pre
      ++ broadcast_events t mac (0xff00 + mac)
      ++ map (fun '(r, v) => phy_write_event t mac 0xfff r v) entries
      ++ broadcast_events t mac (0x00 + mac)
      ++ auto_medium_events t mac.
Proof.
  intros Ht Hret.
  set (suffix := fun suf : list event =>
    exists fw entries,
      fw_ret (rtl838x_request_fw FIRMWARE_838X_8214FC_1) = Some fw /\
      load32 fw (off_phy layout) = 0x8214fc00 /\
      perport_list (fw_part fw 1) 0 entries /\
      suf = broadcast_events t mac (0xff00 + mac)
            ++ map (fun '(r, v) => phy_write_event t mac 0xfff r v) entries
            ++ broadcast_events t mac (0x00 + mac)
            ++ auto_medium_events t mac).
  assert (H : ends_with suffix (rtl8380_configure_rtl8214fc mac h)).
  { clear Hret. unfold rtl8380_configure_rtl8214fc.
    walk_to_bracket.
    match goal with |- ends_with _ (_ ?h0) => generalize h0 end.
    intros h0 Hret.
    exists [].
    revert Hret.
    rewrite retval_bind, trace_bind, (trace_broadcast_id_write t) by assumption.
    set (h1 := final (broadcast_id_write _ _ h0)).
    rewrite retval_bind, trace_bind.
    match goal with
    | |- context [patch_perport ?f ?a ?p ?i ?hh] =>
        set (run := patch_perport f a p i hh);
        pose proof (patch_perport_replayed t a p Ht f i hh) as Hrep;
        fold run in Hrep
    end.
    destruct (retval run) eqn:Hok; cbn [negb]; [|cbn; discriminate].
    destruct (Hrep eq_refl) as (entries & Hl & Htr).
    rewrite Htr. intros _.
    rewrite trace_bind, (trace_broadcast_id_write t) by assumption.
    rewrite trace_bind, (trace_auto_medium t) by assumption.
    rewrite trace_ret, app_nil_r.
    eexists. split; [|reflexivity].
    exists l, entries.
    split; [first [assumption | reflexivity]|].
    split; [apply Z.eqb_eq, negb_false_iff; assumption|].
    split; [assumption|].
    reflexivity. }
  destruct (H Hret) as (pre & suf & (fw & entries & Hfw & Hphy & Hl & ->) & Htr).
  exists fw, entries, pre. auto.
Qed.


(** X23: without a firmware file that passes the checks and carries the
    tag [0x8214fc00], the configuration of an RTL8214FC fails with -1
    before it resets or patches the PHY: the only accesses of the run are
    those of the identification. *)
Theorem rtl8380_configure_rtl8214fc_needs_firmware t mac h :
  family_transport soc_info_family = Some t ->
  (forall fw, fw_ret (rtl838x_request_fw FIRMWARE_838X_8214FC_1) = Some fw ->
     load32 fw (off_phy layout) <> 0x8214fc00) ->
  retval (rtl8380_configure_rtl8214fc mac h) = Some (-1) /\
  trace (rtl8380_configure_rtl8214fc mac h) = rtl8214fc_id_probe_events t mac.
Proof.
  intros Ht Hfw. unfold rtl8380_configure_rtl8214fc.
  rewrite retval_bind, trace_bind, (trace_read_phy t) by assumption.
  destruct (retval (read_phy mac 0 2 _ _)) as [? val0].
  rewrite retval_bind, trace_bind, (trace_read_phy t) by assumption.
  destruct (retval (read_phy mac 0 3 _ _)) as [? val1].
  do 3 (rewrite retval_bind, trace_bind, (trace_write_phy t) by assumption).
  rewrite retval_bind, trace_bind, (trace_read_phy t) by assumption.
  destruct (retval (read_phy mac 31 28 _ _)) as [? val2].
  destruct (negb (val2 =? 0x6276)); [split; reflexivity|].
  destruct (fw_ret (rtl838x_request_fw FIRMWARE_838X_8214FC_1)) as [fw|] eqn:E;
    [|split; reflexivity].
  specialize (Hfw fw eq_refl). apply Z.eqb_neq in Hfw. rewrite Hfw.
  split; reflexivity.
Qed.

Lemma autosensing_wait_reads t port n l val h :
  family_transport soc_info_family = Some t ->
  exists k,
    (k <= n)%nat /\
    trace (autosensing_wait port n l val h)
    = repeat (phy_read_event t port 0x0a42 0x10) k /\
    ((retval (autosensing_wait port n l val h)).1 = l + Z.of_nat n /\ k = n
     \/
     (retval (autosensing_wait port n l val h)).1 = l + Z.of_nat k - 1 /\
     (1 <= k)%nat /\
     3 <= Z.land (retval (autosensing_wait port n l val h)).2 0x7).
Proof.
  intros Ht. revert l val h. induction n as [|n IH]; intros l val h.
  - exists 0%nat. split; [lia|]. split; [reflexivity|]. left.
    cbn. split; [lia | reflexivity].
  - cbn [autosensing_wait].
    rewrite retval_bind, trace_bind, (trace_read_phy t) by assumption.
    destruct (retval (read_phy port 0x0a42 0x10 val h)) as [ret val'].
    set (h1 := final (read_phy port 0x0a42 0x10 val h)).
    destruct (Z.leb_spec 3 (Z.land val' 0x7)) as [Hge|Hlt].
    + exists 1%nat. split; [lia|]. split; [reflexivity|]. right.
      cbn. split; [lia|]. split; [lia | assumption].
    + destruct (IH (l + 1) val' h1) as (k & Hk & Htr & Hc).
      exists (S k). split; [lia|]. rewrite Htr. split; [reflexivity|].
      destruct Hc as [(Hr & ->) | (Hr & Hk1 & Hb)].
      * left. rewrite Hr. split; [lia | reflexivity].
      * right. rewrite Hr. split; [lia|]. split; [lia | assumption].
Qed.

(** X24: the wait that precedes the patch request of the RTL8214FC only
    reads: each port is polled at register [0x10] of page [0xa42] at most
    100 times, one port after the other, and nothing is written.  The
    wait succeeds only if the low three bits of the last value read from
    every port were at least 3. *)
Theorem disable_autosensing_only_polls t mac ps val h :
  family_transport soc_info_family = Some t ->
  exists polls : list nat,
    (length polls <= length ps)%nat /\
    Forall (fun k => (1 <= k <= 100)%nat) polls /\
    trace (disable_autosensing mac ps val h)
    = concat (zip_with (fun p k => repeat (phy_read_event t (mac + p) 0x0a42 0x10) k)
                ps polls) /\
    ((retval (disable_autosensing mac ps val h)).1 = true ->
     length polls = length ps /\
     (ps <> [] -> 3 <= Z.land (retval (disable_autosensing mac ps val h)).2 0x7)).
Proof.
  intros Ht. revert val h. induction ps as [|p ps IH]; intros val h.
  - exists []. cbn. repeat split; try constructor. intros; congruence.
  - cbn [disable_autosensing].
    rewrite retval_bind, trace_bind.
    destruct (autosensing_wait_reads t (mac + p) 100 0 val h Ht)
      as (k & Hk & Htr & Hc).
    rewrite Htr.
    destruct (retval (autosensing_wait (mac + p) 100 0 val h)) as [l val'].
    set (h1 := final (autosensing_wait (mac + p) 100 0 val h)).
    cbn [fst snd] in Hc.
    destruct (Z.leb_spec 100 l) as [Hge|Hlt].
    + exists [k]. cbn [length]. split; [lia|].
      assert (Hk1 : (1 <= k)%nat) by (destruct Hc as [(_ & ->) | (_ & ? & _)]; lia).
      split; [apply List.Forall_cons; [lia | apply List.Forall_nil]|].
      rewrite trace_ret, app_nil_r.
      split; [destruct ps; cbn; rewrite app_nil_r; reflexivity|].
      cbn. discriminate.
    + destruct Hc as [(Hr & _) | (Hr & Hk1 & Hb)]; [lia|].
      destruct (IH val' h1) as (polls & Hlen & Hall & Htr' & Hok).
      exists (k :: polls). cbn [length]. split; [lia|].
      split; [apply List.Forall_cons; [lia | assumption]|].
      rewrite Htr'. split; [reflexivity|].
      intros Hret. destruct (Hok Hret) as [Hl Hv]. split; [lia|].
      intros _. destruct ps as [|p' ps'].
      * cbn. exact Hb.
      * apply Hv. discriminate.
Qed.

(** X25: on a list without an entry for register [0x13] the per-chip loop
    of the RTL8214FC does what the per-chip loop of the RTL8218B does: the
    same writes in the same order, no read, the same end of the walk; and
    it leaves [val] as it found it. *)
Theorem patch_perchip_rtl8214fc_without_reg_0x13 fuel arr mac i page val h :
  (forall j, arr (j * 3 + 1)%nat <> Some 0x13) ->
  patch_perchip_rtl8214fc fuel arr mac i page val h
  = ((retval (patch_perchip fuel arr mac i h), val),
     final (patch_perchip fuel arr mac i h),
     trace (patch_perchip fuel arr mac i h)).
Proof.
  intros Harr. revert i page h.
  induction fuel as [|fuel IH]; intros i page h; [reflexivity|].
  cbn [patch_perchip_rtl8214fc patch_perchip].
  destruct (arr (i * 3)%nat) as [p|]; [|reflexivity].
  destruct (p =? 0); [reflexivity|].
  pose proof (Harr i) as Hi.
  destruct (arr (i * 3 + 1)%nat) as [r|]; [|reflexivity].
  destruct (r =? 0); [reflexivity|].
  destruct (arr (i * 3 + 2)%nat) as [v|]; [|reflexivity].
  destruct (Z.eqb_spec r 0x13) as [->|Hr]; [contradiction Hi; reflexivity|].
  cbn [andb].
  rewrite run_bind, IH.
  rewrite retval_bind, final_bind, trace_bind.
  reflexivity.
Qed.

(** X26: [rtl8214fc_phy_probe] refuses an RTL8393 with [-ENODEV] before
    it allocates or touches anything, and reaches the hardware only when
    the allocation succeeded and the address is a multiple of 8.  On an
    RTL8380 the match functions keep the two packages that share a PHY ID
    apart by address: at no address both accept, and between 8 and 23
    neither does. *)
Theorem rtl8214fc_probe_and_match phy_id phy_id' addr h :
  (soc_info_id = 0x8393 ->
   rtl8214fc_phy_probe addr h = (Some (- ENODEV), h, [])) /\
  (trace (rtl8214fc_phy_probe addr h) <> [] ->
   soc_info_id <> 0x8393 /\ devm_kzalloc = true /\ Z.rem addr 8 = 0) /\
  (soc_info_family = RTL8380_FAMILY_ID ->
   rtl8218b_ext_match_phy_device phy_id addr
   && rtl8214fc_match_phy_device phy_id' addr = false /\
   (8 <= addr < 24 ->
    rtl8218b_ext_match_phy_device phy_id addr = false /\
    rtl8214fc_match_phy_device phy_id' addr = false)).
Proof.
  split; [|split].
  - intros Hid. unfold rtl8214fc_phy_probe. rewrite Hid. reflexivity.
  - unfold rtl8214fc_phy_probe.
    destruct (Z.eqb_spec soc_info_id 0x8393) as [Hid|Hid];
      [intros Htr; exfalso; apply Htr; reflexivity|].
    destruct devm_kzalloc; cbn [negb]; [|intros Htr; exfalso; apply Htr; reflexivity].
    destruct (Z.eqb_spec (Z.rem addr 8) 0) as [Hr|Hr];
      [|intros Htr; exfalso; apply Htr; reflexivity].
    auto.
  - intros Hfam. unfold rtl8218b_ext_match_phy_device, rtl8214fc_match_phy_device.
    rewrite Hfam.
    destruct (phy_id =? PHY_ID_RTL8218B_E), (phy_id' =? PHY_ID_RTL8214FC);
      cbn [andb];
      destruct (Z.ltb_spec addr 8) as [H8|H8], (Z.leb_spec 24 addr) as [H24|H24];
      cbn [andb]; (split; [first [reflexivity | exfalso; revert H8 H24; drop_unused; lia]|]);
      intros [Hlo Hhi];
      first [split; reflexivity | exfalso; revert H8 H24 Hlo Hhi; drop_unused; lia].
Qed.

End Driver.

(** ** Suspending and resuming polling on a register file *)

Lemma saved_state_halves hi lo :
  0 <= hi < 2 ^ 32 -> 0 <= lo < 2 ^ 32 ->
  u32 (Z.lor (Z.shiftl hi 32 mod 2 ^ 64) lo) = lo /\
  u32 (Z.shiftr (Z.lor (Z.shiftl hi 32 mod 2 ^ 64) lo) 32) = hi.
Proof.
  intros Hhi Hlo.
  assert (Elo : forall n, 32 <= n -> Z.testbit lo n = false).
  { intros n Hn. rewrite <- (Z.mod_small lo (2 ^ 32)) by lia.
    rewrite Z.testbit_mod_pow2 by lia.
    destruct (n <? 32) eqn:E; [apply Z.ltb_lt in E; lia | reflexivity]. }
  assert (Ehi : forall n, 32 <= n -> Z.testbit hi n = false).
  { intros n Hn. rewrite <- (Z.mod_small hi (2 ^ 32)) by lia.
    rewrite Z.testbit_mod_pow2 by lia.
    destruct (n <? 32) eqn:E; [apply Z.ltb_lt in E; lia | reflexivity]. }
  unfold u32. split; apply Z.bits_inj'; intros n Hn.
  - rewrite Z.testbit_mod_pow2, Z.lor_spec, Z.testbit_mod_pow2 by lia.
    rewrite Z.shiftl_spec by lia.
    destruct (n <? 32) eqn:E.
    + apply Z.ltb_lt in E. rewrite (Z.testbit_neg_r hi) by lia.
      rewrite andb_false_r. reflexivity.
    + apply Z.ltb_ge in E. rewrite Elo by lia. reflexivity.
  - rewrite Z.testbit_mod_pow2, Z.shiftr_spec, Z.lor_spec, Z.testbit_mod_pow2 by lia.
    rewrite Z.shiftl_spec by lia.
    replace (n + 32 - 32) with n by lia.
    rewrite (Elo (n + 32)) by lia. rewrite orb_false_r.
    destruct (n <? 32) eqn:E.
    + apply Z.ltb_lt in E.
      assert ((n + 32 <? 64) = true) as -> by (apply Z.ltb_lt; lia). reflexivity.
    + apply Z.ltb_ge in E. rewrite Ehi by lia. reflexivity.
Qed.

Lemma reg_value_insert (m : gmap Z Z) reg v :
  Sim.reg_value (<[reg := u32 v]> m) reg = u32 v.
Proof.
  unfold Sim.reg_value. rewrite lookup_insert_eq. cbn. apply u32_u32.
Qed.

Lemma reg_value_insert_ne (m : gmap Z Z) reg reg' v :
  reg <> reg' -> Sim.reg_value (<[reg := v]> m) reg' = Sim.reg_value m reg'.
Proof.
  intros Hne. unfold Sim.reg_value. rewrite lookup_insert_ne by assumption.
  reflexivity.
Qed.

(** C5: on a register file, [disable_polling(port)] followed by
    [resume_polling] of the state it returned leaves every polling register
    of the family with the value it had before, for every family, port and
    register content; on RTL8390 both words are restored. *)
Theorem disable_then_resume_polling_restores family indeterminate
  RTL838X_SMI_POLL_CTRL RTL839X_SMI_PORT_POLLING_CTRL RTL930X_SMI_POLL_CTRL
  port (regs : gmap Z Z) :
  let disabled :=
    disable_polling Sim.reg_r32 Sim.reg_w32 family indeterminate
      RTL838X_SMI_POLL_CTRL RTL839X_SMI_PORT_POLLING_CTRL RTL930X_SMI_POLL_CTRL
      port regs in
  let resumed :=
    resume_polling Sim.reg_w32 family
      RTL838X_SMI_POLL_CTRL RTL839X_SMI_PORT_POLLING_CTRL RTL930X_SMI_POLL_CTRL
      (retval disabled) (final disabled) in
  polling_restored family
    RTL838X_SMI_POLL_CTRL RTL839X_SMI_PORT_POLLING_CTRL RTL930X_SMI_POLL_CTRL
    regs (final resumed).
Proof.
  destruct family;
    cbv [disable_polling resume_polling sw_r32 sw_w32 sw_w32_mask
         mutex_lock mutex_unlock emit mbind M_bind mret M_ret
         retval final fst snd Sim.reg_r32 Sim.reg_w32 polling_restored];
    try reflexivity.
  - rewrite reg_value_insert. unfold Sim.reg_value. apply u32_u32.
  - set (hi := u32 (default 0 (regs !! (RTL839X_SMI_PORT_POLLING_CTRL + 4)))).
    set (lo := u32 (default 0 (regs !! RTL839X_SMI_PORT_POLLING_CTRL))).
    destruct (saved_state_halves hi lo (u32_range _) (u32_range _)) as [Hlo Hhi].
    split.
    + rewrite reg_value_insert. exact Hlo.
    + rewrite reg_value_insert_ne by lia.
      rewrite reg_value_insert. exact Hhi.
  - rewrite reg_value_insert. unfold Sim.reg_value. apply u32_u32.
Qed.

(** ** The driver on concrete inputs *)

(** Witness for C3, a sealed image: the loader delivers it, it is at least as long as
    the header, its magic and checksum are right, and the driver returns it
    as the header. *)
Lemma rtl838x_request_fw_accepts_iff_witness :
  Sim.loader Sim.rtl8218b_fw FIRMWARE_838X_8218b_1 = Some Sim.rtl8218b_fw /\
  (hdr_size Sim.rtl83xx_fw_header <= length Sim.rtl8218b_fw)%nat /\
  fw_ret (rtl838x_request_fw (Sim.loader Sim.rtl8218b_fw) crc32_le
            Sim.rtl83xx_fw_header FIRMWARE_838X_8218b_1)
  = Some Sim.rtl8218b_fw.
Proof.
  assert (Hlen : (hdr_size Sim.rtl83xx_fw_header <= length Sim.rtl8218b_fw)%nat)
    by (vm_compute; lia).
  split; [reflexivity|]. split; [exact Hlen|].
  apply (proj1 (proj2 (rtl838x_request_fw_accepts_iff
                         (Sim.loader Sim.rtl8218b_fw) crc32_le
                         Sim.rtl83xx_fw_header FIRMWARE_838X_8218b_1
                         Sim.rtl8218b_fw eq_refl)) Hlen).
  split; vm_compute; reflexivity.
Defined.

(** C6 at an image whose checksum field ([0xdeadbeef]) does not match: the
    file is rejected and the buffer is left with a zeroed checksum field,
    so it differs from the image that was loaded. *)
Theorem rtl838x_request_fw_mismatch_leaves_checksum_zeroed :
  let out := rtl838x_request_fw (Sim.loader Sim.corrupt_fw) crc32_le
               Sim.rtl83xx_fw_header FIRMWARE_838X_8218b_1 in
  load32 Sim.corrupt_fw (off_checksum Sim.rtl83xx_fw_header) = 0xdeadbeef /\
  fw_ret out = None /\
  exists buf,
    fw_buf out = Some buf /\
    load32 buf (off_checksum Sim.rtl83xx_fw_header) = 0 /\
    buf <> Sim.corrupt_fw.
Proof.
  cbv zeta. split; [vm_compute; reflexivity|]. split; [vm_compute; reflexivity|].
  exists (store32 8 0 Sim.corrupt_fw).
  split; [vm_compute; reflexivity|]. split; [vm_compute; reflexivity|].
  intros H. apply (f_equal (fun b => load32 b 8)) in H.
  vm_compute in H. discriminate H.
Qed.

(** Counterexample to C7 as stated, a per-chip list whose first entry
    addresses port offset 0: for [(0,0x1f,0), (1,0x1e,8), (0,0,0)] the walk
    ends at the first entry and no write is made. *)
Lemma patch_perchip_stops_at_port_offset_zero :
  Sim.perchip_offset0 = [0; 0x1f; 0x0000;  1; 0x1e; 0x0008;  0; 0; 0] /\
  trace (patch_perchip Sim.phy_write RTL8380_FAMILY_ID 10
           (fun i => Sim.perchip_offset0 !! i) 0 0 tt) = [] /\
  trace (patch_perchip Sim.phy_write RTL8380_FAMILY_ID 10
           (fun i => Sim.perchip_offset0 !! i) 0 0 tt)
  <> [phy_write_event T838x (0 + 0) 0xfff 0x1f 0x0000;
      phy_write_event T838x (0 + 1) 0xfff 0x1e 0x0008].
Proof.
  split; [reflexivity|]. split; [vm_compute; reflexivity|].
  vm_compute. discriminate.
Qed.

(** Witness for C7 as the code has it: a per-chip list with two entries whose port
    offsets and registers are not zero: two writes, in list order. *)
Lemma patch_lists_replayed_in_order_up_to_end_mark_witness :
  family_transport RTL8380_FAMILY_ID = Some T838x /\
  trace (patch_perchip Sim.phy_write RTL8380_FAMILY_ID 3
           (fun i => [1; 0x1f; 0x0000;  2; 0x1e; 0x0008;  0; 0; 0] !! i) 8 0 tt)
  = [phy_write_event T838x (8 + 1) 0xfff 0x1f 0x0000;
     phy_write_event T838x (8 + 2) 0xfff 0x1e 0x0008].
Proof.
  split; [reflexivity|].
  apply (proj2 (proj2 (patch_lists_replayed_in_order_up_to_end_mark
                         Sim.phy_write RTL8380_FAMILY_ID T838x tt eq_refl)));
    lia.
Defined.

(** Witness for C8: the sealed image and a bus that lets the configuration run to
    its end. *)
Lemma rtl8380_configure_ext_rtl8218b_broadcast_bracket_witness :
  family_transport RTL8380_FAMILY_ID = Some T838x /\
  retval (rtl8380_configure_ext_rtl8218b Sim.phy_read Sim.phy_write
            (Sim.loader Sim.rtl8218b_fw) crc32_le Sim.rtl83xx_fw_header
            RTL8380_FAMILY_ID 0 16 tt) = Some 0 /\
  exists fw entries pre,
    fw_ret (rtl838x_request_fw (Sim.loader Sim.rtl8218b_fw) crc32_le
              Sim.rtl83xx_fw_header FIRMWARE_838X_8218b_1) = Some fw /\
    perport_list (fw_part Sim.rtl83xx_fw_header fw 1) 0 entries /\
    trace (rtl8380_configure_ext_rtl8218b Sim.phy_read Sim.phy_write
             (Sim.loader Sim.rtl8218b_fw) crc32_le Sim.rtl83xx_fw_header
             RTL8380_FAMILY_ID 0 16 tt)
    = pre
      ++ broadcast_events T838x 16 (0xff00 + 16)
      ++ ipd_probe_events T838x 16
      ++ map (fun '(r, v) => phy_write_event T838x 16 0xfff r v) entries
      ++ broadcast_events T838x 16 (0x00 + 16).
Proof.
  assert (Hret : retval (rtl8380_configure_ext_rtl8218b Sim.phy_read Sim.phy_write
                           (Sim.loader Sim.rtl8218b_fw) crc32_le
                           Sim.rtl83xx_fw_header RTL8380_FAMILY_ID 0 16 tt)
                 = Some 0) by (vm_compute; reflexivity).
  split; [reflexivity|]. split; [exact Hret|].
  exact (rtl8380_configure_ext_rtl8218b_broadcast_bracket
           Sim.phy_read Sim.phy_write (Sim.loader Sim.rtl8218b_fw) crc32_le
           Sim.rtl83xx_fw_header RTL8380_FAMILY_ID 0 T838x 16 tt eq_refl Hret).
Defined.

(** Witness for C9, an RTL8393: registers 2 and 3 answer without an access, register
    5 is the upper half of the word the shadow register holds. *)
Lemma rtl839x_read_sds_phy_simulated_id_witness :
  rtl839x_read_sds_phy (Sim.const_r32 0x12345678) 0x8393 0xb800 48 2 tt
  = (0x1c, tt, []) /\
  rtl839x_read_sds_phy (Sim.const_r32 0x12345678) 0x8393 0xb800 48 3 tt
  = (0x8393, tt, []) /\
  exists w,
    trace (rtl839x_read_sds_phy (Sim.const_r32 0x12345678) 0x8393 0xb800 48 5 tt)
    = [EvR32 (0xb800 + (if 48 =? 49 then 0x100 else 0) + 0x80
              + Z.land (Z.shiftl 5 1) 0xfc) w] /\
    retval (rtl839x_read_sds_phy (Sim.const_r32 0x12345678) 0x8393 0xb800 48 5 tt)
    = Z.land (Z.shiftr w (16 * Z.land 5 1)) 0xffff /\
    0 <= retval (rtl839x_read_sds_phy (Sim.const_r32 0x12345678) 0x8393 0xb800 48 5 tt)
      < 2 ^ 16.
Proof.
  split; [|split].
  - apply (proj1 (rtl839x_read_sds_phy_simulated_id
                    (Sim.const_r32 0x12345678) 0x8393 0xb800 48 2 tt eq_refl)).
    reflexivity.
  - apply (proj1 (proj2 (rtl839x_read_sds_phy_simulated_id
                           (Sim.const_r32 0x12345678) 0x8393 0xb800 48 3 tt eq_refl))).
    reflexivity.
  - apply (proj2 (proj2 (rtl839x_read_sds_phy_simulated_id
                           (Sim.const_r32 0x12345678) 0x8393 0xb800 48 5 tt eq_refl)));
      lia.
Defined.

(** Witness for C10, an RTL8390: the read goes to the RTL8390 back end, the write to
    the RTL8380 back end. *)
Lemma rtl8218b_mmd_read_write_transports_witness :
  RTL8390_FAMILY_ID <> RTL8380_FAMILY_ID /\
  transport_of (EvWriteMmd T838x 3 7 60 6) = Some T838x /\
  transport_of (EvReadMmd T839x 3 7 60) <> transport_of (EvWriteMmd T838x 3 7 60 6).
Proof.
  assert (Hne : RTL8390_FAMILY_ID <> RTL8380_FAMILY_ID) by discriminate.
  split; [exact Hne|].
  apply (proj2 (proj2 (rtl8218b_mmd_read_write_transports
                         Sim.mmd_read Sim.mmd_write RTL8390_FAMILY_ID 0
                         3 7 60 6 tt)) Hne);
    vm_compute; left; reflexivity.
Defined.

(** The defect behind C1 on the indirect-access block: the RTL9300 write returns 0 and the
    SerDes register keeps its old content, because no command reaches the
    block; the RTL9310 write, run against the same block, stores the
    value. *)
Example rtl930x_write_sds_phy_loses_the_value :
  let r := rtl930x_write_sds_phy Sim.sds_r32 Sim.sds_w32 Sim.SDS_CMD Sim.SDS_DATA
             2 0x1f 2 53 Sim.sds_reset in
  retval r = 0 /\
  trace r = [EvW32 53 Sim.SDS_DATA; EvR32 Sim.SDS_CMD 0] /\
  Sim.sds_reg (final r) 2 0x1f 2 = 0.
Proof. vm_compute. repeat split. Qed.

Example rtl931x_write_sds_phy_stores_the_value :
  let r := rtl931x_write_sds_phy Sim.sds_r32 Sim.sds_w32 Sim.SDS_CMD Sim.SDS_DATA
             2 0x1f 2 53 Sim.sds_reset in
  retval r = 0 /\ Sim.sds_reg (final r) 2 0x1f 2 = 53.
Proof. vm_compute. repeat split. Qed.

(** The defect behind C4 on the indirect-access block: after writing 1 to the field with
    [end_bit = 1], [start_bit = 0] of a register that holds 0, the field
    reads 0 and so does the whole register. *)
Example rtl9300_sds_field_w_r_on_block :
  let r := (rtl9300_sds_field_w Sim.sds_r32 Sim.sds_w32 Sim.SDS_CMD Sim.SDS_DATA
              0 0 0 1 0 1;;
            rtl9300_sds_field_r Sim.sds_r32 Sim.sds_w32 Sim.SDS_CMD Sim.SDS_DATA
              0 0 0 1 0) Sim.sds_reset in
  retval r = 0 /\ Sim.sds_reg (final r) 0 0 0 = 0.
Proof. vm_compute. repeat split. Qed.

(** ** The analog SerDes numbers of the RTL9310 *)

(** X1: [rtl931x_get_analog_sds] keeps the pairing of the SerDes: the
    analog number has the parity of the SerDes number, and the analog
    number of the even SerDes of a pair is the even analog number of the
    pair, for every [u32] argument.  On the SerDes 0..13 the map is
    strictly increasing (hence injective) and stays below 24. *)
Theorem rtl931x_get_analog_sds_keeps_pairs sds :
  0 <= sds < 2 ^ 32 ->
  rtl931x_get_analog_sds sds mod 2 = sds mod 2 /\
  rtl931x_get_analog_sds (sds - sds mod 2)
  = rtl931x_get_analog_sds sds - rtl931x_get_analog_sds sds mod 2 /\
  (forall sds', sds < sds' < 14 ->
     sds <= rtl931x_get_analog_sds sds < rtl931x_get_analog_sds sds' /\
     rtl931x_get_analog_sds sds' < 24).
Proof.
  intros Hs.
  destruct (Z.ltb_spec sds 14) as [Hlt|Hge].
  - assert (Hc : sds = 0 \/ sds = 1 \/ sds = 2 \/ sds = 3 \/ sds = 4 \/ sds = 5
                 \/ sds = 6 \/ sds = 7 \/ sds = 8 \/ sds = 9 \/ sds = 10
                 \/ sds = 11 \/ sds = 12 \/ sds = 13) by lia.
    split; [|split].
    + repeat (destruct Hc as [-> | Hc]; [reflexivity|]). subst sds. reflexivity.
    + repeat (destruct Hc as [-> | Hc]; [reflexivity|]). subst sds. reflexivity.
    + intros sds' Hs'.
      assert (Hc' : sds' = 1 \/ sds' = 2 \/ sds' = 3 \/ sds' = 4 \/ sds' = 5
                 \/ sds' = 6 \/ sds' = 7 \/ sds' = 8 \/ sds' = 9 \/ sds' = 10
                 \/ sds' = 11 \/ sds' = 12 \/ sds' = 13) by lia.
      repeat (destruct Hc as [-> | Hc];
              [repeat (destruct Hc' as [-> | Hc']; [first [lia | vm_compute; easy]|]);
               subst sds'; first [lia | vm_compute; easy]|]).
      subst sds. lia.
  - assert (Hid : forall z, 14 <= z < 2 ^ 32 -> rtl931x_get_analog_sds z = z).
    { intros z Hz. unfold rtl931x_get_analog_sds. rewrite u32_id by lia.
      destruct (Z.ltb_spec z 14); [lia | reflexivity]. }
    pose proof (Z.mod_pos_bound sds 2 ltac:(lia)) as Hm.
    assert (Hev : 14 <= sds - sds mod 2).
    { destruct (Z.eq_dec sds 14) as [->|]; [vm_compute; discriminate | lia]. }
    rewrite !Hid by lia.
    split; [reflexivity|]. split; [reflexivity|]. intros sds' Hs'. lia.
Qed.

Lemma rtl931x_get_analog_sds_keeps_pairs_witness :
  0 <= 5 < 2 ^ 32 /\ 5 < 9 < 14 /\
  rtl931x_get_analog_sds 5 mod 2 = 5 mod 2 /\
  rtl931x_get_analog_sds (5 - 5 mod 2)
  = rtl931x_get_analog_sds 5 - rtl931x_get_analog_sds 5 mod 2 /\
  (5 <= rtl931x_get_analog_sds 5 < rtl931x_get_analog_sds 9 /\
   rtl931x_get_analog_sds 9 < 24).
Proof.
  assert (H : 0 <= 5 < 2 ^ 32) by lia.
  assert (H' : 5 < 9 < 14) by lia.
  split; [exact H|]. split; [exact H'|].
  pose proof (rtl931x_get_analog_sds_keeps_pairs 5 H) as (H1 & H2 & H3).
  split; [exact H1|]. split; [exact H2|]. exact (H3 9 H').
Defined.

(** ** Bits of a register *)

Lemma testbit_u32 z n : 0 <= n -> Z.testbit (u32 z) n = (n <? 32) && Z.testbit z n.
Proof. intros Hn. unfold u32. apply Z.testbit_mod_pow2. lia. Qed.

Lemma testbit_not32 z n :
  0 <= n -> Z.testbit (not32 z) n = (n <? 32) && negb (Z.testbit z n).
Proof.
  intros Hn. unfold not32. rewrite testbit_u32 by assumption.
  rewrite Z.lnot_spec by assumption. reflexivity.
Qed.

Lemma testbit_above z k n : 0 <= z < 2 ^ k -> k <= n -> Z.testbit z n = false.
Proof.
  intros Hz Hn.
  destruct (Z.eq_dec z 0) as [->|Hnz]; [apply Z.testbit_0_l|].
  apply Z.bits_above_log2; [lia|].
  assert (Z.log2 z < k); [|lia].
  apply Z.log2_lt_pow2; lia.
Qed.

Lemma testbit_reg_value m reg n :
  32 <= n -> Z.testbit (Sim.reg_value m reg) n = false.
Proof.
  intros Hn. unfold Sim.reg_value. rewrite testbit_u32 by lia.
  destruct (Z.ltb_spec n 32); [lia | reflexivity].
Qed.

Lemma reg_value_range m reg : 0 <= Sim.reg_value m reg < 2 ^ 32.
Proof. apply u32_range. Qed.

Lemma reg_value_w32 (m : gmap Z Z) reg reg' v :
  Sim.reg_value (Sim.reg_w32 (u32 v) reg m) reg'
  = if decide (reg = reg') then u32 v else Sim.reg_value m reg'.
Proof.
  unfold Sim.reg_w32. destruct (decide (reg = reg')) as [<-|Hne].
  - apply reg_value_insert.
  - apply reg_value_insert_ne. assumption.
Qed.

(** ** Resetting a SerDes of the RTL9310 *)

(** X2: on a register file [rtl931x_sds_rst] leaves every register with
    the value it had: the power-off register and the mode register it
    pulses are written back with what was read from them, for every
    SerDes number and whatever the two addresses are (also when they
    coincide). *)
Theorem rtl931x_sds_rst_restores_registers
  RTL931X_PS_SERDES_OFF_MODE_CTRL_ADDR RTL931X_SERDES_MODE_CTRL sds
  (regs : gmap Z Z) reg :
  Sim.reg_value
    (final (rtl931x_sds_rst Sim.reg_r32 Sim.reg_w32
              RTL931X_PS_SERDES_OFF_MODE_CTRL_ADDR RTL931X_SERDES_MODE_CTRL
              sds regs)) reg
  = Sim.reg_value regs reg.
Proof.
  cbv [rtl931x_sds_rst sw_r32 sw_w32 sw_w32_mask mbind M_bind mret M_ret
       retval final fst snd Sim.reg_r32].
  set (OFF := RTL931X_PS_SERDES_OFF_MODE_CTRL_ADDR).
  set (MODE := u32 (RTL931X_SERDES_MODE_CTRL + 4 * Z.shiftr (u32 sds) 2)).
  rewrite !reg_value_w32.
  fold (Sim.reg_w32 (u32 (Z.lor (u32 (default 0 (regs !! OFF))) (BIT (u32 sds))))
          OFF regs).
  fold (Sim.reg_value regs OFF).
  destruct (decide (OFF = reg)) as [<-|Hoff].
  - unfold Sim.reg_value. apply u32_u32.
  - destruct (decide (MODE = reg)) as [<-|Hmode]; [|reflexivity].
    rewrite u32_u32.
    change (u32 (default 0 (Sim.reg_w32 ?v OFF regs !! MODE)))
      with (Sim.reg_value (Sim.reg_w32 v OFF regs) MODE).
    rewrite reg_value_w32.
    destruct (decide (OFF = MODE)); [contradiction | reflexivity].
Qed.

(** ** Setting the mode of a SerDes of the RTL9300 *)

Ltac bits_step :=
  repeat first
    [ rewrite Z.land_spec | rewrite Z.lor_spec
    | rewrite testbit_u32 by lia | rewrite testbit_not32 by lia
    | rewrite Z.shiftr_spec by lia | rewrite Z.shiftl_spec by lia
    | rewrite Z.testbit_ones by lia ].

Ltac bits_cases :=
  repeat match goal with
  | |- context [?a <? ?b] => destruct (Z.ltb_spec a b)
  | |- context [?a <=? ?b] => destruct (Z.leb_spec a b)
  end.

Ltac bool_tidy :=
  cbn [andb orb negb];
  rewrite ?andb_false_r, ?andb_true_r, ?orb_false_r, ?orb_false_l.

(** The two read-modify-writes of the reset on one word: the field ends
    up holding [mode], the bits outside it are those of [old]. *)
Lemma field5_update old mode lsb :
  0 <= lsb <= 27 -> 0 <= mode < 32 -> 0 <= old < 2 ^ 32 ->
  let M := Z.shiftl 0x1f lsb in
  let v1 := u32 (Z.lor (Z.land old (not32 M)) M) in
  let v2 := u32 (Z.lor (Z.land v1 (not32 M)) (Z.shiftl mode lsb)) in
  Z.land (Z.shiftr v2 lsb) 0x1f = mode /\
  Z.land v2 (not32 M) = Z.land old (not32 M).
Proof.
  intros Hl Hm Ho M v1 v2. subst v2 v1 M.
  change 31 with (Z.ones 5).
  split; apply Z.bits_inj'; intros n Hn; bits_step.
  - bits_cases; bool_tidy; try lia; try reflexivity.
    all: try (replace (n + lsb - lsb) with n by lia; reflexivity).
    all: try (symmetry; apply (testbit_above mode 5); lia).
  - bits_cases; bool_tidy; try lia; try reflexivity.
    all: try (rewrite (Z.testbit_neg_r mode) by lia).
    all: try (rewrite (testbit_above mode 5) by lia).
    all: bool_tidy; try reflexivity.
Qed.

(** Two words that agree outside one field agree on every field that
    does not overlap it. *)
Lemma field5_other v old lsb lsb' :
  0 <= lsb -> 0 <= lsb' <= 27 -> lsb' + 5 <= lsb \/ lsb + 5 <= lsb' ->
  Z.land v (not32 (Z.shiftl 0x1f lsb)) = Z.land old (not32 (Z.shiftl 0x1f lsb)) ->
  Z.land (Z.shiftr v lsb') 0x1f = Z.land (Z.shiftr old lsb') 0x1f.
Proof.
  intros Hl Hl' Hd He.
  change 31 with (Z.ones 5) in *.
  apply Z.bits_inj'; intros n Hn.
  apply (f_equal (fun z => Z.testbit z (n + lsb'))) in He.
  revert He. bits_step.
  bits_cases; bool_tidy; try lia; try reflexivity.
  all: intros ->; reflexivity.
Qed.
Lemma rtl9300_sds_rst_final sds_num mode (regs : gmap Z Z) reg lsb :
  sds_mode_field sds_num = Some (reg, lsb) ->
  0 <= lsb <= 27 /\
  let M := Z.shiftl 0x1f lsb in
  let v1 := u32 (Z.lor (Z.land (Sim.reg_value regs reg) (not32 M)) M) in
  let v2 := u32 (Z.lor (Z.land v1 (not32 M)) (Z.shiftl (u32 mode) lsb)) in
  final (rtl9300_sds_rst Sim.reg_r32 Sim.reg_w32 sds_num mode regs)
  = Sim.reg_w32 v2 reg (Sim.reg_w32 v1 reg regs).
Proof.
  unfold sds_mode_field.
  destruct (Z.ltb_spec sds_num 0) as [|Hge]; [discriminate|].
  intros Hf.
  assert (Hlt : sds_num <= 11).
  { apply lookup_lt_Some in Hf. cbn in Hf. lia. }
  assert (Hc : sds_num = 0 \/ sds_num = 1 \/ sds_num = 2 \/ sds_num = 3
               \/ sds_num = 4 \/ sds_num = 5 \/ sds_num = 6 \/ sds_num = 7
               \/ sds_num = 8 \/ sds_num = 9 \/ sds_num = 10 \/ sds_num = 11)
    by lia.
  clear Hge Hlt.
  repeat (destruct Hc as [-> | Hc]; [injection Hf as <- <-; split; [lia|];
     cbv [rtl9300_sds_rst sw_r32 sw_w32 sw_w32_mask mdelay emit mbind M_bind
          mret M_ret retval final fst snd Sim.reg_r32 Z.ltb Z.compare orb
          Pos.compare Pos.compare_cont];
     repeat match goal with
     | |- context [default 0 (?l !! Z.to_nat ?k)] =>
         let v := eval vm_compute in (default 0 (l !! Z.to_nat k)) in
         change (default 0 (l !! Z.to_nat k)) with v
     end;
     repeat match goal with
     | |- context [u32 (default 0 (?m !! ?r))] =>
         change (u32 (default 0 (m !! r))) with (Sim.reg_value m r)
     end;
     rewrite reg_value_w32, decide_True by reflexivity;
     rewrite ?u32_u32; reflexivity|]).
  subst sds_num. injection Hf as <- <-; split; [lia|];
     cbv [rtl9300_sds_rst sw_r32 sw_w32 sw_w32_mask mdelay emit mbind M_bind
          mret M_ret retval final fst snd Sim.reg_r32 Z.ltb Z.compare orb
          Pos.compare Pos.compare_cont];
     repeat match goal with
     | |- context [default 0 (?l !! Z.to_nat ?k)] =>
         let v := eval vm_compute in (default 0 (l !! Z.to_nat k)) in
         change (default 0 (l !! Z.to_nat k)) with v
     end;
     repeat match goal with
     | |- context [u32 (default 0 (?m !! ?r))] =>
         change (u32 (default 0 (m !! r))) with (Sim.reg_value m r)
     end;
     rewrite reg_value_w32, decide_True by reflexivity;
     rewrite ?u32_u32; reflexivity.
Qed.
Lemma sds_mode_field_cases sds_num reg lsb :
  sds_mode_field sds_num = Some (reg, lsb) ->
  0 <= sds_num <= 11 /\
  In (sds_num, reg, lsb)
    [(0, 0x0194, 0); (1, 0x0194, 6); (2, 0x0194, 12); (3, 0x0194, 18);
     (4, 0x02a0, 0); (5, 0x02a0, 6); (6, 0x02a0, 12); (7, 0x02a0, 18);
     (8, 0x02a4, 0); (9, 0x02a4, 6); (10, 0x0198, 0); (11, 0x0198, 6)].
Proof.
  unfold sds_mode_field.
  destruct (Z.ltb_spec sds_num 0) as [|Hge]; [discriminate|].
  intros Hf.
  assert (Hlt : sds_num <= 11).
  { apply lookup_lt_Some in Hf. cbn in Hf. lia. }
  split; [lia|].
  assert (Hc : sds_num = 0 \/ sds_num = 1 \/ sds_num = 2 \/ sds_num = 3
               \/ sds_num = 4 \/ sds_num = 5 \/ sds_num = 6 \/ sds_num = 7
               \/ sds_num = 8 \/ sds_num = 9 \/ sds_num = 10 \/ sds_num = 11)
    by lia.
  clear Hge Hlt.
  repeat (destruct Hc as [-> | Hc]; [injection Hf as <- <-; cbn; tauto|]).
  subst sds_num. injection Hf as <- <-; cbn; tauto.
Qed.

Lemma sds_mode_field_disjoint a b ra la rb lb :
  sds_mode_field a = Some (ra, la) -> sds_mode_field b = Some (rb, lb) ->
  a <> b ->
  ra <> rb \/ la + 5 <= lb \/ lb + 5 <= la.
Proof.
  intros Ha Hb Hne.
  apply sds_mode_field_cases in Ha as [_ Ha], Hb as [_ Hb].
  cbn [In] in Ha, Hb.
  repeat (destruct Ha as [[= <- <- <-] | Ha];
          [repeat (destruct Hb as [[= <- <- <-] | Hb]; [lia|]); contradiction|]).
  contradiction.
Qed.

(** X3: [rtl9300_sds_rst] refuses a SerDes number outside 0..11 without
    touching a register.  For a SerDes in range and a mode of five bits,
    on a register file, the mode field of that SerDes ends up holding the
    mode, the mode of every other SerDes is what it was, and so is every
    register that is not one of the four mode registers. *)
Theorem rtl9300_sds_rst_sets_one_mode_field sds_num mode (regs : gmap Z Z) :
  0 <= mode < 32 ->
  let r := rtl9300_sds_rst Sim.reg_r32 Sim.reg_w32 sds_num mode regs in
  (sds_num < 0 \/ 11 < sds_num -> r = (tt, regs, [])) /\
  (0 <= sds_num <= 11 ->
   sds_mode (final r) sds_num = Some mode /\
   (forall other, other <> sds_num ->
      sds_mode (final r) other = sds_mode regs other) /\
   (forall reg, ~ In reg [0x0194; 0x0198; 0x02a0; 0x02a4] ->
      Sim.reg_value (final r) reg = Sim.reg_value regs reg)).
Proof.
  intros Hm r. subst r. split.
  - intros Hout. unfold rtl9300_sds_rst.
    destruct (Z.ltb_spec sds_num 0), (Z.ltb_spec 11 sds_num);
      try reflexivity; lia.
  - intros Hin.
    destruct (sds_mode_field sds_num) as [[reg lsb]|] eqn:Hf.
    2:{ exfalso. unfold sds_mode_field in Hf.
        destruct (Z.ltb_spec sds_num 0); [lia|].
        apply lookup_ge_None in Hf. cbn in Hf. lia. }
    destruct (rtl9300_sds_rst_final sds_num mode regs reg lsb Hf) as [Hl Hfin].
    cbv zeta in Hfin. rewrite Hfin. clear Hfin.
    rewrite (u32_id mode) by lia.
    destruct (field5_update (Sim.reg_value regs reg) mode lsb Hl Hm
                (reg_value_range _ _)) as [Hset Hkeep].
    cbv zeta in Hset, Hkeep.
    split; [|split].
    + unfold sds_mode. rewrite Hf. cbn [mbind option_bind].
      rewrite reg_value_w32, decide_True by reflexivity.
      rewrite ?u32_u32. rewrite Hset. reflexivity.
    + intros other Hne. unfold sds_mode.
      destruct (sds_mode_field other) as [[reg' lsb']|] eqn:Hf'; [|reflexivity].
      cbn [mbind option_bind]. f_equal.
      rewrite reg_value_w32.
      destruct (decide (reg = reg')) as [<-|Hr].
      * rewrite ?u32_u32.
        destruct (sds_mode_field_disjoint _ _ _ _ _ _ Hf Hf' ltac:(congruence))
          as [?|Hd]; [contradiction|].
        apply sds_mode_field_cases in Hf' as [_ Hf'].
        assert (0 <= lsb' <= 27).
        { cbn [In] in Hf'.
          repeat (destruct Hf' as [[= <- <- <-] | Hf']; [lia|]). contradiction. }
        apply (field5_other _ _ lsb); [lia | lia | lia | exact Hkeep].
      * rewrite reg_value_w32, decide_False by assumption. reflexivity.
    + intros reg' Hnot.
      assert (reg <> reg').
      { intros <-. apply Hnot. apply sds_mode_field_cases in Hf as [_ Hf].
        cbn [In] in Hf |- *.
        repeat (destruct Hf as [[= <- <- <-] | Hf]; [tauto|]). contradiction. }
      rewrite !reg_value_w32, !decide_False by assumption. reflexivity.
Qed.

Lemma rtl9300_sds_rst_sets_one_mode_field_witness :
  0 <= 0x1a < 32 /\ 0 <= 5 <= 11 /\
  sds_mode (final (rtl9300_sds_rst Sim.reg_r32 Sim.reg_w32 5 0x1a ∅)) 5
  = Some 0x1a /\
  rtl9300_sds_rst Sim.reg_r32 Sim.reg_w32 12 0x1a ∅ = (tt, ∅, []).
Proof.
  assert (Hm : 0 <= 0x1a < 32) by lia.
  assert (Hs : 0 <= 5 <= 11) by lia.
  split; [exact Hm|]. split; [exact Hs|]. split.
  - exact (proj1 (proj2 (rtl9300_sds_rst_sets_one_mode_field 5 0x1a ∅ Hm) Hs)).
  - apply (proj1 (rtl9300_sds_rst_sets_one_mode_field 12 0x1a ∅ Hm)). lia.
Defined.

(** ** SerDes registers of the RTL839x *)

(** The two halves of a word. *)
Lemma set_low16 old v :
  0 <= v < 2 ^ 16 ->
  let new := u32 (Z.lor (Z.land old (not32 0xffff)) v) in
  Z.land new 0xffff = v /\
  Z.land (Z.shiftr new 16) 0xffff = Z.land (Z.shiftr (u32 old) 16) 0xffff.
Proof.
  intros Hv new. subst new.
  change 65535 with (Z.ones 16).
  split; apply Z.bits_inj'; intros n Hn; bits_step.
  - bits_cases; bool_tidy; try lia; try reflexivity.
    all: try (symmetry; apply (testbit_above v 16); lia).
  - bits_cases; bool_tidy; try lia; try reflexivity.
    all: rewrite (testbit_above v 16) by lia; bool_tidy; reflexivity.
Qed.

Lemma set_high16 old v :
  0 <= v < 2 ^ 16 ->
  let new := u32 (Z.lor (Z.land old (not32 0xffff0000)) (u32 (Z.shiftl v 16))) in
  Z.land (Z.shiftr new 16) 0xffff = v /\
  Z.land new 0xffff = Z.land (u32 old) 0xffff.
Proof.
  intros Hv new. subst new.
  change 4294901760 with (Z.shiftl (Z.ones 16) 16).
  change 65535 with (Z.ones 16).
  split; apply Z.bits_inj'; intros n Hn; bits_step.
  - bits_cases; bool_tidy; try lia; try reflexivity.
    all: try (replace (n + 16 - 16) with n by lia).
    all: try reflexivity.
    all: try (symmetry; apply (testbit_above v 16); lia).
  - bits_cases; bool_tidy; try lia; try reflexivity.
    all: try (rewrite (Z.testbit_neg_r v) by lia); bool_tidy; try reflexivity.
Qed.
Lemma lxor_1_word r :
  Z.land (Z.shiftl (Z.lxor r 1) 1) 0xfc = Z.land (Z.shiftl r 1) 0xfc.
Proof.
  change 252 with (Z.shiftl (Z.ones 6) 2). change 1 with (Z.ones 1) at 1.
  apply Z.bits_inj'; intros n Hn.
  rewrite !Z.land_spec, !Z.shiftl_spec, Z.lxor_spec, !Z.testbit_ones by lia.
  bits_cases; bool_tidy; try lia; try reflexivity.
  all: rewrite ?xorb_false_r; reflexivity.
Qed.

Lemma lxor_1_parity r :
  (Z.land (Z.lxor r 1) 1 =? 0) = negb (Z.land r 1 =? 0).
Proof.
  change 1 with (Z.ones 1) at 2 3.
  rewrite !Z.land_ones, <- !Z.bit0_mod, Z.lxor_spec by lia.
  change (Z.testbit 1 0) with true.
  destruct (Z.testbit r 0); reflexivity.
Qed.

(** X4: on a register file, a SerDes register of the RTL839x written with
    [rtl839x_write_sds_phy] reads back through [rtl839x_read_sds_phy] as
    the 16 bit value written, and the register that shares its 32 bit
    word (the one whose number differs in the lowest bit) reads as before.
    Registers 2 and 3 of an RTL8393 are left out: their reads are
    simulated. *)
Theorem rtl839x_write_sds_phy_read_back soc_info_id RTL839X_SDS12_13_XSG0
  phy_addr phy_reg v (regs : gmap Z Z) :
  (soc_info_id = 0x8393 -> phy_reg <> 2 /\ phy_reg <> 3) ->
  let w := rtl839x_write_sds_phy Sim.reg_r32 Sim.reg_w32 RTL839X_SDS12_13_XSG0
             phy_addr phy_reg v regs in
  let read r h :=
    retval (rtl839x_read_sds_phy Sim.reg_r32 soc_info_id RTL839X_SDS12_13_XSG0
              phy_addr r h) in
  retval w = 0 /\
  read phy_reg (final w) = u16 v /\
  read (Z.lxor phy_reg 1) (final w) = read (Z.lxor phy_reg 1) regs.
Proof.
  intros Hid w read. subst w read. cbv beta.
  split; [unfold rtl839x_write_sds_phy; rewrite retval_bind; reflexivity|].
  assert (Hsim : forall k, (k = 2 \/ k = 3) ->
            (soc_info_id =? 0x8393) && (phy_reg =? k) = false).
  { intros k Hk. destruct (Z.eqb_spec soc_info_id 0x8393) as [E|]; [|reflexivity].
    destruct (Z.eqb_spec phy_reg k); [|reflexivity]. specialize (Hid E). lia. }
  unfold rtl839x_read_sds_phy, rtl839x_write_sds_phy.
  rewrite !Hsim by tauto.
  rewrite lxor_1_word, lxor_1_parity.
  set (A := RTL839X_SDS12_13_XSG0 + (if phy_addr =? 49 then 256 else 0) + 128
            + Z.land (Z.shiftl phy_reg 1) 252).
  clearbody A.
  destruct ((soc_info_id =? 33683) && (Z.lxor phy_reg 1 =? 2));
    [split; [|reflexivity]|];
    (destruct ((soc_info_id =? 33683) && (Z.lxor phy_reg 1 =? 3));
     [try (split; [|reflexivity])|]);
    destruct (Z.land phy_reg 1 =? 0);
    cbv [sw_r32 sw_w32 sw_w32_mask mbind M_bind mret M_ret retval final fst snd
         Sim.reg_r32 negb];
    repeat match goal with
    | |- context [u32 (default 0 (?m !! ?r))] =>
        change (u32 (default 0 (m !! r))) with (Sim.reg_value m r)
    end;
    rewrite ?reg_value_w32, ?decide_True by reflexivity.
  all: pose proof (set_low16 (Sim.reg_value regs A) (u16 v) (u16_range v)) as [L1 L2];
    pose proof (set_high16 (Sim.reg_value regs A) (u16 v) (u16_range v)) as [H1 H2];
    cbv zeta in L1, L2, H1, H2;
    rewrite (u32_id (Sim.reg_value regs A)) in L2, H2 by apply reg_value_range;
    auto.
Qed.

Lemma rtl839x_write_sds_phy_read_back_witness :
  (0x8393 = 0x8393 -> 5 <> 2 /\ 5 <> 3) /\
  retval (rtl839x_read_sds_phy Sim.reg_r32 0x8393 0xb800 49 5
            (final (rtl839x_write_sds_phy Sim.reg_r32 Sim.reg_w32 0xb800
                      49 5 0x1234 ∅)))
  = u16 0x1234.
Proof.
  assert (H : 0x8393 = 0x8393 -> 5 <> 2 /\ 5 <> 3) by (intros _; lia).
  split; [exact H|].
  exact (proj1 (proj2 (rtl839x_write_sds_phy_read_back 0x8393 0xb800 49 5 0x1234
                         ∅ H))).
Defined.

(** ** The driver on a board with plain registers *)

Lemma board_read_phy family t port page reg val b :
  family_transport family = Some t ->
  read_phy Board.read_phy family port page reg val b
  = ((0, u32 (Board.phy_cell b (u32 port) (u32 page) (u32 reg))), b,
     [phy_read_event t port page reg]).
Proof. intros Ht. destruct family; inversion Ht; reflexivity. Qed.

Lemma board_write_phy family t port page reg v b :
  family_transport family = Some t ->
  write_phy Board.write_phy family port page reg v b
  = (0, (Board.write_phy t (u32 port) (u32 page) (u32 reg) (u32 v) b).2,
     [phy_write_event t port page reg v]).
Proof. intros Ht. destruct family; inversion Ht; reflexivity. Qed.

Lemma board_read_mmd_phy family t port devnum regnum val b :
  family_transport family = Some t ->
  read_mmd_phy Board.read_mmd family port devnum regnum val b
  = ((0, u32 (Board.mmd_cell b (u32 port) (u32 devnum) (u32 regnum))), b,
     [EvReadMmd t (u32 port) (u32 devnum) (u32 regnum)]).
Proof. intros Ht. destruct family; inversion Ht; reflexivity. Qed.

Lemma board_write_mmd_phy family t port devnum reg v b :
  family_transport family = Some t ->
  write_mmd_phy Board.write_mmd family port devnum reg v b
  = (0, (Board.write_mmd t (u32 port) (u32 devnum) (u32 reg) (u32 v) b).2,
     [EvWriteMmd t (u32 port) (u32 devnum) (u32 reg) (u32 v)]).
Proof. intros Ht. destruct family; inversion Ht; reflexivity. Qed.

Lemma phy_cell_write_phy t' port page reg v b port' page' reg' :
  Board.phy_cell (Board.write_phy t' port page reg v b).2 port' page' reg'
  = if decide ((port, page, reg) = (port', page', reg')) then v
    else Board.phy_cell b port' page' reg'.
Proof.
  unfold Board.phy_cell, Board.write_phy. cbn [snd Board.b_phy].
  destruct (decide _) as [<-|Hne].
  - rewrite lookup_insert_eq. reflexivity.
  - rewrite lookup_insert_ne by assumption. reflexivity.
Qed.

Lemma mmd_cell_write_mmd t' port devnum reg v b port' devnum' reg' :
  Board.mmd_cell (Board.write_mmd t' port devnum reg v b).2 port' devnum' reg'
  = if decide ((port, devnum, reg) = (port', devnum', reg')) then v
    else Board.mmd_cell b port' devnum' reg'.
Proof.
  unfold Board.mmd_cell, Board.write_mmd. cbn [snd Board.b_mmd].
  destruct (decide _) as [<-|Hne].
  - rewrite lookup_insert_eq. reflexivity.
  - rewrite lookup_insert_ne by assumption. reflexivity.
Qed.

Lemma phy_cell_write_mmd t' port devnum reg v b p pg r :
  Board.phy_cell (Board.write_mmd t' port devnum reg v b).2 p pg r
  = Board.phy_cell b p pg r.
Proof. reflexivity. Qed.

Lemma mmd_cell_write_phy t' port page reg v b p d r :
  Board.mmd_cell (Board.write_phy t' port page reg v b).2 p d r
  = Board.mmd_cell b p d r.
Proof. reflexivity. Qed.

(** Suspending and resuming the polling touches switch registers only. *)
Lemma phy_cell_disable_polling family indeterminate P838 P839 P930 port b p pg r :
  Board.phy_cell
    (final (disable_polling Board.r32 Board.w32 family indeterminate
              P838 P839 P930 port b)) p pg r = Board.phy_cell b p pg r.
Proof. destruct family; reflexivity. Qed.

Lemma mmd_cell_disable_polling family indeterminate P838 P839 P930 port b p d r :
  Board.mmd_cell
    (final (disable_polling Board.r32 Board.w32 family indeterminate
              P838 P839 P930 port b)) p d r = Board.mmd_cell b p d r.
Proof. destruct family; reflexivity. Qed.

Lemma phy_cell_resume_polling family P838 P839 P930 saved_state b p pg r :
  Board.phy_cell
    (final (resume_polling Board.w32 family P838 P839 P930 saved_state b)) p pg r
  = Board.phy_cell b p pg r.
Proof. destruct family; reflexivity. Qed.

Lemma mmd_cell_resume_polling family P838 P839 P930 saved_state b p d r :
  Board.mmd_cell
    (final (resume_polling Board.w32 family P838 P839 P930 saved_state b)) p d r
  = Board.mmd_cell b p d r.
Proof. destruct family; reflexivity. Qed.

Lemma retval_tuple {hw A} (a : A) (h : hw) (tr : list event) : retval (a, h, tr) = a.
Proof. reflexivity. Qed.

Lemma final_tuple {hw A} (a : A) (h : hw) (tr : list event) : final (a, h, tr) = h.
Proof. reflexivity. Qed.

Ltac u32_lits :=
  repeat match goal with
  | |- context [u32 (Zpos ?p)] =>
      let v := eval vm_compute in (u32 (Zpos p)) in
      change (u32 (Zpos p)) with v
  | |- context [u32 0] => change (u32 0) with 0
  end.

(** Runs a driver function on the board, access by access. *)
Ltac board_run Ht :=
  repeat first
    [ rewrite retval_bind | rewrite final_bind
    | rewrite (board_read_phy _ _ _ _ _ _ _ Ht)
    | rewrite (board_write_phy _ _ _ _ _ _ _ Ht)
    | rewrite (board_read_mmd_phy _ _ _ _ _ _ _ Ht)
    | rewrite (board_write_mmd_phy _ _ _ _ _ _ _ Ht)
    | rewrite retval_ret | rewrite final_ret
    | rewrite retval_tuple | rewrite final_tuple
    | rewrite phy_cell_resume_polling
    | rewrite mmd_cell_resume_polling
    | rewrite phy_cell_disable_polling
    | rewrite mmd_cell_disable_polling
    | rewrite phy_cell_write_phy | rewrite mmd_cell_write_mmd
    | rewrite phy_cell_write_mmd | rewrite mmd_cell_write_phy
    | progress cbv beta iota ].

Ltac board_cells :=
  u32_lits;
  repeat first
    [ rewrite decide_True by reflexivity
    | rewrite decide_False by congruence ].

Lemma BIT_pow2 k : 0 <= k < 32 -> BIT k = 2 ^ k.
Proof.
  intros Hk. unfold BIT. rewrite Z.shiftl_1_l. apply u32_id.
  split; [apply Z.pow_nonneg; lia|]. apply Z.pow_lt_mono_r; lia.
Qed.

Lemma land_BIT z k :
  0 <= k < 32 -> Z.land z (BIT k) = if Z.testbit z k then 2 ^ k else 0.
Proof.
  intros Hk. rewrite BIT_pow2 by assumption.
  apply Z.bits_inj'; intros n Hn.
  rewrite Z.land_spec, Z.pow2_bits_eqb by lia.
  destruct (Z.eqb_spec k n) as [<-|Hne].
  - destruct (Z.testbit z k); cbn [andb].
    + rewrite Z.pow2_bits_true by lia. reflexivity.
    + rewrite Z.testbit_0_l. reflexivity.
  - rewrite andb_false_r.
    destruct (Z.testbit z k).
    + rewrite Z.pow2_bits_false by lia. reflexivity.
    + rewrite Z.testbit_0_l. reflexivity.
Qed.

Lemma truth_land_BIT z k :
  0 <= k < 32 -> truth (Z.land z (BIT k)) = if Z.testbit z k then 1 else 0.
Proof.
  intros Hk. rewrite land_BIT by assumption. unfold truth.
  destruct (Z.testbit z k); [|reflexivity].
  destruct (Z.eqb_spec (2 ^ k) 0) as [E|]; [|reflexivity].
  pose proof (Z.pow_pos_nonneg 2 k). lia.
Qed.

Lemma land_BIT_eqb z k :
  0 <= k < 32 -> (Z.land z (BIT k) =? 0) = negb (Z.testbit z k).
Proof.
  intros Hk. rewrite land_BIT by assumption.
  destruct (Z.testbit z k); [|reflexivity].
  destruct (Z.eqb_spec (2 ^ k) 0) as [E|]; [|reflexivity].
  pose proof (Z.pow_pos_nonneg 2 k). lia.
Qed.

(** Turns the tests of single bits into [Z.testbit] and evaluates those of
    constants. *)
Ltac bit_tests :=
  rewrite ?truth_land_BIT, ?land_BIT_eqb by lia;
  rewrite ?testbit_u32, ?testbit_not32, ?Z.lor_spec, ?Z.land_spec by lia;
  repeat match goal with
  | |- context [Z.testbit (Zpos ?p) ?k] =>
      let v := eval vm_compute in (Z.testbit (Zpos p) k) in
      change (Z.testbit (Zpos p) k) with v
  | |- context [Zpos ?a <? Zpos ?b] =>
      let v := eval vm_compute in (Zpos a <? Zpos b) in
      change (Zpos a <? Zpos b) with v
  | |- context [0 <? Zpos ?b] => change (0 <? Zpos b) with true
  end;
  cbn [andb orb negb];
  rewrite ?andb_true_r, ?andb_false_r, ?orb_true_r, ?orb_false_r.

Ltac lit_eqb :=
  repeat match goal with
  | |- context [Zpos ?a =? 0] => change (Zpos a =? 0) with false
  | |- context [0 =? 0] => change (0 =? 0) with true
  end;
  cbv iota.

Ltac board_step Ht :=
  repeat (progress (board_run Ht; board_cells; bit_tests; lit_eqb)).

(** X11: on a board with plain registers, after [rtl8226_set_eee] with
    [e->eee_enabled] set, [rtl8226_get_eee] reports EEE as enabled.  After
    [rtl8226_set_eee] with [e->eee_enabled] clear it reports what it
    reported before the call: the function masks the two EEE registers
    with the EEE bits ([val &= 0x6], [val &= 0x1]), which keeps them. *)
Theorem rtl8226_set_eee_then_get_eee family t indeterminate
  RTL838X_SMI_POLL_CTRL RTL839X_SMI_PORT_POLLING_CTRL RTL930X_SMI_POLL_CTRL
  MMD_AN MMD_VEND2 port (b : Board.board) :
  family_transport family = Some t ->
  let set e :=
    final (rtl8226_set_eee Board.r32 Board.w32 Board.read_mmd Board.write_mmd
             family indeterminate RTL838X_SMI_POLL_CTRL
             RTL839X_SMI_PORT_POLLING_CTRL RTL930X_SMI_POLL_CTRL
             MMD_AN MMD_VEND2 port e b) in
  let get b' :=
    retval (rtl8226_get_eee Board.read_mmd family indeterminate MMD_AN
              port 1 b') in
  get (set 1) = (0, 1) /\ get (set 0) = get b.
Proof.
  intros Ht set get. subst set get. cbv beta.
  unfold rtl8226_get_eee, rtl8226_set_eee.
  change (negb (1 =? 0)) with true. change (negb (0 =? 0)) with false.
  cbv iota.
  split.
  - board_step Ht. reflexivity.
  - board_step Ht.
    destruct (Z.testbit (Board.mmd_cell b (u32 port) (u32 MMD_AN) 60) 1);
      board_step Ht; reflexivity.
Qed.

Lemma rtl8226_set_eee_then_get_eee_witness :
  family_transport RTL9300_FAMILY_ID = Some T930x /\
  retval (rtl8226_get_eee Board.read_mmd RTL9300_FAMILY_ID 0 7 24 1
            (final (rtl8226_set_eee Board.r32 Board.w32 Board.read_mmd
                      Board.write_mmd RTL9300_FAMILY_ID 0 0x3202 0 0xca90 7 31
                      24 1 Board.reset)))
  = (0, 1).
Proof.
  split; [reflexivity|].
  exact (proj1 (rtl8226_set_eee_then_get_eee RTL9300_FAMILY_ID T930x 0
                  0x3202 0 0xca90 7 31 24 Board.reset eq_refl)).
Defined.

(** X12: on a board with plain registers, after [rtl8218b_set_eee] with
    [e->eee_enabled] set, [rtl8218b_get_eee] reports EEE as enabled; after
    [rtl8218b_set_eee] with [e->eee_enabled] clear it reports it as
    disabled, unless bit 7 of register 60 on page 7 (which
    [rtl8218b_set_eee] does not write) is set. *)
Theorem rtl8218b_set_eee_then_get_eee family t indeterminate
  RTL838X_SMI_POLL_CTRL RTL839X_SMI_PORT_POLLING_CTRL RTL930X_SMI_POLL_CTRL
  port (b : Board.board) :
  family_transport family = Some t ->
  let set e :=
    final (rtl8218b_set_eee Board.r32 Board.w32 Board.read_phy Board.write_phy
             family indeterminate RTL838X_SMI_POLL_CTRL
             RTL839X_SMI_PORT_POLLING_CTRL RTL930X_SMI_POLL_CTRL port e b) in
  let get b' :=
    retval (rtl8218b_get_eee Board.read_phy Board.write_phy family
              indeterminate port 1 b') in
  get (set 1) = (0, 1) /\
  get (set 0)
  = (0, if Z.testbit (Board.phy_cell b (u32 port) 7 60) 7 then 1 else 0).
Proof.
  intros Ht set get. subst set get. cbv beta.
  unfold rtl8218b_get_eee, rtl8218b_set_eee.
  change (negb (1 =? 0)) with true. change (negb (0 =? 0)) with false.
  cbv iota.
  split; board_step Ht;
    repeat (match goal with
            | |- context [Z.testbit (Board.phy_cell b ?p ?pg ?r) ?k] =>
                destruct (Z.testbit (Board.phy_cell b p pg r) k)
            end; board_step Ht);
    reflexivity.
Qed.

Lemma rtl8218b_set_eee_then_get_eee_witness :
  family_transport RTL8380_FAMILY_ID = Some T838x /\
  retval (rtl8218b_get_eee Board.read_phy Board.write_phy RTL8380_FAMILY_ID
            0 8 1
            (final (rtl8218b_set_eee Board.r32 Board.w32 Board.read_phy
                      Board.write_phy RTL8380_FAMILY_ID 0 0x6008 0 0 8 1
                      Board.reset)))
  = (0, 1).
Proof.
  split; [reflexivity|].
  exact (proj1 (rtl8218b_set_eee_then_get_eee RTL8380_FAMILY_ID T838x 0
                  0x6008 0 0 8 Board.reset eq_refl)).
Defined.

(** ** Media selection of the RTL8214FC on the board *)

Ltac board_branches Ht :=
  repeat (match goal with
          | |- context [final ((if ?c then _ else _) _)] => destruct c
          | |- context [retval ((if ?c then _ else _) _)] => destruct c
          end; board_step Ht).

(** X13: on a board with plain registers, [rtl8214fc_get_port] after
    [rtl8214fc_set_port(port)] returns [PORT_FIBRE] when [port] is
    [PORT_FIBRE] and [PORT_MII] for every other value, whatever the media
    and power registers held before.  The address is not negative: for a
    negative one the C code indexes in front of its register table. *)
Theorem rtl8214fc_set_port_then_get_port family t indeterminate addr port
  (b : Board.board) :
  family_transport family = Some t ->
  0 <= addr ->
  retval (rtl8214fc_get_port Board.read_phy Board.write_phy family
            indeterminate addr
            (final (rtl8214fc_set_port Board.read_phy Board.write_phy family
                      indeterminate addr port b)))
  = if port =? PORT_FIBRE then PORT_FIBRE else PORT_MII.
Proof.
  intros Ht _.
  unfold rtl8214fc_get_port, rtl8214fc_set_port,
    rtl8380_rtl8214fc_media_set, rtl8380_rtl8214fc_media_is_fibre.
  change (Z.shiftl 1 11) with (BIT 11).
  set (base := addr - Z.rem addr 4).
  set (reg := rtl8214fc_media_reg indeterminate addr).
  destruct (port =? PORT_FIBRE);
    board_step Ht; board_branches Ht; reflexivity.
Qed.

Lemma rtl8214fc_set_port_then_get_port_witness :
  family_transport RTL8380_FAMILY_ID = Some T838x /\ 0 <= 26 /\
  retval (rtl8214fc_get_port Board.read_phy Board.write_phy RTL8380_FAMILY_ID
            0 26
            (final (rtl8214fc_set_port Board.read_phy Board.write_phy
                      RTL8380_FAMILY_ID 0 26 PORT_FIBRE Board.reset)))
  = PORT_FIBRE.
Proof.
  assert (H : 0 <= 26) by lia.
  split; [reflexivity|]. split; [exact H|].
  exact (rtl8214fc_set_port_then_get_port RTL8380_FAMILY_ID T838x 0 26
           PORT_FIBRE Board.reset eq_refl H).
Defined.

(** ** Autonegotiation of the RTL8226 on the board *)

Lemma u32_lor x m : 0 <= x < 2 ^ 32 -> 0 <= m < 2 ^ 32 -> u32 (Z.lor x m) = Z.lor x m.
Proof.
  intros Hx Hm. apply Z.bits_inj'; intros n Hn.
  rewrite testbit_u32, Z.lor_spec by lia.
  destruct (Z.ltb_spec n 32); [reflexivity|].
  rewrite (testbit_above x 32), (testbit_above m 32) by lia. reflexivity.
Qed.

(** X14: [rtl8226_config_aneg] does nothing when autonegotiation is not
    enabled.  When it is, on a board with plain registers, it returns 0
    and only sets bits: the 10M and 100M abilities in register 16 of the
    AN device, the 1G ability in vendor register [0xA412], the 2.5G
    ability in AN register 32, the enable bit in AN register 0 and the
    restart bit in vendor register [0xA400]; all other bits of these
    registers are kept. *)
Theorem rtl8226_config_aneg_sets_bits_only family t indeterminate
  MMD_AN MMD_VEND2 port autoneg (b : Board.board) :
  family_transport family = Some t ->
  let r := rtl8226_config_aneg Board.read_mmd Board.write_mmd family
             indeterminate MMD_AN MMD_VEND2 port autoneg b in
  let cell s devnum regnum := Board.mmd_cell s (u32 port) (u32 devnum) regnum in
  (autoneg <> AUTONEG_ENABLE -> r = (0, b, [])) /\
  (autoneg = AUTONEG_ENABLE ->
   retval r = 0 /\
   cell (final r) MMD_AN 16 = Z.lor (u32 (cell b MMD_AN 16)) 0x1e0 /\
   cell (final r) MMD_VEND2 0xA412 = Z.lor (u32 (cell b MMD_VEND2 0xA412)) 0x200 /\
   cell (final r) MMD_AN 32 = Z.lor (u32 (cell b MMD_AN 32)) 0x80 /\
   cell (final r) MMD_AN 0 = Z.lor (u32 (cell b MMD_AN 0)) 0x1000 /\
   cell (final r) MMD_VEND2 0xA400 = Z.lor (u32 (cell b MMD_VEND2 0xA400)) 0x200).
Proof.
  intros Ht r cell. subst r cell. cbv beta. split.
  - intros Hne. unfold rtl8226_config_aneg.
    destruct (Z.eqb_spec autoneg AUTONEG_ENABLE); [contradiction | reflexivity].
  - intros ->. unfold rtl8226_config_aneg, rtl8226_advertise_aneg.
    change (AUTONEG_ENABLE =? AUTONEG_ENABLE) with true. cbv iota.
    change (BIT 5) with 32. change (BIT 6) with 64. change (BIT 7) with 128.
    change (BIT 8) with 256. change (BIT 9) with 512. change (BIT 12) with 4096.
    repeat split; board_step Ht; try reflexivity.
    all: rewrite <- ?Z.lor_assoc;
      try change (Z.lor 32 (Z.lor 64 (Z.lor 128 256))) with 480;
      apply u32_lor; [apply u32_range | lia].
Qed.

Lemma rtl8226_config_aneg_sets_bits_only_witness :
  family_transport RTL9300_FAMILY_ID = Some T930x /\
  0 <> AUTONEG_ENABLE /\ AUTONEG_ENABLE = AUTONEG_ENABLE /\
  rtl8226_config_aneg Board.read_mmd Board.write_mmd RTL9300_FAMILY_ID 0 7 31
    24 0 Board.reset = (0, Board.reset, []) /\
  Board.mmd_cell
    (final (rtl8226_config_aneg Board.read_mmd Board.write_mmd
              RTL9300_FAMILY_ID 0 7 31 24 AUTONEG_ENABLE Board.reset))
    (u32 24) (u32 7) 0
  = Z.lor (u32 (Board.mmd_cell Board.reset (u32 24) (u32 7) 0)) 0x1000.
Proof.
  assert (H0 : 0 <> AUTONEG_ENABLE) by discriminate.
  split; [reflexivity|]. split; [exact H0|]. split; [reflexivity|]. split.
  - exact (proj1 (rtl8226_config_aneg_sets_bits_only RTL9300_FAMILY_ID T930x 0
                    7 31 24 0 Board.reset eq_refl) H0).
  - exact (proj1 (proj2 (proj2 (proj2 (proj2
             (proj2 (rtl8226_config_aneg_sets_bits_only RTL9300_FAMILY_ID T930x
                       0 7 31 24 AUTONEG_ENABLE Board.reset eq_refl)
                eq_refl)))))).
Defined.

(** ** More runs on concrete inputs *)

(** Witness for X6: on the bus of [Sim] every register reads [0x6276],
    whose bit 11 is clear, so port 8 counts as fibre. *)
Lemma rtl8214fc_eee_refused_on_fibre_witness :
  retval (rtl8380_rtl8214fc_media_is_fibre Sim.phy_read Sim.phy_write
            RTL8380_FAMILY_ID 0 8 tt) = true /\
  retval (rtl8214fc_set_eee (Sim.const_r32 0) (fun _ _ h => h) Sim.phy_read
            Sim.phy_write RTL8380_FAMILY_ID 0 0x6008 0 0 8 1 tt)
  = - ENOTSUPP.
Proof.
  assert (H : retval (rtl8380_rtl8214fc_media_is_fibre Sim.phy_read Sim.phy_write
                        RTL8380_FAMILY_ID 0 8 tt) = true)
    by (vm_compute; reflexivity).
  split; [exact H|].
  rewrite (proj1 (rtl8214fc_eee_refused_on_fibre (Sim.const_r32 0)
                    (fun _ _ h => h) Sim.phy_read Sim.phy_write
                    RTL8380_FAMILY_ID 0 0x6008 0 0 8 1 tt H)).
  reflexivity.
Defined.

(** Witness for X7: an RTL8390 board whose port 48 is set to copper. *)
Lemma rtl8214fc_set_eee_resumes_low_word_witness :
  let b := (Board.write_phy T839x 48 0x266 16 0x800 Board.reset).2 in
  retval (rtl8380_rtl8214fc_media_is_fibre Board.read_phy Board.write_phy
            RTL8390_FAMILY_ID 0 48 b) = false /\
  RTL8390_FAMILY_ID = RTL8390_FAMILY_ID /\
  exists (r : Z * Board.board * list event) pre lo,
    trace (rtl8214fc_set_eee Board.r32 Board.w32 Board.read_phy Board.write_phy
             RTL8390_FAMILY_ID 0 0 0x3c4 0 48 1 b)
    = trace (rtl8380_rtl8214fc_media_is_fibre Board.read_phy Board.write_phy
               RTL8390_FAMILY_ID 0 48 b) ++ trace r /\
    trace r = pre ++ [EvLock; EvW32 0 (0x3c4 + 4); EvW32 lo 0x3c4; EvUnlock].
Proof.
  cbv zeta.
  set (b := (Board.write_phy T839x 48 0x266 16 0x800 Board.reset).2).
  assert (H : retval (rtl8380_rtl8214fc_media_is_fibre Board.read_phy
                        Board.write_phy RTL8390_FAMILY_ID 0 48 b) = false)
    by (vm_compute; reflexivity).
  split; [exact H|]. split; [reflexivity|].
  destruct (rtl8214fc_set_eee_resumes_low_word Board.r32 Board.w32
              Board.read_phy Board.write_phy RTL8390_FAMILY_ID 0 0 0x3c4 0
              48 1 b H) as (r & _ & _ & Htr & Hend).
  destruct (Hend eq_refl) as (pre & lo & Hr).
  exists r, pre, lo. split; assumption.
Defined.

(** Witness for X9: a loader that delivers no file. *)
Lemma rtl8218b_configure_needs_firmware_witness :
  family_transport RTL8380_FAMILY_ID = Some T838x /\
  (forall fw,
     fw_ret (rtl838x_request_fw (fun _ => None) crc32_le Sim.rtl83xx_fw_header
               FIRMWARE_838X_8218b_1) = Some fw ->
     load32 fw (off_phy Sim.rtl83xx_fw_header) <> 0x8218b000) /\
  (forall fw,
     fw_ret (rtl838x_request_fw (fun _ => None) crc32_le Sim.rtl83xx_fw_header
               FIRMWARE_838X_8380_1) = Some fw ->
     load32 fw (off_phy Sim.rtl83xx_fw_header) <> 0x83800000) /\
  retval (rtl8380_configure_ext_rtl8218b Sim.phy_read Sim.phy_write
            (fun _ => None) crc32_le Sim.rtl83xx_fw_header RTL8380_FAMILY_ID
            0 16 tt) = Some (-1) /\
  trace (rtl8380_configure_int_rtl8218b (Sim.const_r32 0) Sim.phy_read
           Sim.phy_write (fun _ => None) crc32_le Sim.rtl83xx_fw_header
           RTL8380_FAMILY_ID 0 0 8 tt) = id_probe_events T838x 8.
Proof.
  assert (H1 : forall fw,
     fw_ret (rtl838x_request_fw (fun _ => None) crc32_le Sim.rtl83xx_fw_header
               FIRMWARE_838X_8218b_1) = Some fw ->
     load32 fw (off_phy Sim.rtl83xx_fw_header) <> 0x8218b000)
    by (intros fw H; vm_compute in H; discriminate H).
  assert (H2 : forall fw,
     fw_ret (rtl838x_request_fw (fun _ => None) crc32_le Sim.rtl83xx_fw_header
               FIRMWARE_838X_8380_1) = Some fw ->
     load32 fw (off_phy Sim.rtl83xx_fw_header) <> 0x83800000)
    by (intros fw H; vm_compute in H; discriminate H).
  split; [reflexivity|]. split; [exact H1|]. split; [exact H2|]. split.
  - exact (proj1 (proj1 (rtl8218b_configure_needs_firmware (Sim.const_r32 0)
                           Sim.phy_read Sim.phy_write (fun _ => None) crc32_le
                           Sim.rtl83xx_fw_header RTL8380_FAMILY_ID 0 0 T838x 16
                           tt eq_refl) H1)).
  - exact (proj2 (proj2 (rtl8218b_configure_needs_firmware (Sim.const_r32 0)
                           Sim.phy_read Sim.phy_write (fun _ => None) crc32_le
                           Sim.rtl83xx_fw_header RTL8380_FAMILY_ID 0 0 T838x 8
                           tt eq_refl) H2)).
Defined.

(** Witness for X10: the probe of an external RTL8218B at address 8 of an
    RTL8380. *)
Lemma probes_reach_hardware_at_base_addresses_only_witness :
  true = true /\ RTL8380_FAMILY_ID = RTL8380_FAMILY_ID /\
  Z.rem 8 8 = 0 /\ 8 <> 0 /\ 8 <> 16 /\
  rtl8218b_ext_phy_probe Sim.phy_read Sim.phy_write
    (Sim.loader Sim.rtl8218b_fw) crc32_le Sim.rtl83xx_fw_header
    RTL8380_FAMILY_ID 0 true 8 tt = (Some (-1), tt, []).
Proof.
  assert (H0 : 8 <> 0) by lia. assert (H16 : 8 <> 16) by lia.
  split; [reflexivity|]. split; [reflexivity|]. split; [reflexivity|].
  split; [exact H0|]. split; [exact H16|].
  exact (proj2 (proj2 (proj2 (proj2
           (probes_reach_hardware_at_base_addresses_only (Sim.const_r32 0)
              (fun _ _ h => h) Sim.phy_read Sim.phy_write
              (Sim.loader Sim.rtl8218b_fw) crc32_le Sim.rtl83xx_fw_header
              RTL8380_FAMILY_ID 0x8380 0 0 0 0 0 0 0 true 8 tt))))
           eq_refl eq_refl eq_refl H0 H16).
Defined.


(** Witness for X17: the sealed image on a register file; all eight lists end inside
    the file. *)
Lemma rtl8380_configure_serdes_restores_power_down_witness :
  retval (rtl8380_configure_serdes Sim.reg_r32 Sim.reg_w32
            (Sim.loader Sim.rtl8218b_fw) crc32_le Sim.rtl83xx_fw_header
            0x0034 0x0058 0x005c 0x0028 0x0ff8 ∅) = Some 0 /\
  fw_ret (rtl838x_request_fw (Sim.loader Sim.rtl8218b_fw) crc32_le
            Sim.rtl83xx_fw_header FIRMWARE_838X_8380_1) <> None /\
  exists v mid v',
    trace (rtl8380_configure_serdes Sim.reg_r32 Sim.reg_w32
             (Sim.loader Sim.rtl8218b_fw) crc32_le Sim.rtl83xx_fw_header
             0x0034 0x0058 0x005c 0x0028 0x0ff8 ∅)
    = EvR32 0x0034 v :: mid ++ [EvR32 0x0034 v'; EvW32 v 0x0034].
Proof.
  assert (H : retval (rtl8380_configure_serdes Sim.reg_r32 Sim.reg_w32
                        (Sim.loader Sim.rtl8218b_fw) crc32_le
                        Sim.rtl83xx_fw_header
                        0x0034 0x0058 0x005c 0x0028 0x0ff8 ∅) = Some 0)
    by (vm_compute; reflexivity).
  assert (Hfw : fw_ret (rtl838x_request_fw (Sim.loader Sim.rtl8218b_fw) crc32_le
                          Sim.rtl83xx_fw_header FIRMWARE_838X_8380_1) <> None)
    by (vm_compute; discriminate).
  split; [exact H|]. split; [exact Hfw|].
  exact (proj2 (proj2 (rtl8380_configure_serdes_restores_power_down Sim.reg_r32
                         Sim.reg_w32 (Sim.loader Sim.rtl8218b_fw) crc32_le
                         Sim.rtl83xx_fw_header
                         0x0034 0x0058 0x005c 0x0028 0x0ff8 ∅)) H).
Defined.


(** Witness for X19: the eight ports of the package at address 8. *)
Lemma verify_patch_ready_only_polls_witness :
  family_transport RTL8380_FAMILY_ID = Some T838x /\
  exists polls : list nat,
    (length polls <= length ports8)%nat /\
    Forall (fun k => (1 <= k <= 100)%nat) polls /\
    trace (verify_patch_ready Sim.phy_read RTL8380_FAMILY_ID 8 ports8 0 tt)
    = concat (zip_with
                (fun p k => repeat (phy_read_event T838x (8 + p) 0xb80 0x10) k)
                ports8 polls).
Proof.
  split; [reflexivity|].
  destruct (verify_patch_ready_only_polls Sim.phy_read RTL8380_FAMILY_ID T838x
              8 ports8 0 tt eq_refl) as (polls & H1 & H2 & H3 & _).
  exists polls. split; [exact H1|]. split; [exact H2 | exact H3].
Defined.

(** Witness for X20: a one-bit call, which can only return 0. *)
Lemma rtl9310_sds_field_r_bound_witness :
  0 <= 13 - 12 - 1 < 32 /\
  0 <= retval (rtl9310_sds_field_r Sim.sds_r32 Sim.sds_w32 Sim.SDS_CMD
                 Sim.SDS_DATA 2 0x1f 9 13 12 Sim.sds_reset)
    < 2 ^ (13 - 12 - 1).
Proof.
  assert (H : 0 <= 13 - 12 - 1 < 32) by lia.
  split; [exact H|].
  exact (rtl9310_sds_field_r_bound Sim.sds_r32 Sim.sds_w32 Sim.SDS_CMD
           Sim.SDS_DATA 2 0x1f 9 13 12 Sim.sds_reset H).
Defined.

(** ** The SerDes of the RTL8393 *)

(** X21: [rtl8393_serdes_probe] returns [-ENODEV] without an access on
    another family or for an address below 24, and [-ENOMEM] without an
    access when the allocation fails.  Otherwise, on a register file, it
    returns 0, bit 18 of the word at [RTL839X_SDS12_13_XSG0 + 0x0a] is
    set, bits 10 to 14 of the word at [RTL839X_SDS12_13_XSG0 + 0xe0] are
    clear, and every other bit of every register is what it was. *)
Theorem rtl8393_serdes_probe_forces_link_and_disables_eee
  family RTL839X_SDS12_13_XSG0 devm_kzalloc addr (regs : gmap Z Z) :
  let r := rtl8393_serdes_probe Sim.reg_r32 Sim.reg_w32 family
             RTL839X_SDS12_13_XSG0 devm_kzalloc addr regs in
  (family <> RTL8390_FAMILY_ID \/ addr < 24 -> r = (- ENODEV, regs, [])) /\
  (family = RTL8390_FAMILY_ID -> 24 <= addr -> devm_kzalloc = false ->
   r = (- ENOMEM, regs, [])) /\
  (family = RTL8390_FAMILY_ID -> 24 <= addr -> devm_kzalloc = true ->
   retval r = 0 /\
   forall reg n, 0 <= n ->
     Z.testbit (Sim.reg_value (final r) reg) n
     = if decide (reg = RTL839X_SDS12_13_XSG0 + 0x0a /\ n = 18) then true
       else if decide (reg = RTL839X_SDS12_13_XSG0 + 0xe0 /\ 10 <= n <= 14)
            then false
            else Z.testbit (Sim.reg_value regs reg) n).
Proof.
  cbv zeta. unfold rtl8393_serdes_probe. split; [|split].
  - intros [Hf | Ha].
    + destruct family; try reflexivity. contradiction.
    + destruct family; try reflexivity. cbn [negb].
      destruct (Z.ltb_spec addr 24); [reflexivity | lia].
  - intros -> Ha ->. cbn [negb].
    destruct (Z.ltb_spec addr 24); [lia | reflexivity].
  - intros -> Ha ->. cbn [negb].
    destruct (Z.ltb_spec addr 24); [lia|].
    cbv [rtl8390_configure_serdes sw_r32 sw_w32 sw_w32_mask mbind M_bind mret
         M_ret retval final fst snd Sim.reg_r32].
    split; [reflexivity|]. intros reg n Hn.
    repeat match goal with
    | |- context [u32 (default 0 (?m !! ?r))] =>
        change (u32 (default 0 (m !! r))) with (Sim.reg_value m r)
    end.
    set (A := RTL839X_SDS12_13_XSG0 + 10).
    set (B := RTL839X_SDS12_13_XSG0 + 224).
    assert (HAB : A <> B) by (subst A B; lia).
    rewrite !reg_value_w32.
    rewrite (decide_False (P := A = B)) by assumption.
    change (Z.shiftl 31 10) with (Z.shiftl (Z.ones 5) 10).
    change (Z.shiftl 1 18) with (Z.shiftl (Z.ones 1) 18).
    destruct (decide (B = reg)) as [<-|HB].
    + rewrite decide_False by (intros [? _]; congruence).
      bits_step. rewrite ?Z.testbit_0_l.
      destruct (decide (B = B /\ 10 <= n <= 14)) as [[_ Hr]|Hr].
      * bits_cases; bool_tidy; try lia; reflexivity.
      * bits_cases; bool_tidy; try reflexivity.
        all: try (exfalso; apply Hr; split; [reflexivity | lia]).
        all: try (rewrite testbit_reg_value by lia; reflexivity).
    + rewrite (decide_False (P := reg = B /\ _)) by (intros [? _]; congruence).
      destruct (decide (A = reg)) as [<-|HA]; [|rewrite decide_False by
        (intros [? _]; congruence); reflexivity].
      bits_step. rewrite ?Z.testbit_0_l.
      destruct (decide (A = A /\ n = 18)) as [[_ ->]|Hr].
      * change (18 <? 32) with true. change (18 - 18) with 0.
        change (0 <=? 0) with true. change (0 <? 1) with true.
        cbn [andb]. apply orb_true_r.
      * bits_cases; bool_tidy; try reflexivity.
        all: try (exfalso; apply Hr; split; [reflexivity | lia]).
        all: try (rewrite testbit_reg_value by lia; reflexivity).
Qed.

Lemma rtl8393_serdes_probe_forces_link_and_disables_eee_witness :
  RTL8390_FAMILY_ID = RTL8390_FAMILY_ID /\ 24 <= 48 /\ true = true /\
  (RTL8380_FAMILY_ID <> RTL8390_FAMILY_ID \/ 48 < 24) /\
  rtl8393_serdes_probe Sim.reg_r32 Sim.reg_w32 RTL8380_FAMILY_ID 0xb800 true
    48 ∅ = (- ENODEV, ∅, []) /\
  retval (rtl8393_serdes_probe Sim.reg_r32 Sim.reg_w32 RTL8390_FAMILY_ID
            0xb800 true 48 ∅) = 0.
Proof.
  assert (Ha : 24 <= 48) by lia.
  assert (Hn : RTL8380_FAMILY_ID <> RTL8390_FAMILY_ID \/ 48 < 24)
    by (left; discriminate).
  split; [reflexivity|]. split; [exact Ha|]. split; [reflexivity|].
  split; [exact Hn|]. split.
  - exact (proj1 (rtl8393_serdes_probe_forces_link_and_disables_eee
                    RTL8380_FAMILY_ID 0xb800 true 48 ∅) Hn).
  - exact (proj1 (proj2 (proj2
             (rtl8393_serdes_probe_forces_link_and_disables_eee
                RTL8390_FAMILY_ID 0xb800 true 48 ∅)) eq_refl Ha eq_refl)).
Defined.

(** Witness for X22: the sealed image of the RTL8214FC and a bus that lets
    the configuration of the package at address 24 run to its end. *)
Lemma rtl8380_configure_rtl8214fc_ends_in_auto_medium_witness :
  family_transport RTL8380_FAMILY_ID = Some T838x /\
  retval (rtl8380_configure_rtl8214fc Sim.phy_read Sim.phy_write
            (Sim.loader Sim.rtl8214fc_fw) crc32_le Sim.rtl83xx_fw_header
            RTL8380_FAMILY_ID 0 24 tt) = Some 0 /\
  exists fw entries pre,
    fw_ret (rtl838x_request_fw (Sim.loader Sim.rtl8214fc_fw) crc32_le
              Sim.rtl83xx_fw_header FIRMWARE_838X_8214FC_1) = Some fw /\
    load32 fw (off_phy Sim.rtl83xx_fw_header) = 0x8214fc00 /\
    perport_list (fw_part Sim.rtl83xx_fw_header fw 1) 0 entries /\
    trace (rtl8380_configure_rtl8214fc Sim.phy_read Sim.phy_write
             (Sim.loader Sim.rtl8214fc_fw) crc32_le Sim.rtl83xx_fw_header
             RTL8380_FAMILY_ID 0 24 tt)
    = pre
      ++ broadcast_events T838x 24 (0xff00 + 24)
      ++ map (fun '(r, v) => phy_write_event T838x 24 0xfff r v) entries
      ++ broadcast_events T838x 24 (0x00 + 24)
      ++ auto_medium_events T838x 24.
Proof.
  assert (Hret : retval (rtl8380_configure_rtl8214fc Sim.phy_read Sim.phy_write
                           (Sim.loader Sim.rtl8214fc_fw) crc32_le
                           Sim.rtl83xx_fw_header RTL8380_FAMILY_ID 0 24 tt)
                 = Some 0) by (vm_compute; reflexivity).
  split; [reflexivity|]. split; [exact Hret|].
  exact (rtl8380_configure_rtl8214fc_ends_in_auto_medium
           Sim.phy_read Sim.phy_write (Sim.loader Sim.rtl8214fc_fw) crc32_le
           Sim.rtl83xx_fw_header RTL8380_FAMILY_ID 0 T838x 24 tt eq_refl Hret).
Defined.

(** Witness for X23: no firmware file can be loaded. *)
Lemma rtl8380_configure_rtl8214fc_needs_firmware_witness :
  family_transport RTL8380_FAMILY_ID = Some T838x /\
  (forall fw,
     fw_ret (rtl838x_request_fw (fun _ => None) crc32_le Sim.rtl83xx_fw_header
               FIRMWARE_838X_8214FC_1) = Some fw ->
     load32 fw (off_phy Sim.rtl83xx_fw_header) <> 0x8214fc00) /\
  retval (rtl8380_configure_rtl8214fc Sim.phy_read Sim.phy_write
            (fun _ => None) crc32_le Sim.rtl83xx_fw_header RTL8380_FAMILY_ID
            0 24 tt) = Some (-1) /\
  trace (rtl8380_configure_rtl8214fc Sim.phy_read Sim.phy_write
           (fun _ => None) crc32_le Sim.rtl83xx_fw_header RTL8380_FAMILY_ID
           0 24 tt) = rtl8214fc_id_probe_events T838x 24.
Proof.
  assert (H1 : forall fw,
     fw_ret (rtl838x_request_fw (fun _ => None) crc32_le Sim.rtl83xx_fw_header
               FIRMWARE_838X_8214FC_1) = Some fw ->
     load32 fw (off_phy Sim.rtl83xx_fw_header) <> 0x8214fc00)
    by (intros fw H; vm_compute in H; discriminate H).
  split; [reflexivity|]. split; [exact H1|].
  exact (rtl8380_configure_rtl8214fc_needs_firmware Sim.phy_read Sim.phy_write
           (fun _ => None) crc32_le Sim.rtl83xx_fw_header RTL8380_FAMILY_ID 0
           T838x 24 tt eq_refl H1).
Defined.

(** Witness for X24: the four ports of the package at address 24. *)
Lemma disable_autosensing_only_polls_witness :
  family_transport RTL8380_FAMILY_ID = Some T838x /\
  exists polls : list nat,
    (length polls <= length ports4)%nat /\
    Forall (fun k => (1 <= k <= 100)%nat) polls /\
    trace (disable_autosensing Sim.phy_read RTL8380_FAMILY_ID 24 ports4 0 tt)
    = concat (zip_with
                (fun p k => repeat (phy_read_event T838x (24 + p) 0x0a42 0x10) k)
                ports4 polls).
Proof.
  split; [reflexivity|].
  destruct (disable_autosensing_only_polls Sim.phy_read RTL8380_FAMILY_ID T838x
              24 ports4 0 tt eq_refl) as (polls & H1 & H2 & H3 & _).
  exists polls. split; [exact H1|]. split; [exact H2 | exact H3].
Defined.

(** Witness for X25: a list that selects page [0x260] and writes register
    [0x10] of port 1. *)
Lemma patch_perchip_rtl8214fc_without_reg_0x13_witness :
  (forall j, ([1; 0x1f; 0x260;  1; 0x10; 0x0005;  0; 0; 0] : list Z)
             !! (j * 3 + 1)%nat <> Some 0x13) /\
  patch_perchip_rtl8214fc Sim.phy_read Sim.phy_write RTL8380_FAMILY_ID 3
    (fun i => [1; 0x1f; 0x260;  1; 0x10; 0x0005;  0; 0; 0] !! i) 24 0 0 7 tt
  = ((true, 7), tt,
     [phy_write_event T838x (24 + 1) 0xfff 0x1f 0x260;
      phy_write_event T838x (24 + 1) 0xfff 0x10 0x0005]).
Proof.
  assert (H : forall j, ([1; 0x1f; 0x260;  1; 0x10; 0x0005;  0; 0; 0] : list Z)
                        !! (j * 3 + 1)%nat <> Some 0x13).
  { intros [|[|[|j]]]; cbn; discriminate. }
  split; [exact H|].
  exact (patch_perchip_rtl8214fc_without_reg_0x13 Sim.phy_read Sim.phy_write
           RTL8380_FAMILY_ID 3
           (fun i => [1; 0x1f; 0x260;  1; 0x10; 0x0005;  0; 0; 0] !! i)
           24 0 0 7 tt H).
Defined.

(** Witness for X26: the probe on an RTL8393, and the two match functions
    at address 26 of an RTL8380 for a PHY ID both packages answer with. *)
Lemma rtl8214fc_probe_and_match_witness :
  RTL8380_FAMILY_ID = RTL8380_FAMILY_ID /\
  rtl8214fc_phy_probe Sim.phy_read Sim.phy_write (Sim.loader Sim.rtl8214fc_fw)
    crc32_le Sim.rtl83xx_fw_header RTL8390_FAMILY_ID 0x8393 0 true 48 tt
  = (Some (- ENODEV), tt, []) /\
  rtl8218b_ext_match_phy_device RTL8380_FAMILY_ID 0x001cc981 0x001cc981 26
  && rtl8214fc_match_phy_device 0x001cc981 0x001cc981 26 = false.
Proof.
  split; [reflexivity|]. split.
  - exact (proj1 (rtl8214fc_probe_and_match Sim.phy_read Sim.phy_write
                    (Sim.loader Sim.rtl8214fc_fw) crc32_le Sim.rtl83xx_fw_header
                    RTL8390_FAMILY_ID 0x8393 0 true 0 0 0 0 48 tt) eq_refl).
  - exact (proj1 (proj2 (proj2
             (rtl8214fc_probe_and_match Sim.phy_read Sim.phy_write
                (Sim.loader Sim.rtl8214fc_fw) crc32_le Sim.rtl83xx_fw_header
                RTL8380_FAMILY_ID 0x8380 0 true 0x001cc981 0x001cc981
                0x001cc981 0x001cc981 26 tt)) eq_refl)).
Defined.
